(** * Verification of the novel-writing assistant (app.py)

    A shallow embedding of the non-UI logic of [app.py]: the token
    estimator, the usage ledger, the synopsis quality heuristic, the
    provider gateway, the prompt builder and the two session handlers
    (project import and full-story generation), followed by the theorems
    that settle the specification's claims against them. *)

From Stdlib Require Import ZArith List String Ascii Bool Lia.
From Stdlib Require Import Floats.
Import ListNotations.
Open Scope Z_scope.

(* ================================================================= *)
(** * Python strings *)

(** A Python [str] is a sequence of Unicode code points; [len] counts
    code points, so a Japanese character is one element.  Literals of
    the source are written as UTF-8 text and decoded by [py]. *)

Definition pystr := list Z.

Fixpoint utf8_decode (s : string) (pending : nat) (acc : Z) : pystr :=
  match s with
  | EmptyString => []
  | String c rest =>
      let b := Z.of_nat (nat_of_ascii c) in
      match pending with
      | O =>
          if b <? 128 then b :: utf8_decode rest 0 0
          else if b <? 224 then utf8_decode rest 1 (Z.land b 31)
          else if b <? 240 then utf8_decode rest 2 (Z.land b 15)
          else utf8_decode rest 3 (Z.land b 7)
      | S O => (acc * 64 + Z.land b 63) :: utf8_decode rest 0 0
      | S p => utf8_decode rest p (acc * 64 + Z.land b 63)
      end
  end.

Definition py (s : string) : pystr := utf8_decode s 0 0.

(** [len(s)] *)
Definition len (s : pystr) : Z := Z.of_nat (List.length s).

(** [a == b] on strings *)
Fixpoint str_eqb (a b : pystr) : bool :=
  match a, b with
  | [], [] => true
  | x :: a', y :: b' => (x =? y) && str_eqb a' b'
  | _, _ => false
  end.

(** [s.startswith(p)] *)
Fixpoint startswith (s p : pystr) : bool :=
  match p, s with
  | [], _ => true
  | x :: p', y :: s' => (x =? y) && startswith s' p'
  | _ :: _, [] => false
  end.

(** [w in s]: substring test *)
Fixpoint contains (w s : pystr) : bool :=
  startswith s w ||
  match s with
  | [] => false
  | _ :: s' => contains w s'
  end.

(** [s.split(sep)] for a separator of one code point, the only form the
    source uses ([synopsis.split("。")]). *)
Fixpoint split (sep : Z) (s : pystr) : list pystr :=
  match s with
  | [] => [[]]
  | c :: rest =>
      if c =? sep then [] :: split sep rest
      else match split sep rest with
           | [] => [[c]]
           | piece :: pieces => (c :: piece) :: pieces
           end
  end.

(** The code points for which [str.isspace] holds, which [str.strip]
    removes: CPython's white-space table. *)
Definition isspace (c : Z) : bool :=
  ((9 <=? c) && (c <=? 13)) || ((28 <=? c) && (c <=? 32)) ||
  (c =? 133) || (c =? 160) || (c =? 5760) ||
  ((8192 <=? c) && (c <=? 8202)) || (c =? 8232) || (c =? 8233) ||
  (c =? 8239) || (c =? 8287) || (c =? 12288).

Fixpoint lstrip (s : pystr) : pystr :=
  match s with
  | [] => []
  | c :: rest => if isspace c then lstrip rest else s
  end.

Definition rstrip (s : pystr) : pystr := rev (lstrip (rev s)).

(** [s.strip()] *)
Definition strip (s : pystr) : pystr := rstrip (lstrip s).

(** Truth value of a string: non-empty. *)
Definition nonempty (s : pystr) : bool :=
  match s with [] => false | _ :: _ => true end.

(** [s[:n]] for [n >= 0] *)
Definition str_prefix (n : nat) (s : pystr) : pystr := firstn n s.

(** [sep.join(parts)] *)
Fixpoint join (sep : pystr) (parts : list pystr) : pystr :=
  match parts with
  | [] => []
  | [p] => p
  | p :: rest => p ++ sep ++ join sep rest
  end.

(* ================================================================= *)
(** * count_tokens *)

Section TokenEstimator.

(** [\w] of Python's [re] on [str] patterns matches the Unicode
    alphanumerics and the underscore.  The alphanumeric table belongs
    to the Unicode database of the interpreter, so it is a parameter. *)
Variable isalnum : Z -> bool.

Definition is_word_char (c : Z) : bool := isalnum c || (c =? 95).

(** [len([c for c in text if ord(c) > 127])] *)
Definition japanese_chars (text : pystr) : Z :=
  Z.of_nat (List.length (filter (fun c => 127 <? c) text)).

(** [len(re.findall(r'\b\w+\b', text))]: a match starts at a word
    boundary, takes every word character that follows and ends at the
    next boundary, so the matches are the maximal runs of word
    characters.  [in_word] tells whether the previous character was a
    word character. *)
Fixpoint word_runs (in_word : bool) (text : pystr) : Z :=
  match text with
  | [] => 0
  | c :: rest =>
      if is_word_char c
      then (if in_word then 0 else 1) + word_runs true rest
      else word_runs false rest
  end.

Definition english_words (text : pystr) : Z := word_runs false text.

(** [int(japanese_chars * 1.5 + english_words * 1.3)].  The exact value
    is [(15 j + 13 w) / 10], a multiple of one tenth.  The source
    evaluates the expression in binary64: for the counts a text can
    have, the rounding error stays far below one tenth, and where the
    exact value is an integer ([w] a multiple of 5) the computed value
    is not below it, the double nearest to 1.3 being above 1.3.  So
    [int] yields the exact quotient rounded down, which is the
    definition here; [float_weighted] below is the binary64 evaluation
    and [float_weighted_agrees] compares the two on grids of counts. *)
Definition weighted (j w : Z) : Z := (15 * j + 13 * w) / 10.

Definition count_tokens (text : pystr) : Z :=
  let japanese_chars := japanese_chars text in
  let english_words := english_words text in
  let estimated_tokens := weighted japanese_chars english_words in
  let estimated_tokens :=
    if 500 <? len text then estimated_tokens + len text / 10
    else estimated_tokens in
  Z.max 1 estimated_tokens.

End TokenEstimator.

(** The same expression in IEEE 754 binary64, as the interpreter
    evaluates it: [int(j * 1.5 + w * 1.3)]. *)
Definition float_trunc (f : float) : Z :=
  match Prim2SF f with
  | S754_finite sign m e =>
      let v := if (0 <=? e)%Z then Z.pos m * 2 ^ e
               else Z.pos m / 2 ^ (- e) in
      if sign then - v else v
  | _ => 0
  end.

Definition float_of_count (n : Z) : float :=
  PrimFloat.of_uint63 (Uint63.of_Z n).

#[warnings="-inexact-float"]
Definition float_weighted (j w : Z) : Z :=
  float_trunc (float_of_count j * 1.5 + float_of_count w * 1.3)%float.

Definition grid (start : Z) (n : nat) : list Z :=
  map (fun k => start + Z.of_nat k) (seq 0 n).

Definition float_weighted_agrees_on (js ws : list Z) : bool :=
  forallb (fun j => forallb (fun w => float_weighted j w =? weighted j w) ws) js.

(* ================================================================= *)
(** * analyze_synopsis_quality *)

Definition engaging_words : list pystr :=
  [py "しかし"; py "だが"; py "突然"; py "ついに"; py "果たして";
   py "なぜなら"; py "そして"; py "もし"; py "驚くべきことに"].

Definition genre_keywords : list pystr :=
  [py "魔法"; py "異世界"; py "ドラゴン"; py "冒険"].

(** The length band: [if 200 <= len <= 400 ... elif 150 <= len <= 500 ...
    else ...]. *)
Definition length_band (synopsis : pystr) (score : Z) : Z :=
  if (200 <=? len synopsis) && (len synopsis <=? 400) then score + 30
  else if (150 <=? len synopsis) && (len synopsis <=? 500) then score + 20
  else score + 10.

(** [for word in engaging_words: if word in synopsis: score += 5] *)
Definition engaging_loop (synopsis : pystr) (score : Z) : Z :=
  fold_left (fun score word => if contains word synopsis then score + 5 else score)
            engaging_words score.

(** [if "?" in synopsis or "！" in synopsis: score += 10]: the question
    mark is U+003F, the exclamation mark is U+FF01. *)
Definition punctuation_bonus (synopsis : pystr) (score : Z) : Z :=
  if contains (py "?") synopsis || contains (py "！") synopsis then score + 10
  else score.

(** [if any(keyword in synopsis for keyword in [...]): score += 15] *)
Definition genre_bonus (synopsis : pystr) (score : Z) : Z :=
  if existsb (fun keyword => contains keyword synopsis) genre_keywords
  then score + 15 else score.

(** [sentences = synopsis.split("。")] followed by
    [sentences = [s.strip() for s in sentences if s.strip()]]. *)
Definition sentences_of (synopsis : pystr) : list pystr :=
  let sentences := split 12290 synopsis in
  map strip (filter (fun s => nonempty (strip s)) sentences).

Definition sentence_bonus (synopsis : pystr) (score : Z) : Z :=
  let sentences := sentences_of synopsis in
  if (3 <=? Z.of_nat (List.length sentences)) && (Z.of_nat (List.length sentences) <=? 6)
  then score + 20 else score.

Definition analyze_synopsis_quality (synopsis : pystr) : Z :=
  let score := 0 in
  let score := length_band synopsis score in
  let score := engaging_loop synopsis score in
  let score := punctuation_bonus synopsis score in
  let score := genre_bonus synopsis score in
  let score := sentence_bonus synopsis score in
  Z.min score 100.

(** Number of places of [s] at which [w] occurs as a substring, the
    quantity the specification's per-occurrence reading counts. *)
Fixpoint occurrences (w s : pystr) : Z :=
  (if startswith s w then 1 else 0) +
  match s with
  | [] => 0
  | _ :: s' => occurrences w s'
  end.

(** [s * n]: repetition *)
Fixpoint repeat_str (s : pystr) (n : nat) : pystr :=
  match n with
  | O => []
  | S n' => s ++ repeat_str s n'
  end.

(* ================================================================= *)
(** * Python values and dictionaries *)

(** The values the session holds: what the widgets produce and what
    [json.load] returns (numbers are integers here; the application
    stores none itself). *)
#[local] Unset Elimination Schemes.
Inductive value : Type :=
| VNone
| VBool (b : bool)
| VInt (n : Z)
| VStr (s : pystr)
| VList (xs : list value)
| VDict (items : list (pystr * value)).
#[local] Set Elimination Schemes.

(** A [dict] with string keys, in insertion order. *)
Definition pydict := list (pystr * value).

(** [k in d] *)
Fixpoint dict_has (d : pydict) (k : pystr) : bool :=
  match d with
  | [] => false
  | (k', _) :: rest => str_eqb k' k || dict_has rest k
  end.

(** [d[k]] when present *)
Fixpoint dict_get (d : pydict) (k : pystr) : option value :=
  match d with
  | [] => None
  | (k', v) :: rest => if str_eqb k' k then Some v else dict_get rest k
  end.

(** [d.get(k)]: [None] when the key is absent *)
Definition get (d : pydict) (k : pystr) : value :=
  match dict_get d k with Some v => v | None => VNone end.

(** [d.get(k, default)] with a string default *)
Definition get_default (d : pydict) (k default : pystr) : value :=
  match dict_get d k with Some v => v | None => VStr default end.

(** [d[k] = v]: a present key keeps its place, a new key goes last. *)
Fixpoint dict_set (d : pydict) (k : pystr) (v : value) : pydict :=
  match d with
  | [] => [(k, v)]
  | (k', v') :: rest =>
      if str_eqb k' k then (k', v) :: rest else (k', v') :: dict_set rest k v
  end.

(** [d.update(other)] for a dictionary [other] *)
Definition dict_update (d other : pydict) : pydict :=
  fold_left (fun d kv => dict_set d (fst kv) (snd kv)) other d.

(** [list(d.keys())] *)
Definition keys (d : pydict) : list pystr := map fst d.

(** No key occurs twice, as in every Python dictionary. *)
Fixpoint distinct_keys (d : pydict) : bool :=
  match d with
  | [] => true
  | (k, _) :: rest => negb (dict_has rest k) && distinct_keys rest
  end.

(** Truth value of an object, as [if x:] and [not x] take it. *)
Definition truthy (v : value) : bool :=
  match v with
  | VNone => false
  | VBool b => b
  | VInt n => negb (n =? 0)
  | VStr s => nonempty s
  | VList xs => match xs with [] => false | _ :: _ => true end
  | VDict items => match items with [] => false | _ :: _ => true end
  end.

(** Exceptions the modelled code can raise.  [SubscriptError] is what
    slicing a dictionary raises ([TypeError] or [KeyError], by
    interpreter version). *)
Inductive exn : Type :=
| NameError (name : pystr)
| AttributeError
| TypeError
| KeyError (key : pystr)
| SubscriptError.

Inductive outcome (A : Type) : Type :=
| Returned (a : A)
| Raised (e : exn).

Arguments Returned {A} a.
Arguments Raised {A} e.

Definition bind {A B : Type} (m : outcome A) (k : A -> outcome B) : outcome B :=
  match m with
  | Returned a => k a
  | Raised e => Raised e
  end.

Notation "x <- m ;; k" := (bind m (fun x => k))
  (at level 61, m at next level, right associativity).

(* ================================================================= *)
(** * The usage ledger *)

(** An entry of [request_history]. *)
Record UsageRecord : Type := {
  timestamp : pystr;
  model : pystr;
  prompt_tokens : Z;
  response_tokens : Z;
  total_tokens : Z
}.

(** [st.session_state.api_usage] *)
Record ApiUsage : Type := {
  daily_requests : Z;
  daily_tokens_used : Z;
  last_reset_date : pystr;
  total_requests : Z;
  total_tokens_used : Z;
  request_history : list UsageRecord
}.

(** The ledger a fresh session starts with. *)
Definition initial_usage (today : pystr) : ApiUsage := {|
  daily_requests := 0; daily_tokens_used := 0;
  last_reset_date := today;
  total_requests := 0; total_tokens_used := 0;
  request_history := []
|}.

(** [l[-n:]] for [n > 0] *)
Definition last_n {A : Type} (n : nat) (l : list A) : list A :=
  skipn (List.length l - n) l.

(** [now] is the value of [datetime.now().isoformat()] at the call. *)
Definition log_api_usage (now : pystr) (prompt response model_name : pystr)
    (prompt_tokens response_tokens : Z) (u : ApiUsage) : ApiUsage :=
  let total_tokens := prompt_tokens + response_tokens in
  let history :=
    request_history u ++
    [{| timestamp := now; model := model_name;
        prompt_tokens := prompt_tokens; response_tokens := response_tokens;
        total_tokens := total_tokens |}] in
  {| daily_requests := daily_requests u + 1;
     daily_tokens_used := daily_tokens_used u + total_tokens;
     last_reset_date := last_reset_date u;
     total_requests := total_requests u + 1;
     total_tokens_used := total_tokens_used u + total_tokens;
     request_history :=
       if (100 <? List.length history)%nat then last_n 100 history else history |}.

(** The date reset at module level:
    [if api_usage['last_reset_date'] != current_date: api_usage.update(...)]. *)
Definition daily_reset (current_date : pystr) (u : ApiUsage) : ApiUsage :=
  if negb (str_eqb (last_reset_date u) current_date)
  then {| daily_requests := 0; daily_tokens_used := 0;
          last_reset_date := current_date;
          total_requests := total_requests u;
          total_tokens_used := total_tokens_used u;
          request_history := request_history u |}
  else u.

(** One call of [log_api_usage], as data. *)
Record LogCall : Type := {
  call_now : pystr;
  call_prompt : pystr;
  call_response : pystr;
  call_model : pystr;
  call_prompt_tokens : Z;
  call_response_tokens : Z
}.

Definition record_of (c : LogCall) : UsageRecord := {|
  timestamp := call_now c; model := call_model c;
  prompt_tokens := call_prompt_tokens c;
  response_tokens := call_response_tokens c;
  total_tokens := call_prompt_tokens c + call_response_tokens c
|}.

Definition log_call (u : ApiUsage) (c : LogCall) : ApiUsage :=
  log_api_usage (call_now c) (call_prompt c) (call_response c) (call_model c)
                (call_prompt_tokens c) (call_response_tokens c) u.

(** The ledger after the calls [cs], made in that order. *)
Definition log_all (cs : list LogCall) (u : ApiUsage) : ApiUsage :=
  fold_left log_call cs u.

Definition tokens_of (cs : list LogCall) : Z :=
  fold_right (fun c acc => call_prompt_tokens c + call_response_tokens c + acc) 0 cs.

(* ================================================================= *)
(** * Session state and the provider gateway *)

(** The part of [st.session_state] the modelled code reads or writes.
    [sdk_requests] is not a field of the program: it lists, oldest
    first, the (provider, prompt) pairs handed to a vendor SDK, so that
    the absence of an outbound call can be stated. *)
Record Session : Type := {
  selected_model_provider : pystr;
  user_api_keys : pydict;
  current_user : option pystr;
  api_usage : ApiUsage;
  current_call_token_info : pydict;
  projects : pydict;
  current_project : option pystr;
  sdk_requests : list (pystr * pystr)
}.

Definition set_api_usage (u : ApiUsage) (s : Session) : Session := {|
  selected_model_provider := selected_model_provider s;
  user_api_keys := user_api_keys s;
  current_user := current_user s;
  api_usage := u;
  current_call_token_info := current_call_token_info s;
  projects := projects s;
  current_project := current_project s;
  sdk_requests := sdk_requests s
|}.

Definition set_current_call_token_info (info : pydict) (s : Session) : Session := {|
  selected_model_provider := selected_model_provider s;
  user_api_keys := user_api_keys s;
  current_user := current_user s;
  api_usage := api_usage s;
  current_call_token_info := info;
  projects := projects s;
  current_project := current_project s;
  sdk_requests := sdk_requests s
|}.

Definition set_projects (ps : pydict) (s : Session) : Session := {|
  selected_model_provider := selected_model_provider s;
  user_api_keys := user_api_keys s;
  current_user := current_user s;
  api_usage := api_usage s;
  current_call_token_info := current_call_token_info s;
  projects := ps;
  current_project := current_project s;
  sdk_requests := sdk_requests s
|}.

Definition note_sdk_request (provider prompt : pystr) (s : Session) : Session := {|
  selected_model_provider := selected_model_provider s;
  user_api_keys := user_api_keys s;
  current_user := current_user s;
  api_usage := api_usage s;
  current_call_token_info := current_call_token_info s;
  projects := projects s;
  current_project := current_project s;
  sdk_requests := sdk_requests s ++ [(provider, prompt)]
|}.

Definition get_model_name (provider : pystr) : pystr :=
  if str_eqb provider (py "Gemini") then py "gemini-2.0-flash"
  else if str_eqb provider (py "OpenAI") then py "gpt-4o-mini"
  else if str_eqb provider (py "Claude") then py "claude-3-haiku-20240307"
  else py "".

(** The dictionary [call_generative_api] returns. *)
Record ApiResponse : Type := {
  text : pystr;
  reply_prompt_tokens : Z;
  reply_response_tokens : Z
}.

(** What a vendor SDK does with a request: it answers with a text and
    the token usage it reports (the Gemini branch reads the text only),
    or it raises, and [str(e)] is the message. *)
Inductive sdk_result : Type :=
| SdkResponse (response_text : pystr) (usage_prompt_tokens usage_response_tokens : Z)
| SdkException (message : pystr).

Section Gateway.

Variable isalnum : Z -> bool.

(** The vendor SDKs are external: provider, credential, model name
    and prompt go in. *)
Variable sdk : pystr -> value -> pystr -> pystr -> sdk_result.

(** The tail of the [try] block: ledger entry, last-call summary,
    result. *)
Definition call_succeeded (now prompt response_text model_name : pystr)
    (prompt_tokens response_tokens : Z) (s : Session) : ApiResponse * Session :=
  let s := set_api_usage
             (log_api_usage now prompt response_text model_name
                            prompt_tokens response_tokens (api_usage s)) s in
  let s := set_current_call_token_info
             [(py "model", VStr model_name);
              (py "prompt_tokens", VInt prompt_tokens);
              (py "response_tokens", VInt response_tokens);
              (py "total_tokens", VInt (prompt_tokens + response_tokens))] s in
  ({| text := response_text;
      reply_prompt_tokens := prompt_tokens;
      reply_response_tokens := response_tokens |}, s).

(** The [except Exception as e] handler. *)
Definition call_failed (model_name message : pystr) (s : Session)
    : ApiResponse * Session :=
  let error_message := py "API呼び出し中にエラーが発生しました: " ++ message in
  let s := set_current_call_token_info
             [(py "model", VStr model_name);
              (py "prompt_tokens", VInt 0);
              (py "response_tokens", VInt 0);
              (py "total_tokens", VInt 0);
              (py "error", VStr message)] s in
  ({| text := error_message;
      reply_prompt_tokens := 0; reply_response_tokens := 0 |}, s).

(** An early [return] of an error text. *)
Definition refused (message : pystr) (s : Session) : ApiResponse * Session :=
  ({| text := message; reply_prompt_tokens := 0; reply_response_tokens := 0 |}, s).

Definition call_generative_api (now prompt : pystr) (s : Session)
    : ApiResponse * Session :=
  let model_provider := selected_model_provider s in
  let api_keys := user_api_keys s in
  let model_name := get_model_name model_provider in
  if str_eqb model_provider (py "Gemini") then
    let api_key := get api_keys (py "gemini") in
    if negb (truthy api_key)
    then refused (py "エラー: Gemini APIキーが設定されていません。") s
    else
      let prompt_tokens := count_tokens isalnum prompt in
      let s := note_sdk_request model_provider prompt s in
      match sdk model_provider api_key model_name prompt with
      | SdkResponse response_text _ _ =>
          let response_tokens := count_tokens isalnum response_text in
          call_succeeded now prompt response_text model_name
                         prompt_tokens response_tokens s
      | SdkException message => call_failed model_name message s
      end
  else if str_eqb model_provider (py "OpenAI") then
    let api_key := get api_keys (py "openai") in
    if negb (truthy api_key)
    then refused (py "エラー: OpenAI APIキーが設定されていません。") s
    else
      let s := note_sdk_request model_provider prompt s in
      match sdk model_provider api_key model_name prompt with
      | SdkResponse response_text prompt_tokens response_tokens =>
          call_succeeded now prompt response_text model_name
                         prompt_tokens response_tokens s
      | SdkException message => call_failed model_name message s
      end
  else if str_eqb model_provider (py "Claude") then
    let api_key := get api_keys (py "claude") in
    if negb (truthy api_key)
    then refused (py "エラー: Anthropic (Claude) APIキーが設定されていません。") s
    else
      let s := note_sdk_request model_provider prompt s in
      match sdk model_provider api_key model_name prompt with
      | SdkResponse response_text prompt_tokens response_tokens =>
          call_succeeded now prompt response_text model_name
                         prompt_tokens response_tokens s
      | SdkException message => call_failed model_name message s
      end
  else refused (py "エラー: 不明なAIモデルが選択されています。") s.

End Gateway.

(** The three providers of the selection box, with the key under which
    the gateway looks the credential up and the name its error text
    gives the provider. *)
Inductive Provider : Type := Gemini | OpenAI | Claude.

Definition provider_name (p : Provider) : pystr :=
  match p with
  | Gemini => py "Gemini"
  | OpenAI => py "OpenAI"
  | Claude => py "Claude"
  end.

Definition credential_key (p : Provider) : pystr :=
  match p with
  | Gemini => py "gemini"
  | OpenAI => py "openai"
  | Claude => py "claude"
  end.

Definition display_name (p : Provider) : pystr :=
  match p with
  | Gemini => py "Gemini"
  | OpenAI => py "OpenAI"
  | Claude => py "Anthropic (Claude)"
  end.

Definition missing_credential (p : Provider) : ApiResponse := {|
  text := py "エラー: " ++ display_name p ++ py " APIキーが設定されていません。";
  reply_prompt_tokens := 0;
  reply_response_tokens := 0
|}.

(* ================================================================= *)
(** * generate_ai_content *)

(** What a global name is bound to: a data object, or something opaque
    to this model (a module, a class, a function). *)
Inductive binding : Type :=
| Object (v : value)
| Opaque.

Definition scope := list (pystr * binding).

Fixpoint lookup (g : scope) (name : pystr) : option binding :=
  match g with
  | [] => None
  | (n, b) :: rest => if str_eqb n name then Some b else lookup rest name
  end.

(** Evaluation of [name.get] for a global [name]: the name must be
    bound, and to an object that has the method. *)
Definition global_dict (g : scope) (name : pystr) : outcome pydict :=
  match lookup g name with
  | None => Raised (NameError name)
  | Some (Object (VDict d)) => Returned d
  | Some _ => Raised AttributeError
  end.

(** [x[:n]] *)
Definition slice_to (n : nat) (x : value) : outcome value :=
  match x with
  | VStr s => Returned (VStr (str_prefix n s))
  | VList xs => Returned (VList (firstn n xs))
  | VDict _ => Raised SubscriptError
  | _ => Raised TypeError
  end.

(** The lines of a triple-quoted template, joined by line feeds. *)
Definition lines (ls : list pystr) : pystr := join [10] ls.

Section PromptBuilder.

(** [str(x)] of the interpreter for an object that is not a string. *)
Variable str_of : value -> pystr.

(** A replacement field [{x}] of an f-string. *)
Definition format (x : value) : pystr :=
  match x with
  | VStr s => s
  | _ => str_of x
  end.

(** [additional_params.get(key, default) if additional_params else default] *)
Definition param (additional_params : option pydict) (key default : pystr) : pystr :=
  match additional_params with
  | Some (_ :: _ as d) => format (get_default d key default)
  | _ => default
  end.

(** The names [genre] and [target_audience] are read from the
    argument [project_data]; [theme], [synopsis] and [world_setting]
    are read from the global name [project]. *)
Definition base_info (g : scope) (project_data : pydict) : outcome pystr :=
  let genre := format (get_default project_data (py "genre") (py "未設定")) in
  let target_audience :=
    format (get_default project_data (py "target_audience") (py "未設定")) in
  project <- global_dict g (py "project") ;;
  let theme := format (get_default project (py "theme") (py "未設定")) in
  project <- global_dict g (py "project") ;;
  let synopsis := format (get_default project (py "synopsis") (py "未設定")) in
  project <- global_dict g (py "project") ;;
  world_setting <- slice_to 500 (get_default project (py "world_setting") (py "未設定")) ;;
  Returned (lines
    [py "";
     py "作品基本情報:";
     py "- ジャンル: " ++ genre;
     py "- ターゲット読者: " ++ target_audience;
     py "- テーマ: " ++ theme;
     py "- あらすじ: " ++ synopsis;
     py "- 世界観: " ++ format world_setting;
     py ""]).

(** [char_info] of the chapter branch. *)
Definition char_info (project_data : pydict) : outcome pystr :=
  if truthy (get project_data (py "characters")) then
    match get project_data (py "characters") with
    | VDict characters =>
        let char_list_display := firstn 5 (keys characters) in
        Returned ([10] ++ py "主要キャラクター（抜粋）:" ++ [10]
                  ++ join (py ", ") char_list_display)
    | _ => Raised AttributeError
    end
  else Returned (py "").

Definition synopsis_prompt (base_info : pystr) (additional_params : option pydict) : pystr :=
  lines
    [py "";
     py "魅力的なライトノベルのあらすじを作成してください。";
     py "";
     base_info;
     py "追加設定: " ++ param additional_params (py "custom_elements") (py "");
     py "";
     py "要求:";
     py "1. 200-400文字の簡潔なあらすじ";
     py "2. 読者の興味を引く内容";
     py "3. 続きが気になる構成";
     py "4. 完成度の高い、魅力的な品質で作成してください。";
     py ""].

Definition character_prompt (base_info : pystr) (additional_params : option pydict) : pystr :=
  lines
    [py "";
     py "魅力的なライトノベルのキャラクターを作成してください。";
     py "";
     base_info;
     py "キャラクター要求:";
     py "- 名前: " ++ param additional_params (py "char_name") (py "");
     py "- 役割: " ++ param additional_params (py "char_role") (py "");
     py "- 追加要求: " ++ param additional_params (py "char_details") (py "");
     py "";
     py "作成項目:";
     py "1. 詳細な性格設定";
     py "2. 背景・過去";
     py "3. 目標・動機";
     py "4. 外見・特徴";
     py "5. 口調・話し方";
     py "6. 他キャラとの関係性";
     py "";
     py "読者に愛される魅力的なキャラクターを設計してください。";
     py ""].

Definition world_setting_prompt (base_info : pystr) (additional_params : option pydict) : pystr :=
  lines
    [py "";
     py "独創的で魅力的な世界観を構築してください。";
     py "";
     base_info;
     py "世界観要求: " ++ param additional_params (py "world_elements") (py "");
     py "";
     py "構築項目:";
     py "1. 世界の基本ルール・法則";
     py "2. 歴史・背景";
     py "3. 政治・社会システム";
     py "4. 魔法・超能力システム（該当する場合）";
     py "5. 地理・環境";
     py "6. 文化・風習";
     py "7. 技術レベル";
     py "";
     py "既存作品との差別化を意識した独創的な世界観を作成してください。";
     py ""].

Definition chapter_prompt (base_info char_info : pystr) (additional_params : option pydict) : pystr :=
  lines
    [py "";
     py "読者を引き込む魅力的な章を執筆してください。";
     py "";
     base_info ++ char_info;
     py "章の設定:";
     py "- チャプター名/番号: " ++ param additional_params (py "chapter_name") (py "第X章");
     py "- プロット概要: " ++ param additional_params (py "chapter_plot") (py "指定なし");
     py "- 文字数目標: " ++ param additional_params (py "target_length") (py "3000-5000") ++ py "文字";
     py "- 文体: " ++ param additional_params (py "writing_style") (py "三人称");
     py "";
     py "執筆要求:";
     py "1. 魅力的な導入";
     py "2. キャラクターの魅力を最大化";
     py "3. 読者を飽きさせない展開";
     py "4. 次章への引き";
     py "5. 完成度の高い文章力";
     py "";
     py "多くの読者に楽しんでもらえる品質で執筆してください。";
     py ""].

Definition full_story_prompt (base_info : pystr) (additional_params : option pydict) : pystr :=
  lines
    [py "";
     py "完全なライトノベル作品を執筆してください。";
     py "";
     base_info;
     py "執筆要求:";
     py "- 文字数: " ++ param additional_params (py "target_length") (py "10000-15000") ++ py "文字";
     py "- 章数: " ++ param additional_params (py "chapter_count") (py "3-5") ++ py "章構成";
     py "- 文体: " ++ param additional_params (py "writing_style") (py "三人称");
     py "";
     py "構成:";
     py "1. 魅力的なプロローグ";
     py "2. キャラクター紹介と世界観提示";
     py "3. 事件・問題の発生";
     py "4. 展開・クライマックス";
     py "5. 解決・エピローグ";
     py "";
     py "素晴らしい品質で作成してください。各章の終わりに【第○章 終了】と明記してください。";
     py ""].

(** The prompt [generate_ai_content] hands to the gateway: everything
    the function computes before [call_generative_api(prompt)]. *)
Definition build_prompt (g : scope) (content_type : pystr) (project_data : pydict)
    (additional_params : option pydict) : outcome pystr :=
  base_info <- base_info g project_data ;;
  if str_eqb content_type (py "synopsis") then
    Returned (synopsis_prompt base_info additional_params)
  else if str_eqb content_type (py "character") then
    Returned (character_prompt base_info additional_params)
  else if str_eqb content_type (py "world_setting") then
    Returned (world_setting_prompt base_info additional_params)
  else if str_eqb content_type (py "chapter") then
    char_info <- char_info project_data ;;
    Returned (chapter_prompt base_info char_info additional_params)
  else if str_eqb content_type (py "full_story") then
    Returned (full_story_prompt base_info additional_params)
  else Returned (py "").

Variable isalnum : Z -> bool.
Variable sdk : pystr -> value -> pystr -> pystr -> sdk_result.

Definition generate_ai_content (g : scope) (now : pystr) (content_type : pystr)
    (project_data : pydict) (additional_params : option pydict) (s : Session)
    : outcome pystr * Session :=
  match build_prompt g content_type project_data additional_params with
  | Returned prompt =>
      let (api_response, s) := call_generative_api isalnum sdk now prompt s in
      (Returned (text api_response), s)
  | Raised e => (Raised e, s)
  end.

End PromptBuilder.

(** The global scope of the script when a view runs: the names its top
    level binds, in the order it binds them.  [project_name] and
    [project_data] are what the glossary loop at module level leaves
    behind, bound only when that loop ran over at least one project. *)
Definition names_bound_before_views : list string :=
  ["st"; "genai"; "openai"; "anthropic"; "json"; "time"; "datetime"; "re";
   "Dict"; "List"; "Optional";
   "count_tokens"; "log_api_usage"; "get_model_name";
   "analyze_synopsis_quality"; "call_generative_api";
   "generate_ai_content"; "modify_content_with_ai"]%string.

Definition view_names : list string :=
  ["setup_user_view"; "login_view"; "glossary_sidebar_view"; "main_app_view"]%string.

Definition opaque_names (names : list string) : scope :=
  map (fun n => (py n, Opaque)) names.

Definition loop_variables (projects_at_start : pydict) : scope :=
  match rev projects_at_start with
  | [] => []
  | (project_name, project_data) :: _ =>
      [(py "project_name", Object (VStr project_name));
       (py "project_data", Object project_data)]
  end.

Definition script_scope (projects_at_start : pydict) (current_date : pystr) : scope :=
  opaque_names names_bound_before_views
  ++ loop_variables projects_at_start
  ++ [(py "current_date", Object (VStr current_date))]
  ++ opaque_names view_names.

(* ================================================================= *)
(** * The import handler *)

(** What [json.load(uploaded_file)] gives the handler: it raises
    [JSONDecodeError] on a malformed document, and returns the decoded
    top-level object otherwise (the export format is an object keyed by
    project name). *)
Inductive load_result : Type :=
| JSONDecodeError
| Loaded (imported_data : pydict).

(** The message the handler leaves in the sidebar. *)
Inductive import_notice : Type :=
| ImportDone               (* st.sidebar.success("インポート完了！") *)
| InvalidJSON              (* st.sidebar.error("無効なJSONファイルです。") *)
| ImportFailed (e : exn).  (* st.sidebar.error(f"インポートエラー: {e}") *)

Definition is_str (k : pystr) (v : value) : bool :=
  match v with
  | VStr s => str_eqb s k
  | _ => false
  end.

(** The body of the glossary loop on one project:
    [if 'glossary' not in project_data: project_data['glossary'] = {}].
    The membership test raises on an object that is not a container,
    and the assignment raises on a string or a list. *)
Definition backfill_glossary (project_data : value) : outcome value :=
  match project_data with
  | VDict items =>
      if negb (dict_has items (py "glossary"))
      then Returned (VDict (dict_set items (py "glossary") (VDict [])))
      else Returned project_data
  | VStr s =>
      if negb (contains (py "glossary") s) then Raised TypeError
      else Returned project_data
  | VList xs =>
      if negb (existsb (is_str (py "glossary")) xs) then Raised TypeError
      else Returned project_data
  | _ => Raised TypeError
  end.

(** [for project_name, project_data in projects.items(): ...]: the
    projects are updated in place, in order, until one raises. *)
Fixpoint backfill_all (ps : pydict) : pydict * option exn :=
  match ps with
  | [] => ([], None)
  | (project_name, project_data) :: rest =>
      match backfill_glossary project_data with
      | Returned project_data' =>
          let (rest', e) := backfill_all rest in
          ((project_name, project_data') :: rest', e)
      | Raised e => (ps, Some e)
      end
  end.

(** The handler behind the import button. *)
Definition import_projects (upload : load_result) (s : Session)
    : import_notice * Session :=
  match upload with
  | JSONDecodeError => (InvalidJSON, s)
  | Loaded imported_data =>
      let s := set_projects (dict_update (projects s) imported_data) s in
      let (ps, e) := backfill_all (projects s) in
      let s := set_projects ps s in
      match e with
      | None => (ImportDone, s)
      | Some e => (ImportFailed e, s)
      end
  end.

(** Every project is a dictionary. *)
Definition all_dicts (ps : pydict) : bool :=
  forallb (fun kv => match snd kv with VDict _ => true | _ => false end) ps.

(** The project after the glossary loop, as the specification words it:
    a missing glossary is back-filled with the empty map. *)
Definition with_glossary (project_data : value) : value :=
  match project_data with
  | VDict items =>
      if dict_has items (py "glossary") then project_data
      else VDict (dict_set items (py "glossary") (VDict []))
  | _ => project_data
  end.

(* ================================================================= *)
(** * The full-story handler *)

(** What the handler shows. *)
Inductive story_notice : Type :=
| NoProject                      (* no active project: the tabs are not drawn *)
| KeyNotSet                      (* st.error: set the API key in the sidebar *)
| StoryDone                      (* st.success, then st.rerun() *)
| StoryError (message : pystr).  (* st.error(full_story_content) *)

(** The arguments the full-story handler passes on. *)
Definition full_story_params (total_length chapter_count full_writing_style : pystr)
    : pydict :=
  [(py "target_length", VStr total_length);
   (py "chapter_count", VStr chapter_count);
   (py "writing_style", VStr full_writing_style)].

Section Handlers.

Variable str_of : value -> pystr.
Variable isalnum : Z -> bool.
Variable sdk : pystr -> value -> pystr -> pystr -> sdk_result.

(** [str.lower] of the interpreter. *)
Variable lower : pystr -> pystr.

(** [is_api_key_set] of [main_app_view]:
    [bool(user_api_keys.get(current_user, {}).get(provider))]. *)
Definition is_api_key_set (s : Session) : outcome bool :=
  let provider := lower (selected_model_provider s) in
  let user_keys :=
    match current_user s with
    | Some u =>
        match dict_get (user_api_keys s) u with
        | Some v => v
        | None => VDict []
        end
    | None => VDict []
    end in
  match user_keys with
  | VDict d => Returned (truthy (get d provider))
  | _ => Raised AttributeError
  end.

(** The project after a generation the handler accepts. *)
Definition store_full_story (project : pydict)
    (full_story_content total_length chapter_count full_writing_style : pystr)
    : pydict :=
  let project := dict_set project (py "chapters")
                   (VDict [(py "全体生成結果", VStr full_story_content)]) in
  let project := dict_set project (py "full_story_length") (VStr total_length) in
  let project := dict_set project (py "full_story_chapters") (VStr chapter_count) in
  dict_set project (py "full_story_style") (VStr full_writing_style).

(** The handler behind the button that generates the whole work, for
    the active project; [project] is the dictionary stored in
    [projects] under its name, and the handler writes into it. *)
Definition generate_full_story (g : scope) (now : pystr)
    (total_length chapter_count full_writing_style : pystr) (s : Session)
    : outcome story_notice * Session :=
  match current_project s with
  | None | Some [] => (Returned NoProject, s)
  | Some project_name =>
      match dict_get (projects s) project_name with
      | None => (Raised (KeyError project_name), s)
      | Some (VDict project) =>
          match is_api_key_set s with
          | Raised e => (Raised e, s)
          | Returned false => (Returned KeyNotSet, s)
          | Returned true =>
              match generate_ai_content str_of isalnum sdk g now
                      (py "full_story") project
                      (Some (full_story_params total_length chapter_count
                                               full_writing_style)) s with
              | (Raised e, s) => (Raised e, s)
              | (Returned full_story_content, s) =>
                  if negb (startswith full_story_content (py "エラー")) then
                    let project := store_full_story project full_story_content
                                     total_length chapter_count full_writing_style in
                    (Returned StoryDone,
                     set_projects (dict_set (projects s) project_name (VDict project)) s)
                  else (Returned (StoryError full_story_content), s)
              end
          end
      | Some _ => (Raised AttributeError, s)
      end
  end.


End Handlers.

(* ================================================================= *)
(** * Helpers for the views *)

Definition set_current_project (c : option pystr) (s : Session) : Session := {|
  selected_model_provider := selected_model_provider s;
  user_api_keys := user_api_keys s;
  current_user := current_user s;
  api_usage := api_usage s;
  current_call_token_info := current_call_token_info s;
  projects := projects s;
  current_project := c;
  sdk_requests := sdk_requests s
|}.

Definition set_current_user (u : option pystr) (s : Session) : Session := {|
  selected_model_provider := selected_model_provider s;
  user_api_keys := user_api_keys s;
  current_user := u;
  api_usage := api_usage s;
  current_call_token_info := current_call_token_info s;
  projects := projects s;
  current_project := current_project s;
  sdk_requests := sdk_requests s
|}.

Definition set_user_api_keys (ks : pydict) (s : Session) : Session := {|
  selected_model_provider := selected_model_provider s;
  user_api_keys := ks;
  current_user := current_user s;
  api_usage := api_usage s;
  current_call_token_info := current_call_token_info s;
  projects := projects s;
  current_project := current_project s;
  sdk_requests := sdk_requests s
|}.

(** [del d[k]] for a key that is present. *)
Fixpoint dict_del (d : pydict) (k : pystr) : pydict :=
  match d with
  | [] => []
  | (k', v) :: rest =>
      if str_eqb k' k then rest else (k', v) :: dict_del rest k
  end.

(** [k in x] for a string [k]: key of a dictionary, substring of a
    string, element of a list; other objects are not containers. *)
Definition py_in (k : pystr) (x : value) : outcome bool :=
  match x with
  | VDict items => Returned (dict_has items k)
  | VStr s => Returned (contains k s)
  | VList xs => Returned (existsb (is_str k) xs)
  | _ => Raised TypeError
  end.

(** [x[k] = v] for a string [k]: only a dictionary takes it. *)
Definition py_setitem (x : value) (k : pystr) (v : value) : outcome value :=
  match x with
  | VDict items => Returned (VDict (dict_set items k v))
  | _ => Raised TypeError
  end.

(** [d[k]] *)
Definition py_getitem (d : pydict) (k : pystr) : outcome value :=
  match dict_get d k with
  | Some v => Returned v
  | None => Raised (KeyError k)
  end.

(** The project the tabs work on:
    [if st.session_state.current_project:
       project = st.session_state.projects[st.session_state.current_project]]. *)
Inductive active : Type :=
| NoActive
| Active (project_name : pystr) (project : pydict)
| ActiveError (e : exn).

Definition active_project (s : Session) : active :=
  match current_project s with
  | None | Some [] => NoActive
  | Some project_name =>
      match dict_get (projects s) project_name with
      | None => ActiveError (KeyError project_name)
      | Some (VDict project) => Active project_name project
      | Some _ => ActiveError AttributeError
      end
  end.

(** A write into the active project: [project] is the object stored
    under its name. *)
Definition store_project (project_name : pystr) (project : pydict) (s : Session)
    : Session :=
  set_projects (dict_set (projects s) project_name (VDict project)) s.

(* ================================================================= *)
(** * modify_content_with_ai *)

Definition modification_prompt (content modification_request content_type : pystr)
    : pystr :=
  lines
    [py "";
     py "以下の" ++ content_type ++ py "を、ユーザーの指示に従って修正してください。";
     py "";
     py "【修正指示】";
     modification_request;
     py "";
     py "【現在の" ++ content_type ++ py "】";
     content;
     py "";
     py "【修正要求】";
     py "- 修正指示に沿って内容を改善してください。";
     py "- 元のテキストの良い点は維持しつつ、指示された変更を加えてください。";
     py "- " ++ content_type ++ py "として自然で読みやすい文章にしてください。";
     py "- 以下の点は必ず守ってください：";
     py "    - " ++ content_type ++ py "の意図や魅力を損なわないこと。";
     py "    - 文体が不自然にならないように注意してください。";
     py "";
     py "修正された" ++ content_type ++ py "のみを出力してください。余計な説明は不要です。";
     py ""].

Definition modify_content_with_ai (isalnum : Z -> bool)
    (sdk : pystr -> value -> pystr -> pystr -> sdk_result)
    (now content modification_request content_type : pystr) (s : Session)
    : pystr * Session :=
  let (api_response, s) :=
    call_generative_api isalnum sdk now
      (modification_prompt content modification_request content_type) s in
  (text api_response, s).

(* ================================================================= *)
(** * The script prologue *)

(** The statements at module level that run before a view: the
    glossary loop over the stored projects (outside any [try]) and the
    date reset.  The session keys the script creates when missing are
    the fields of [Session]. *)
Definition script_prologue (current_date : pystr) (s : Session)
    : outcome unit * Session :=
  let (ps, e) := backfill_all (projects s) in
  let s := set_projects ps s in
  match e with
  | Some e => (Raised e, s)
  | None =>
      (Returned tt, set_api_usage (daily_reset current_date (api_usage s)) s)
  end.

(* ================================================================= *)
(** * Registration *)

(** The session keys of the login: [logged_in], [registered_username],
    [registered_password]. *)
Record Account : Type := {
  logged_in : bool;
  registered_username : option pystr;
  registered_password : option pystr
}.

Inductive setup_notice : Type :=
| AccountCreated       (* st.success, then st.rerun() *)
| PasswordMismatch     (* st.error("パスワードが一致しません。") *)
| SetupInputMissing.   (* st.error: user name and password required *)

(** The call [name()] of a global: the name must be bound, and to
    something callable.  A callable is opaque to this model and taken
    to return. *)
Definition call_global (g : scope) (name : pystr) : outcome unit :=
  match lookup g name with
  | None => Raised (NameError name)
  | Some (Object _) => Raised TypeError
  | Some Opaque => Returned tt
  end.

(** The submit branch of [setup_user_view]. *)
Definition setup_user (g : scope) (new_username new_password confirm_password : pystr)
    (a : Account) (s : Session) : outcome setup_notice * (Account * Session) :=
  if nonempty new_username && nonempty new_password && nonempty confirm_password then
    if str_eqb new_password confirm_password then
      let a := {| logged_in := true;
                  registered_username := Some new_username;
                  registered_password := Some new_password |} in
      let s := set_current_user (Some new_username) s in
      let s := set_user_api_keys
                 (dict_set (user_api_keys s) new_username (VDict [])) s in
      match call_global g (py "save_user_data") with
      | Raised e => (Raised e, (a, s))
      | Returned _ => (Returned AccountCreated, (a, s))
      end
    else (Returned PasswordMismatch, (a, s))
  else (Returned SetupInputMissing, (a, s)).

(* ================================================================= *)
(** * The settings sidebar: API keys *)

(** [if key_input != user_api_keys.get(k): user_api_keys[k] = key_input],
    on the dictionary [user_keys] of the user (the local
    [user_api_keys] of [main_app_view]). *)
Definition sync_key (user_keys : pydict) (k key_input : pystr) : pydict :=
  if negb (is_str key_input (get user_keys k))
  then dict_set user_keys k (VStr key_input)
  else user_keys.

(** The key fields of the sidebar, for the logged-in user
    [current_user] (a string once logged in). *)
Definition sync_api_keys (current_user : pystr)
    (gemini_key_input openai_key_input claude_key_input : pystr) (s : Session)
    : outcome Session :=
  let stored :=
    match dict_get (user_api_keys s) current_user with
    | Some v => v
    | None => VDict []
    end in
  match stored with
  | VDict user_keys =>
      let user_keys := sync_key user_keys (py "gemini") gemini_key_input in
      let user_keys := sync_key user_keys (py "openai") openai_key_input in
      let user_keys := sync_key user_keys (py "claude") claude_key_input in
      Returned (set_user_api_keys
                  (dict_set (user_api_keys s) current_user (VDict user_keys)) s)
  | _ => Raised AttributeError
  end.

(** The key field of a provider. *)
Definition key_input (p : Provider)
    (gemini_key_input openai_key_input claude_key_input : pystr) : pystr :=
  match p with
  | Gemini => gemini_key_input
  | OpenAI => openai_key_input
  | Claude => claude_key_input
  end.

(* ================================================================= *)
(** * The project sidebar *)

(** The dictionary a new project starts as. *)
Definition new_project (created_at : pystr) : pydict :=
  [(py "created_at", VStr created_at);
   (py "synopsis", VStr (py ""));
   (py "characters", VDict []);
   (py "world_setting", VStr (py ""));
   (py "plot_outline", VStr (py ""));
   (py "chapters", VDict []);
   (py "genre", VStr (py ""));
   (py "target_audience", VStr (py ""));
   (py "theme", VStr (py ""));
   (py "writing_mode", VStr (py "manual"));
   (py "glossary", VDict [])].

Inductive project_notice : Type :=
| ProjectCreated    (* st.success, then st.rerun() *)
| ProjectExists     (* st.warning: a project of that name exists *)
| ProjectDeleted    (* st.success, then st.rerun() *)
| NoAction.         (* the condition of the button is false *)

(** [if st.button("作成") and new_project_name: ...] *)
Definition create_project (now new_project_name : pystr) (s : Session)
    : project_notice * Session :=
  if nonempty new_project_name then
    if negb (dict_has (projects s) new_project_name) then
      let s := set_projects
                 (dict_set (projects s) new_project_name (VDict (new_project now))) s in
      (ProjectCreated, set_current_project (Some new_project_name) s)
    else (ProjectExists, s)
  else (NoAction, s).



(** The delete button, drawn when there are projects:
    [if current_project: del projects[current_project]; current_project = None]. *)
Definition delete_current_project (s : Session) : outcome project_notice * Session :=
  match projects s with
  | [] => (Returned NoAction, s)
  | _ :: _ =>
      match current_project s with
      | None | Some [] => (Returned NoAction, s)
      | Some project_name =>
          if dict_has (projects s) project_name then
            (Returned ProjectDeleted,
             set_current_project None
               (set_projects (dict_del (projects s) project_name) s))
          else (Raised (KeyError project_name), s)
      end
  end.

(* ================================================================= *)
(** * The glossary sidebar *)

Inductive glossary_notice : Type :=
| NotLoggedIn          (* st.sidebar.info, return *)
| NoProjectSelected    (* st.sidebar.info, return *)
| TermAdded            (* st.sidebar.success, then st.rerun() *)
| TermExists           (* st.sidebar.warning *)
| TermInputMissing.    (* st.sidebar.warning *)

(** The entry stored for a term. *)
Definition glossary_entry (description added_at : pystr) : value :=
  VDict [(py "description", VStr description); (py "added_at", VStr added_at)].

(** [glossary_sidebar_view] up to the add button, pressed with the
    given term name and description. *)
Definition add_glossary_term (now new_term_name new_term_description : pystr)
    (s : Session) : outcome glossary_notice * Session :=
  match current_user s with
  | None | Some [] => (Returned NotLoggedIn, s)
  | Some _ =>
      match current_project s with
      | None | Some [] => (Returned NoProjectSelected, s)
      | Some project_name =>
          match dict_get (projects s) project_name with
          | None => (Raised (KeyError project_name), s)
          | Some project_value =>
              match backfill_glossary project_value with
              | Raised e => (Raised e, s)
              | Returned (VDict project) =>
                  let s := store_project project_name project s in
                  match py_getitem project (py "glossary") with
                  | Raised e => (Raised e, s)
                  | Returned glossary =>
                      if nonempty new_term_name && nonempty new_term_description then
                        match py_in new_term_name glossary with
                        | Raised e => (Raised e, s)
                        | Returned true => (Returned TermExists, s)
                        | Returned false =>
                            match py_setitem glossary new_term_name
                                    (glossary_entry new_term_description now) with
                            | Raised e => (Raised e, s)
                            | Returned glossary =>
                                (Returned TermAdded,
                                 store_project project_name
                                   (dict_set project (py "glossary") glossary) s)
                            end
                        end
                      else (Returned TermInputMissing, s)
                  end
              | Returned _ => (Raised TypeError, s)
              end
          end
      end
  end.

(** The glossary of a stored project. *)
Definition glossary_of (s : Session) (project_name : pystr) : option value :=
  match dict_get (projects s) project_name with
  | Some (VDict project) => dict_get project (py "glossary")
  | _ => None
  end.

(* ================================================================= *)
(** * The character tab: adding a character *)

Definition manual_mode : pystr := py "✋ 手動".
Definition ai_mode : pystr := py "🤖 AI".

Definition full_char_prompt (new_char_name new_char_role char_details_input : pystr)
    : pystr :=
  lines
    [py "";
     py "以下の情報を基に、ライトノベルのキャラクター設定を詳細に生成してください。";
     py "キャラクター名: " ++ new_char_name;
     py "役割: " ++ new_char_role;
     py "要望: " ++ char_details_input;
     py "";
     py "生成項目:";
     py "1. 詳細な性格設定（長所、短所、癖など）";
     py "2. 背景・過去（物語に影響を与える要素）";
     py "3. 目標・動機";
     py "4. 外見的特徴（髪の色、目の色、体格、服装など）";
     py "5. 口調・話し方";
     py "6. 他キャラクターとの関係性（想定されるもの）";
     py "7. そのキャラクターを表す象徴的なアイテムや能力（あれば）";
     py "";
     py "読者に愛されるような、深みのあるキャラクター設定を作成してください。";
     py ""].

Inductive character_notice : Type :=
| CharacterNoProject      (* no active project: the tabs are not drawn *)
| CharacterAdded          (* the character is stored; st.success, st.rerun() *)
| CharacterGenerated      (* st.success for the AI text, st.rerun() *)
| CharacterExists         (* st.warning *)
| CharacterInputMissing.  (* st.warning *)

(** [project['characters'][new_char_name] = char_data], then the
    success message and the rerun. *)
Definition store_character (project_name : pystr) (project : pydict)
    (characters : value) (new_char_name : pystr) (char_data : pydict) (s : Session)
    : outcome character_notice * Session :=
  match py_setitem characters new_char_name (VDict char_data) with
  | Raised e => (Raised e, s)
  | Returned characters =>
      (Returned CharacterAdded,
       store_project project_name (dict_set project (py "characters") characters) s)
  end.

Section CharacterTab.

Variable isalnum : Z -> bool.
Variable sdk : pystr -> value -> pystr -> pystr -> sdk_result.
Variable lower : pystr -> pystr.

(** The handler of the add button.  [char_details_input] is the empty
    string unless the AI mode is chosen.  [st.rerun()] ends the run of
    the script where it stands: in the AI branch it stands before the
    assignment that stores the character. *)
Definition add_character (now new_char_name new_char_role char_creation_mode
    char_details_input : pystr) (s : Session) : outcome character_notice * Session :=
  match active_project s with
  | NoActive => (Returned CharacterNoProject, s)
  | ActiveError e => (Raised e, s)
  | Active project_name project =>
      if nonempty new_char_name &&
         (str_eqb char_creation_mode manual_mode || nonempty char_details_input)
      then
        match py_getitem project (py "characters") with
        | Raised e => (Raised e, s)
        | Returned characters =>
            match py_in new_char_name characters with
            | Raised e => (Raised e, s)
            | Returned true => (Returned CharacterExists, s)
            | Returned false =>
                let char_data := [(py "role", VStr new_char_role)] in
                if str_eqb char_creation_mode manual_mode then
                  let char_data :=
                    dict_set char_data (py "details")
                      (VStr (py "手動入力用の詳細欄を追加してください。")) in
                  store_character project_name project characters new_char_name
                                  char_data s
                else if str_eqb char_creation_mode ai_mode then
                  match is_api_key_set lower s with
                  | Raised e => (Raised e, s)
                  | Returned false =>
                      store_character project_name project characters new_char_name
                                      char_data s
                  | Returned true =>
                      let (api_response, s) :=
                        call_generative_api isalnum sdk now
                          (full_char_prompt new_char_name new_char_role
                                            char_details_input) s in
                      if negb (startswith (text api_response) (py "エラー")) then
                        (Returned CharacterGenerated, s)
                      else
                        let char_data :=
                          dict_set char_data (py "details")
                            (VStr (py "AI生成に失敗しました。")) in
                        store_character project_name project characters new_char_name
                                        char_data s
                  end
                else
                  store_character project_name project characters new_char_name
                                  char_data s
            end
        end
      else (Returned CharacterInputMissing, s)
  end.

End CharacterTab.

(** The characters of a stored project. *)
Definition characters_of (s : Session) (project_name : pystr) : option value :=
  match dict_get (projects s) project_name with
  | Some (VDict project) => dict_get project (py "characters")
  | _ => None
  end.

(* ================================================================= *)
(** * The planning tab: theme generation *)

Definition genre_map : list (pystr * pystr) :=
  [(py "異世界", py "異世界ファンタジー"); (py "学園", py "学園もの");
   (py "SF", py "SF"); (py "恋愛", py "恋愛");
   (py "バトル", py "バトル・アクション"); (py "ファンタジー", py "現代ファンタジー");
   (py "ミステリー", py "ミステリー"); (py "おまかせ", py "異世界ファンタジー")].

Definition target_map : list (pystr * pystr) :=
  [(py "男性向け", py "中高生男性"); (py "女性向け", py "中高生女性");
   (py "全年齢", py "全年齢"); (py "おまかせ", py "中高生男性")].

(** [m.get(k, default)] on a dictionary of strings. *)
Fixpoint map_get (m : list (pystr * pystr)) (k default : pystr) : pystr :=
  match m with
  | [] => default
  | (k', v) :: rest => if str_eqb k' k then v else map_get rest k default
  end.

Definition theme_prompt (genre target_audience tone_preference : pystr) : pystr :=
  py "ジャンル「" ++ genre ++ py "」、読者層「" ++ target_audience
  ++ py "」、雰囲気「" ++ tone_preference
  ++ py "」の物語に適した、ライトノベルの読者が興味を惹かれるような魅力的なテーマを1つ、15文字以内で簡潔に提案してください。".

Inductive theme_notice : Type :=
| ThemeNoProject
| ThemeKeyNotSet                 (* st.error: set the API key *)
| ThemeDone                      (* st.success, then st.rerun() *)
| ThemeError (message : pystr).  (* st.error(api_response['text']) *)

Section PlanningTab.

Variable isalnum : Z -> bool.
Variable sdk : pystr -> value -> pystr -> pystr -> sdk_result.
Variable lower : pystr -> pystr.

(** The handler of the button that generates the plan. *)
Definition generate_theme (now genre_preference target_preference tone_preference : pystr)
    (s : Session) : outcome theme_notice * Session :=
  match active_project s with
  | NoActive => (Returned ThemeNoProject, s)
  | ActiveError e => (Raised e, s)
  | Active project_name project =>
      match is_api_key_set lower s with
      | Raised e => (Raised e, s)
      | Returned false => (Returned ThemeKeyNotSet, s)
      | Returned true =>
          let genre := map_get genre_map genre_preference (py "その他") in
          let target_audience :=
            map_get target_map target_preference (py "特定ターゲット") in
          let project := dict_set project (py "genre") (VStr genre) in
          let project := dict_set project (py "target_audience") (VStr target_audience) in
          let s := store_project project_name project s in
          let (api_response, s) :=
            call_generative_api isalnum sdk now
              (theme_prompt genre target_audience tone_preference) s in
          if negb (startswith (text api_response) (py "エラー")) then
            (Returned ThemeDone,
             store_project project_name
               (dict_set project (py "theme") (VStr (strip (text api_response)))) s)
          else
            (Returned (ThemeError (text api_response)),
             store_project project_name
               (dict_set project (py "theme") (VStr (py "成長と友情の物語"))) s)
      end
  end.

End PlanningTab.

(** A field of a stored project. *)
Definition field_of (s : Session) (project_name field : pystr) : option value :=
  match dict_get (projects s) project_name with
  | Some (VDict project) => dict_get project field
  | _ => None
  end.

(* ================================================================= *)
(** * The writing tab: one chapter *)

Definition chapter_params (chapter_name plot_outline target_length writing_style : pystr)
    : pydict :=
  [(py "chapter_name", VStr chapter_name);
   (py "chapter_plot", VStr plot_outline);
   (py "target_length", VStr target_length);
   (py "writing_style", VStr writing_style)].

(** The four form fields the handler keeps in the project. *)
Definition remember_chapter_form (project : pydict)
    (chapter_name plot_outline target_length writing_style : pystr) : pydict :=
  let project := dict_set project (py "current_chapter_name") (VStr chapter_name) in
  let project := dict_set project (py "current_chapter_plot") (VStr plot_outline) in
  let project := dict_set project (py "current_chapter_length") (VStr target_length) in
  dict_set project (py "current_chapter_style") (VStr writing_style).

Inductive chapter_notice : Type :=
| ChapterNoProject
| ChapterInputMissing              (* st.warning: title and plot required *)
| ChapterKeyNotSet                 (* st.error: set the API key *)
| ChapterDone                      (* st.success, then st.rerun() *)
| ChapterError (message : pystr).  (* st.error(chapter_content) *)

Section WritingTab.

Variable str_of : value -> pystr.
Variable isalnum : Z -> bool.
Variable sdk : pystr -> value -> pystr -> pystr -> sdk_result.
Variable lower : pystr -> pystr.

(** The handler of the button that writes one chapter. *)
Definition write_chapter (g : scope) (now : pystr)
    (chapter_name plot_outline target_length writing_style : pystr) (s : Session)
    : outcome chapter_notice * Session :=
  match active_project s with
  | NoActive => (Returned ChapterNoProject, s)
  | ActiveError e => (Raised e, s)
  | Active project_name project =>
      if negb (nonempty chapter_name) || negb (nonempty plot_outline) then
        (Returned ChapterInputMissing, s)
      else
        let project := remember_chapter_form project chapter_name plot_outline
                                             target_length writing_style in
        let s := store_project project_name project s in
        match is_api_key_set lower s with
        | Raised e => (Raised e, s)
        | Returned false => (Returned ChapterKeyNotSet, s)
        | Returned true =>
            match generate_ai_content str_of isalnum sdk g now (py "chapter") project
                    (Some (chapter_params chapter_name plot_outline target_length
                                          writing_style)) s with
            | (Raised e, s) => (Raised e, s)
            | (Returned chapter_content, s) =>
                if negb (startswith chapter_content (py "エラー")) then
                  match py_getitem project (py "chapters") with
                  | Raised e => (Raised e, s)
                  | Returned chapters =>
                      match py_setitem chapters chapter_name (VStr chapter_content) with
                      | Raised e => (Raised e, s)
                      | Returned chapters =>
                          (Returned ChapterDone,
                           store_project project_name
                             (dict_set project (py "chapters") chapters) s)
                      end
                  end
                else (Returned (ChapterError chapter_content), s)
            end
        end
  end.

End WritingTab.

(* ================================================================= *)
(** * Sequences of ledger operations *)

(** What happens to the ledger over a session: a provider call is
    logged, or a run of the script applies the date reset. *)
Inductive ledger_op : Type :=
| LogOp (c : LogCall)
| ResetOp (current_date : pystr).

Definition apply_op (u : ApiUsage) (op : ledger_op) : ApiUsage :=
  match op with
  | LogOp c => log_call u c
  | ResetOp current_date => daily_reset current_date u
  end.

Definition run_ops (ops : list ledger_op) (u : ApiUsage) : ApiUsage :=
  fold_left apply_op ops u.

Definition logged (ops : list ledger_op) : list LogCall :=
  flat_map (fun op => match op with LogOp c => [c] | ResetOp _ => [] end) ops.

Definition nonnegative_tokens (c : LogCall) : bool :=
  (0 <=? call_prompt_tokens c) && (0 <=? call_response_tokens c).

(** What every reachable ledger satisfies, relative to the calls
    [cs] logged so far. *)
Definition ledger_ok (u : ApiUsage) (cs : list LogCall) : Prop :=
  total_requests u = Z.of_nat (List.length cs) /\
  0 <= daily_requests u <= total_requests u /\
  total_tokens_used u = tokens_of cs /\
  (forallb nonnegative_tokens cs = true ->
   0 <= daily_tokens_used u <= total_tokens_used u) /\
  request_history u = last_n 100 (map record_of cs).

(** Every project is a dictionary with a glossary. *)
Fixpoint has_glossary (ps : pydict) : bool :=
  match ps with
  | [] => true
  | (_, VDict project) :: rest => dict_has project (py "glossary") && has_glossary rest
  | _ :: _ => false
  end.

(* ================================================================= *)
(** * Sample data *)

(** A synopsis of 300 characters in four sentences, with one connector
    word, the keyword ドラゴン and the given punctuation mark. *)
Definition sample_synopsis (mark : pystr) : pystr :=
  py "しかし" ++ mark ++ py "ドラゴン。"
  ++ repeat_str (py "あ") 96 ++ py "。"
  ++ repeat_str (py "い") 96 ++ py "。"
  ++ repeat_str (py "う") 96 ++ py "。".

(** Occurrences of all connector words together. *)
Definition total_occurrences (synopsis : pystr) : Z :=
  fold_right (fun word acc => occurrences word synopsis + acc) 0 engaging_words.

(** The connector words found in a synopsis. *)
Definition words_present (synopsis : pystr) : list pystr :=
  filter (fun word => contains word synopsis) engaging_words.

(** ASCII letters and digits, a fragment of the alphanumeric table. *)
Definition ascii_isalnum (c : Z) : bool :=
  ((48 <=? c) && (c <=? 57)) || ((65 <=? c) && (c <=? 90)) ||
  ((97 <=? c) && (c <=? 122)).

(** [str.lower] on ASCII letters. *)
Definition ascii_lower (s : pystr) : pystr :=
  map (fun c => if (65 <=? c) && (c <=? 90) then c + 32 else c) s.

(** An SDK that answers every request with a short story and reports
    its usage. *)
Definition story_sdk (provider : pystr) (api_key : value) (model_name prompt : pystr)
    : sdk_result :=
  SdkResponse (py "第一章 旅立ち。【第1章 終了】") 120 450.

(** An SDK whose every request fails. *)
Definition failing_sdk (provider : pystr) (api_key : value) (model_name prompt : pystr)
    : sdk_result :=
  SdkException (py "401 Unauthorized").

(** [str()] of a few objects, enough for the samples. *)
Definition sample_str_of (x : value) : pystr :=
  match x with
  | VNone => py "None"
  | VBool true => py "True"
  | VBool false => py "False"
  | _ => py "<object>"
  end.

(** A ledger of the day before, with requests on it. *)
Definition yesterday_usage : ApiUsage := {|
  daily_requests := 2; daily_tokens_used := 700;
  last_reset_date := py "2025-01-01";
  total_requests := 9; total_tokens_used := 4000;
  request_history :=
    [{| timestamp := py "2025-01-01T10:00:00"; model := py "gpt-4o-mini";
        prompt_tokens := 300; response_tokens := 400; total_tokens := 700 |}]
|}.

(** The summary an earlier call through OpenAI left behind. *)
Definition earlier_summary : pydict :=
  [(py "model", VStr (py "gpt-4o-mini"));
   (py "prompt_tokens", VInt 300);
   (py "response_tokens", VInt 400);
   (py "total_tokens", VInt 700)].

(** A project as the creation form makes it, with one chapter written. *)
Definition sample_project : pydict :=
  [(py "created_at", VStr (py "2025-01-01T09:00:00"));
   (py "synopsis", VStr (py "少年は旅に出る。"));
   (py "characters", VDict []);
   (py "world_setting", VStr (py ""));
   (py "plot_outline", VStr (py ""));
   (py "chapters", VDict [(py "第1章", VStr (py "むかしむかし。"));
                          (py "第2章", VStr (py "そして朝が来た。"))]);
   (py "genre", VStr (py "異世界ファンタジー"));
   (py "target_audience", VStr (py "全年齢"));
   (py "theme", VStr (py "友情"));
   (py "writing_mode", VStr (py "ai"));
   (py "glossary", VDict [])].

(** A session of user alice after the settings sidebar ran with no key
    typed in: the sidebar stores the keys under the user name. *)
Definition keyless_session : Session := {|
  selected_model_provider := py "Gemini";
  user_api_keys :=
    [(py "alice", VDict [(py "gemini", VStr (py ""));
                         (py "openai", VStr (py ""));
                         (py "claude", VStr (py ""))])];
  current_user := Some (py "alice");
  api_usage := yesterday_usage;
  current_call_token_info := earlier_summary;
  projects := [(py "冒険譚", VDict sample_project)];
  current_project := Some (py "冒険譚");
  sdk_requests := []
|}.

(** A session whose [user_api_keys] holds a credential under the key
    the gateway reads. *)
Definition keyed_session (provider : pystr) (api_keys : pydict) : Session := {|
  selected_model_provider := provider;
  user_api_keys := api_keys;
  current_user := Some (py "alice");
  api_usage := yesterday_usage;
  current_call_token_info := earlier_summary;
  projects := [(py "冒険譚", VDict sample_project)];
  current_project := Some (py "冒険譚");
  sdk_requests := []
|}.

(** A session with a credential both where the sidebar stores it and
    where the gateway reads it. *)
Definition generating_session : Session := {|
  selected_model_provider := py "Gemini";
  user_api_keys :=
    [(py "alice", VDict [(py "gemini", VStr (py "AIza-test"))]);
     (py "gemini", VStr (py "AIza-test"))];
  current_user := Some (py "alice");
  api_usage := yesterday_usage;
  current_call_token_info := earlier_summary;
  projects := [(py "冒険譚", VDict sample_project)];
  current_project := Some (py "冒険譚");
  sdk_requests := []
|}.

(** The session of alice after she typed a Gemini key into the settings
    sidebar, which stores it under her user name. *)
Definition alice_with_key : Session := {|
  selected_model_provider := py "Gemini";
  user_api_keys :=
    [(py "alice", VDict [(py "gemini", VStr (py "AIza-test"));
                         (py "openai", VStr (py ""));
                         (py "claude", VStr (py ""))])];
  current_user := Some (py "alice");
  api_usage := yesterday_usage;
  current_call_token_info := earlier_summary;
  projects := [(py "冒険譚", VDict sample_project)];
  current_project := Some (py "冒険譚");
  sdk_requests := []
|}.

(** An upload with one project that lacks a glossary and one that
    replaces the stored project of the same name. *)
Definition sample_upload : pydict :=
  [(py "新作", VDict [(py "synopsis", VStr (py "海の物語。"))]);
   (py "冒険譚", VDict [(py "synopsis", VStr (py "書き直し。"));
                        (py "glossary", VDict [])])].

(* ================================================================= *)
(** * Strings and the token estimator *)

Example py_decodes_code_points :
  py "しかし?" = [12375; 12363; 12375; 63] /\ len (py "しかし?") = 4.
Proof. split; reflexivity. Qed.

(** On a grid of counts the exact integer formula and the binary64
    evaluation of [int(j * 1.5 + w * 1.3)] give the same number. *)
Example float_weighted_agrees :
  float_weighted_agrees_on (grid 0 100) (grid 0 100) = true /\
  float_weighted_agrees_on (grid 99950 100) (grid 1999950 100) = true.
Proof. split; vm_compute; reflexivity. Qed.

Lemma str_eqb_eq (a b : pystr) : str_eqb a b = true <-> a = b.
Proof.
  revert b; induction a as [|x a IH]; intros [|y b]; simpl; split;
    try congruence; try reflexivity.
  - intros H. apply andb_true_iff in H as [Hx Hab].
    apply Z.eqb_eq in Hx. apply IH in Hab. congruence.
  - intros H. injection H as -> ->.
    rewrite Z.eqb_refl. simpl. apply IH. reflexivity.
Qed.

Lemma str_eqb_refl (a : pystr) : str_eqb a a = true.
Proof. apply str_eqb_eq. reflexivity. Qed.

Lemma str_eqb_neq (a b : pystr) : str_eqb a b = false <-> a <> b.
Proof.
  split.
  - intros H E. apply str_eqb_eq in E. congruence.
  - intros H. destruct (str_eqb a b) eqn:E; [|reflexivity].
    apply str_eqb_eq in E. contradiction.
Qed.

Section TokenEstimatorFacts.

Variable isalnum : Z -> bool.

Lemma word_runs_nonneg (text : pystr) (in_word : bool) :
  0 <= word_runs isalnum in_word text.
Proof.
  revert in_word; induction text as [|c rest IH]; intros in_word; simpl.
  - lia.
  - destruct (is_word_char isalnum c).
    + specialize (IH true). destruct in_word; lia.
    + apply IH.
Qed.

Lemma word_runs_app (text suffix : pystr) (in_word : bool) :
  word_runs isalnum in_word text <= word_runs isalnum in_word (text ++ suffix).
Proof.
  revert in_word; induction text as [|c rest IH]; intros in_word; simpl.
  - apply word_runs_nonneg.
  - destruct (is_word_char isalnum c).
    + specialize (IH true). lia.
    + apply IH.
Qed.

Lemma japanese_chars_app (text suffix : pystr) :
  japanese_chars (text ++ suffix) = japanese_chars text + japanese_chars suffix.
Proof.
  unfold japanese_chars. rewrite filter_app, length_app. lia.
Qed.

Lemma japanese_chars_nonneg (text : pystr) : 0 <= japanese_chars text.
Proof. unfold japanese_chars. lia. Qed.

Lemma len_app (a b : pystr) : len (a ++ b) = len a + len b.
Proof. unfold len. rewrite length_app. lia. Qed.

Lemma len_nonneg (a : pystr) : 0 <= len a.
Proof. unfold len. lia. Qed.

Lemma weighted_monotone (j j' w w' : Z) :
  j <= j' -> w <= w' -> weighted j w <= weighted j' w'.
Proof.
  intros Hj Hw. unfold weighted. apply Z.div_le_mono; lia.
Qed.

(** C9. The token estimate of every text is an integer of at least 1,
    and appending characters to a text (of the same class as the text
    or of any other) never lowers the estimate. *)
Theorem count_tokens_positive_and_monotone (text suffix : pystr) :
  1 <= count_tokens isalnum text /\
  count_tokens isalnum text <= count_tokens isalnum (text ++ suffix).
Proof.
  split; [unfold count_tokens; lia|].
  unfold count_tokens, english_words.
  pose proof (word_runs_app text suffix false) as Hw.
  pose proof (japanese_chars_nonneg suffix) as Hj.
  pose proof (len_nonneg suffix) as Hl.
  pose proof (len_nonneg text) as Hl0.
  assert (Hm : weighted (japanese_chars text) (word_runs isalnum false text)
               <= weighted (japanese_chars (text ++ suffix))
                           (word_runs isalnum false (text ++ suffix))).
  { apply weighted_monotone; [rewrite japanese_chars_app; lia | exact Hw]. }
  assert (Hd : len text / 10 <= len (text ++ suffix) / 10).
  { apply Z.div_le_mono; [lia | rewrite len_app; lia]. }
  assert (Hp : 0 <= len (text ++ suffix) / 10).
  { apply Z.div_pos; [rewrite len_app|]; lia. }
  rewrite len_app in *.
  destruct (500 <? len text) eqn:E1; destruct (500 <? len text + len suffix) eqn:E2;
    try (apply Z.ltb_lt in E1); try (apply Z.ltb_ge in E2); lia.
Qed.

End TokenEstimatorFacts.

(* ================================================================= *)
(** * The synopsis quality heuristic *)

Lemma connector_fold (synopsis : pystr) (words : list pystr) (score : Z) :
  fold_left (fun score word => if contains word synopsis then score + 5 else score)
            words score
  = score + 5 * Z.of_nat (List.length (filter (fun word => contains word synopsis) words)).
Proof.
  revert score; induction words as [|w words IH]; intros score;
    cbn [fold_left filter].
  - cbn [List.length]. lia.
  - rewrite IH. destruct (contains w synopsis); cbn [List.length]; lia.
Qed.

(** C3, as amended.  The connector loop adds 5 for every connector word
    that is present in the synopsis, however often the word occurs: the
    contribution is 5 times the number of the 9 words found, so at
    most 45. *)
Theorem engaging_loop_counts_present_words (synopsis : pystr) (score : Z) :
  engaging_loop synopsis score
  = score + 5 * Z.of_nat (List.length (words_present synopsis)) /\
  engaging_loop synopsis score <= score + 45.
Proof.
  unfold engaging_loop, words_present.
  rewrite connector_fold. split; [reflexivity|].
  pose proof (filter_length_le (fun word => contains word synopsis) engaging_words) as H.
  change (List.length engaging_words) with 9%nat in H. lia.
Qed.

(** C3, counterexample.  In しかししかし the connector しかし occurs
    twice, and the loop adds 5, not 10. *)
Lemma connector_twice_adds_five :
  occurrences (py "しかし") (py "しかししかし") = 2 /\
  total_occurrences (py "しかししかし") = 2 /\
  engaging_loop (py "しかししかし") 0 = 5 /\
  engaging_loop (py "しかししかし") 0 <> 0 + 5 * total_occurrences (py "しかししかし").
Proof. repeat split; vm_compute; congruence. Qed.

Lemma length_band_300 (synopsis : pystr) (score : Z) :
  len synopsis = 300 -> length_band synopsis score = score + 30.
Proof. intros H. unfold length_band. rewrite H. reflexivity. Qed.

Lemma genre_bonus_keyword (synopsis keyword : pystr) (score : Z) :
  In keyword genre_keywords -> contains keyword synopsis = true ->
  genre_bonus synopsis score = score + 15.
Proof.
  intros Hin Hc. unfold genre_bonus.
  replace (existsb (fun keyword => contains keyword synopsis) genre_keywords) with true;
    [reflexivity|].
  symmetry. apply existsb_exists. exists keyword. split; assumption.
Qed.

Lemma occurrences_nonneg (w s : pystr) : 0 <= occurrences w s.
Proof.
  induction s as [|c s IH]; cbn [occurrences];
    destruct (startswith _ w); lia.
Qed.

Lemma occurrences_contains (w s : pystr) :
  0 < occurrences w s -> contains w s = true.
Proof.
  induction s as [|c s IH]; cbn [occurrences contains].
  - destruct (startswith [] w); [reflexivity | lia].
  - destruct (startswith (c :: s) w); [reflexivity|].
    intros H. cbn [orb]. apply IH. lia.
Qed.

(** C2.  What the code computes for the example: a synopsis of exactly
    300 characters that contains しかし exactly once and no other
    connector word, contains one of the two marks line 154 tests, the
    question mark "?" (U+003F) or the exclamation mark "！" (U+FF01),
    contains ドラゴン and splits on "。" into exactly 4 non-empty
    sentences scores exactly 80. *)
Theorem synopsis_example_scores_80 (synopsis : pystr) :
  len synopsis = 300 ->
  occurrences (py "しかし") synopsis = 1 ->
  (forall word, In word engaging_words -> word <> py "しかし" ->
                contains word synopsis = false) ->
  contains (py "?") synopsis = true \/ contains (py "！") synopsis = true ->
  contains (py "ドラゴン") synopsis = true ->
  List.length (sentences_of synopsis) = 4%nat ->
  analyze_synopsis_quality synopsis = 80.
Proof.
  intros Hlen Honce Hother Hmark Hgenre Hsent.
  assert (Hwords : words_present synopsis = [py "しかし"]).
  { unfold words_present, engaging_words. cbn [filter].
    rewrite (occurrences_contains _ _ ltac:(rewrite Honce; lia)).
    rewrite !Hother;
      first [ reflexivity
            | apply str_eqb_neq; vm_compute; reflexivity
            | unfold engaging_words; cbn [In]; tauto ]. }
  unfold analyze_synopsis_quality.
  rewrite (length_band_300 _ _ Hlen).
  unfold engaging_loop. rewrite connector_fold.
  fold (words_present synopsis). rewrite Hwords.
  assert (Hp : forall score, punctuation_bonus synopsis score = score + 10).
  { intros score. unfold punctuation_bonus.
    destruct Hmark as [-> | ->]; [reflexivity | rewrite orb_true_r; reflexivity]. }
  rewrite Hp.
  rewrite (genre_bonus_keyword synopsis (py "ドラゴン"));
    [| simpl; auto | exact Hgenre].
  unfold sentence_bonus. rewrite Hsent. reflexivity.
Qed.

(** The connector words found in a list of words, decided word by
    word. *)
Lemma absent_words (synopsis : pystr) (words : list pystr) :
  forallb (fun word => str_eqb word (py "しかし") || negb (contains word synopsis)) words
    = true ->
  forall word, In word words -> word <> py "しかし" -> contains word synopsis = false.
Proof.
  intros H word Hin Hne. rewrite forallb_forall in H.
  specialize (H word Hin). apply str_eqb_neq in Hne. rewrite Hne in H.
  cbn [orb] in H. apply negb_true_iff in H. exact H.
Qed.

(** C2, witness: the sample synopsis with the mark "?". *)
Lemma synopsis_example_scores_80_witness :
  len (sample_synopsis (py "?")) = 300 /\
  analyze_synopsis_quality (sample_synopsis (py "?")) = 80.
Proof.
  split; [reflexivity|].
  apply (synopsis_example_scores_80 (sample_synopsis (py "?")));
    try (left); try (apply absent_words); vm_compute; reflexivity.
Defined.

(** C2, failing input.  The sample synopsis with the full-width mark
    "？" (U+FF1F) meets every condition of the example as the
    specification words it, and scores 70: line 154 pairs the
    full-width "！" with the ASCII "?", so the full-width question mark
    earns nothing. *)
Lemma fullwidth_question_mark_scores_70 :
  len (sample_synopsis (py "？")) = 300 /\
  occurrences (py "しかし") (sample_synopsis (py "？")) = 1 /\
  words_present (sample_synopsis (py "？")) = [py "しかし"] /\
  contains (py "？") (sample_synopsis (py "？")) = true /\
  contains (py "?") (sample_synopsis (py "？")) = false /\
  contains (py "！") (sample_synopsis (py "？")) = false /\
  filter (fun keyword => contains keyword (sample_synopsis (py "？"))) genre_keywords
    = [py "ドラゴン"] /\
  List.length (sentences_of (sample_synopsis (py "？"))) = 4%nat /\
  analyze_synopsis_quality (sample_synopsis (py "？")) = 70 /\
  analyze_synopsis_quality (sample_synopsis (py "？")) <> 80.
Proof. repeat split; vm_compute; congruence. Qed.

(** The same for every synopsis of the example: without the two marks
    of line 154 the score is 70, whether or not the full-width "？" is
    there. *)
Lemma example_without_tested_marks_scores_70 (synopsis : pystr) :
  len synopsis = 300 ->
  occurrences (py "しかし") synopsis = 1 ->
  (forall word, In word engaging_words -> word <> py "しかし" ->
                contains word synopsis = false) ->
  contains (py "?") synopsis = false ->
  contains (py "！") synopsis = false ->
  contains (py "ドラゴン") synopsis = true ->
  List.length (sentences_of synopsis) = 4%nat ->
  analyze_synopsis_quality synopsis = 70.
Proof.
  intros Hlen Honce Hother Hq He Hgenre Hsent.
  assert (Hwords : words_present synopsis = [py "しかし"]).
  { unfold words_present, engaging_words. cbn [filter].
    rewrite (occurrences_contains _ _ ltac:(rewrite Honce; lia)).
    rewrite !Hother;
      first [ reflexivity
            | apply str_eqb_neq; vm_compute; reflexivity
            | unfold engaging_words; cbn [In]; tauto ]. }
  unfold analyze_synopsis_quality.
  rewrite (length_band_300 _ _ Hlen).
  unfold engaging_loop. rewrite connector_fold.
  fold (words_present synopsis). rewrite Hwords.
  assert (Hp : forall score, punctuation_bonus synopsis score = score).
  { intros score. unfold punctuation_bonus. rewrite Hq, He. reflexivity. }
  rewrite Hp.
  rewrite (genre_bonus_keyword synopsis (py "ドラゴン"));
    [| simpl; auto | exact Hgenre].
  unfold sentence_bonus. rewrite Hsent. reflexivity.
Qed.

(* ================================================================= *)
(** * The usage ledger *)

Lemma last_n_short {A : Type} (n : nat) (l : list A) :
  (List.length l <= n)%nat -> last_n n l = l.
Proof.
  intros H. unfold last_n.
  replace (List.length l - n)%nat with 0%nat by lia. reflexivity.
Qed.

Lemma last_n_length {A : Type} (n : nat) (l : list A) :
  List.length (last_n n l) = Nat.min (List.length l) n.
Proof. unfold last_n. rewrite length_skipn. lia. Qed.

Lemma last_n_snoc {A : Type} (n : nat) (l : list A) (x : A) :
  (0 < n)%nat -> last_n n (last_n n l ++ [x]) = last_n n (l ++ [x]).
Proof.
  intros Hn.
  destruct (Nat.le_gt_cases (List.length l) n) as [Hle | Hgt].
  - rewrite (last_n_short n l Hle). reflexivity.
  - unfold last_n at 1 3.
    rewrite !length_app, last_n_length. cbn [List.length].
    unfold last_n.
    rewrite (skipn_app (List.length l + 1 - n)).
    replace (Nat.min (List.length l) n + 1 - n)%nat with 1%nat by lia.
    replace (List.length l + 1 - n)%nat with (1 + (List.length l - n))%nat by lia.
    rewrite <- (skipn_skipn 1 (List.length l - n) l).
    replace (1 + (List.length l - n) - List.length l)%nat with 0%nat by lia.
    cbn [skipn].
    remember (skipn (List.length l - n) l) as tail_l eqn:E.
    assert (Hlen : List.length tail_l = n) by (subst; rewrite length_skipn; lia).
    destruct tail_l as [|y tail_l]; [cbn in Hlen; lia|].
    reflexivity.
Qed.

(** The history after one more record is the last 100 of the old
    history followed by the record. *)
Lemma log_api_usage_history (now prompt response model_name : pystr)
    (prompt_tokens response_tokens : Z) (u : ApiUsage) :
  request_history (log_api_usage now prompt response model_name
                                 prompt_tokens response_tokens u)
  = last_n 100 (request_history u ++
                [{| timestamp := now; model := model_name;
                    prompt_tokens := prompt_tokens;
                    response_tokens := response_tokens;
                    total_tokens := prompt_tokens + response_tokens |}]).
Proof.
  unfold log_api_usage; cbn [request_history].
  match goal with |- (if (100 <? ?n)%nat then _ else _) = _ =>
    destruct (Nat.ltb_spec 100 n) as [H | H] end.
  - reflexivity.
  - symmetry. apply last_n_short. exact H.
Qed.

Lemma log_all_counters (cs : list LogCall) (u : ApiUsage) (all_records : list UsageRecord) :
  request_history u = last_n 100 all_records ->
  daily_requests (log_all cs u) = daily_requests u + Z.of_nat (List.length cs) /\
  total_requests (log_all cs u) = total_requests u + Z.of_nat (List.length cs) /\
  daily_tokens_used (log_all cs u) = daily_tokens_used u + tokens_of cs /\
  total_tokens_used (log_all cs u) = total_tokens_used u + tokens_of cs /\
  last_reset_date (log_all cs u) = last_reset_date u /\
  request_history (log_all cs u) = last_n 100 (all_records ++ map record_of cs).
Proof.
  revert u all_records; induction cs as [|c cs IH]; intros u all_records Hh.
  - cbn [log_all fold_left List.length tokens_of fold_right map].
    rewrite app_nil_r. repeat split; try lia. exact Hh.
  - change (log_all (c :: cs) u) with (log_all cs (log_call u c)).
    destruct (IH (log_call u c) (all_records ++ [record_of c])) as (H1 & H2 & H3 & H4 & H5 & H6).
    { unfold log_call. rewrite log_api_usage_history, Hh.
      apply last_n_snoc. lia. }
    rewrite H1, H2, H3, H4, H5, H6.
    cbn [List.length tokens_of fold_right map].
    unfold log_call, log_api_usage;
      cbn [daily_requests total_requests daily_tokens_used total_tokens_used last_reset_date].
    rewrite <- app_assoc. cbn [app]. fold (tokens_of cs).
    repeat split; try lia.
Qed.

(** C6. From an empty ledger, N calls of [log_api_usage] leave
    [total_requests] (and [daily_requests]) at N, the daily and the
    lifetime token counters at the sum of the recorded prompt and
    response tokens, and a history of min(N, 100) entries: the most
    recent 100 records, in the order of the calls. *)
Theorem log_api_usage_n_times (today : pystr) (cs : list LogCall) :
  total_requests (log_all cs (initial_usage today)) = Z.of_nat (List.length cs) /\
  daily_requests (log_all cs (initial_usage today)) = Z.of_nat (List.length cs) /\
  daily_tokens_used (log_all cs (initial_usage today)) = tokens_of cs /\
  total_tokens_used (log_all cs (initial_usage today)) = tokens_of cs /\
  request_history (log_all cs (initial_usage today)) = last_n 100 (map record_of cs) /\
  List.length (request_history (log_all cs (initial_usage today)))
    = Nat.min (List.length cs) 100.
Proof.
  destruct (log_all_counters cs (initial_usage today) [] eq_refl)
    as (H1 & H2 & H3 & H4 & _ & H6).
  cbn [initial_usage daily_requests total_requests daily_tokens_used
       total_tokens_used app] in *.
  rewrite H1, H2, H3, H4, H6, last_n_length, length_map.
  repeat split; lia.
Qed.

(** C7. The date reset applied a second time with the same date changes
    nothing; applied with a date other than the stored one it zeroes the
    two daily counters, stores the date, and leaves the lifetime
    counters and the history as they were. *)
Theorem daily_reset_idempotent (current_date : pystr) (u : ApiUsage) :
  daily_reset current_date (daily_reset current_date u) = daily_reset current_date u /\
  (last_reset_date u <> current_date ->
   daily_requests (daily_reset current_date u) = 0 /\
   daily_tokens_used (daily_reset current_date u) = 0 /\
   last_reset_date (daily_reset current_date u) = current_date /\
   total_requests (daily_reset current_date u) = total_requests u /\
   total_tokens_used (daily_reset current_date u) = total_tokens_used u /\
   request_history (daily_reset current_date u) = request_history u).
Proof.
  split.
  - unfold daily_reset at 2 3.
    destruct (str_eqb (last_reset_date u) current_date) eqn:E; cbn [negb].
    + unfold daily_reset. rewrite E. reflexivity.
    + unfold daily_reset. cbn [last_reset_date].
      rewrite str_eqb_refl. reflexivity.
  - intros Hne. apply str_eqb_neq in Hne.
    unfold daily_reset. rewrite Hne. cbn. repeat split; reflexivity.
Qed.

(** C7, witness: the reset on the day after. *)
Lemma daily_reset_idempotent_witness :
  daily_requests (daily_reset (py "2025-01-02") yesterday_usage) = 0 /\
  total_requests (daily_reset (py "2025-01-02") yesterday_usage) = 9.
Proof.
  destruct (daily_reset_idempotent (py "2025-01-02") yesterday_usage) as [_ H].
  destruct H as (H1 & _ & _ & H4 & _).
  - vm_compute. congruence.
  - split; [exact H1 | exact H4].
Defined.

(* ================================================================= *)
(** * The provider gateway *)

Ltac eval_str_eqb :=
  repeat match goal with
  | |- context [str_eqb (py ?a) (py ?b)] =>
      let r := eval vm_compute in (str_eqb (py a) (py b)) in
      change (str_eqb (py a) (py b)) with r
  end;
  cbv iota.

Section GatewayFacts.

Variable isalnum : Z -> bool.
Variable sdk : pystr -> value -> pystr -> pystr -> sdk_result.

(** The gateway leaves the projects, the selection and the
    credentials alone. *)
Lemma call_generative_api_frame (now prompt : pystr) (s : Session) :
  projects (snd (call_generative_api isalnum sdk now prompt s)) = projects s /\
  current_project (snd (call_generative_api isalnum sdk now prompt s)) = current_project s /\
  user_api_keys (snd (call_generative_api isalnum sdk now prompt s)) = user_api_keys s /\
  selected_model_provider (snd (call_generative_api isalnum sdk now prompt s))
    = selected_model_provider s.
Proof.
  unfold call_generative_api, refused, call_succeeded, call_failed.
  repeat match goal with
  | |- context [if ?b then _ else _] => destruct b
  | |- context [match sdk ?a ?b ?c ?d with _ => _ end] => destruct (sdk a b c d)
  end; cbn [snd projects current_project user_api_keys selected_model_provider
            set_api_usage set_current_call_token_info note_sdk_request];
    (split; [|split; [|split]]); reflexivity.
Qed.

(** The three guards [if not api_key: return ...]. *)
Lemma refused_without_key (now prompt : pystr) (s : Session) (p : Provider) :
  selected_model_provider s = provider_name p ->
  truthy (get (user_api_keys s) (credential_key p)) = false ->
  call_generative_api isalnum sdk now prompt s = (missing_credential p, s).
Proof.
  intros Hsel Hkey. unfold call_generative_api. rewrite Hsel.
  destruct p; cbn [provider_name credential_key] in *;
    eval_str_eqb; rewrite Hkey; cbn [negb]; unfold refused;
    (apply f_equal2; [vm_compute; reflexivity | reflexivity]).
Qed.

(** C4. When the credential the gateway finds for the selected
    provider is absent or empty, the call returns the error text that
    names the provider, with zero tokens, and the session is the one
    it started from: no request reached an SDK, and no counter of the
    ledger and no entry of the history changed. *)
Theorem missing_credential_is_refused (now prompt : pystr) (s : Session) (p : Provider) :
  selected_model_provider s = provider_name p ->
  truthy (get (user_api_keys s) (credential_key p)) = false ->
  fst (call_generative_api isalnum sdk now prompt s) = missing_credential p /\
  sdk_requests (snd (call_generative_api isalnum sdk now prompt s)) = sdk_requests s /\
  api_usage (snd (call_generative_api isalnum sdk now prompt s)) = api_usage s /\
  snd (call_generative_api isalnum sdk now prompt s) = s.
Proof.
  intros Hsel Hkey. rewrite (refused_without_key now prompt s p Hsel Hkey).
  cbn [fst snd]. split; [|split; [|split]]; reflexivity.
Qed.

(** C5, as amended.  A call that gets past the credential check
    overwrites the last-call summary: on success with the model name
    and the token counts it returns, on a provider failure with the
    model name, zero counts and the error string.  A call refused for
    a missing credential leaves the summary as it was. *)
Theorem summary_overwritten_once_past_the_key_check
    (now prompt : pystr) (s : Session) (p : Provider) :
  selected_model_provider s = provider_name p ->
  let api_key := get (user_api_keys s) (credential_key p) in
  let r := call_generative_api isalnum sdk now prompt s in
  if truthy api_key then
    match sdk (provider_name p) api_key (get_model_name (provider_name p)) prompt with
    | SdkResponse _ _ _ =>
        current_call_token_info (snd r) =
          [(py "model", VStr (get_model_name (provider_name p)));
           (py "prompt_tokens", VInt (reply_prompt_tokens (fst r)));
           (py "response_tokens", VInt (reply_response_tokens (fst r)));
           (py "total_tokens",
            VInt (reply_prompt_tokens (fst r) + reply_response_tokens (fst r)))]
    | SdkException message =>
        current_call_token_info (snd r) =
          [(py "model", VStr (get_model_name (provider_name p)));
           (py "prompt_tokens", VInt 0);
           (py "response_tokens", VInt 0);
           (py "total_tokens", VInt 0);
           (py "error", VStr message)]
    end
  else current_call_token_info (snd r) = current_call_token_info s.
Proof.
  intros Hsel. cbv zeta. unfold call_generative_api. rewrite Hsel.
  destruct p; cbn [provider_name credential_key];
    eval_str_eqb;
    match goal with |- context [truthy ?k] => destruct (truthy k) end;
    cbn [negb];
    try reflexivity;
    match goal with |- context [sdk ?a ?b ?c ?d] => destruct (sdk a b c d) end;
    reflexivity.
Qed.

End GatewayFacts.

(** C4, witness: alice has typed no key and asks Gemini. *)
Lemma missing_credential_is_refused_witness :
  text (fst (call_generative_api ascii_isalnum story_sdk (py "2025-01-02T09:00:00")
                                 (py "あらすじを書いて") keyless_session))
    = py "エラー: Gemini APIキーが設定されていません。" /\
  snd (call_generative_api ascii_isalnum story_sdk (py "2025-01-02T09:00:00")
                           (py "あらすじを書いて") keyless_session)
    = keyless_session.
Proof.
  destruct (missing_credential_is_refused ascii_isalnum story_sdk
              (py "2025-01-02T09:00:00") (py "あらすじを書いて") keyless_session Gemini)
    as (H1 & _ & _ & H4); [vm_compute; reflexivity | vm_compute; reflexivity |].
  split; [rewrite H1; vm_compute; reflexivity | exact H4].
Defined.

(** C5, witness: a call through OpenAI with a key in place. *)
Lemma summary_overwritten_witness :
  current_call_token_info
    (snd (call_generative_api ascii_isalnum story_sdk (py "2025-01-02T09:00:00")
            (py "あらすじを書いて")
            (keyed_session (py "OpenAI") [(py "openai", VStr (py "sk-test"))])))
  = [(py "model", VStr (py "gpt-4o-mini"));
     (py "prompt_tokens", VInt 120);
     (py "response_tokens", VInt 450);
     (py "total_tokens", VInt 570)].
Proof.
  pose proof (summary_overwritten_once_past_the_key_check ascii_isalnum story_sdk
                (py "2025-01-02T09:00:00") (py "あらすじを書いて")
                (keyed_session (py "OpenAI") [(py "openai", VStr (py "sk-test"))])
                OpenAI) as H.
  vm_compute in H. vm_compute. apply H. reflexivity.
Defined.

(** C5, counterexample.  A call refused for a missing credential
    returns the error text and leaves the summary of an earlier call in
    place: it still names gpt-4o-mini, not the model of this call. *)
Lemma refused_call_keeps_earlier_summary :
  text (fst (call_generative_api ascii_isalnum story_sdk (py "2025-01-02T09:00:00")
                                 (py "あらすじを書いて") keyless_session))
    = py "エラー: Gemini APIキーが設定されていません。" /\
  current_call_token_info
    (snd (call_generative_api ascii_isalnum story_sdk (py "2025-01-02T09:00:00")
                              (py "あらすじを書いて") keyless_session))
    = earlier_summary /\
  get earlier_summary (py "model") = VStr (py "gpt-4o-mini") /\
  get_model_name (selected_model_provider keyless_session) = py "gemini-2.0-flash" /\
  get earlier_summary (py "model")
    <> VStr (get_model_name (selected_model_provider keyless_session)).
Proof. repeat split; vm_compute; congruence. Qed.

(* ================================================================= *)
(** * Dictionaries *)

Lemma dict_get_set_same (d : pydict) (k : pystr) (v : value) :
  dict_get (dict_set d k v) k = Some v.
Proof.
  induction d as [|[k' v'] d IH]; cbn [dict_set dict_get].
  - rewrite str_eqb_refl. reflexivity.
  - destruct (str_eqb k' k) eqn:E; cbn [dict_get]; rewrite E; [reflexivity | exact IH].
Qed.

Lemma dict_get_set_other (d : pydict) (k k' : pystr) (v : value) :
  k <> k' -> dict_get (dict_set d k v) k' = dict_get d k'.
Proof.
  intros Hne. induction d as [|[k0 v0] d IH]; cbn [dict_set dict_get].
  - apply str_eqb_neq in Hne. rewrite Hne. reflexivity.
  - destruct (str_eqb k0 k) eqn:E; cbn [dict_get].
    + apply str_eqb_eq in E. subst k0.
      apply str_eqb_neq in Hne. rewrite Hne. reflexivity.
    + destruct (str_eqb k0 k'); [reflexivity | exact IH].
Qed.

Lemma dict_has_false_get (d : pydict) (k : pystr) :
  dict_has d k = false -> dict_get d k = None.
Proof.
  induction d as [|[k' v'] d IH]; cbn [dict_has dict_get]; intros H.
  - reflexivity.
  - apply orb_false_iff in H as [H1 H2]. rewrite H1. apply IH. exact H2.
Qed.

Lemma dict_has_set (d : pydict) (k : pystr) (v : value) :
  dict_has (dict_set d k v) k = true.
Proof.
  induction d as [|[k' v'] d IH]; cbn [dict_set dict_has].
  - rewrite str_eqb_refl. reflexivity.
  - destruct (str_eqb k' k) eqn:E; cbn [dict_has]; rewrite E; [reflexivity | exact IH].
Qed.

(** After [d.update(other)] a key of [other] holds the value [other]
    gives it, and every other key holds what it held. *)
Lemma dict_get_update (other d : pydict) (k : pystr) :
  distinct_keys other = true ->
  dict_get (dict_update d other) k =
    match dict_get other k with
    | Some v => Some v
    | None => dict_get d k
    end.
Proof.
  revert d; induction other as [|[k0 v0] other IH]; intros d Hd.
  - reflexivity.
  - cbn [distinct_keys] in Hd. apply andb_true_iff in Hd as [Hfresh Hd].
    apply negb_true_iff in Hfresh.
    change (dict_update d ((k0, v0) :: other)) with (dict_update (dict_set d k0 v0) other).
    rewrite (IH _ Hd). cbn [dict_get].
    destruct (str_eqb k0 k) eqn:E.
    + apply str_eqb_eq in E. subst k0.
      rewrite (dict_has_false_get _ _ Hfresh). apply dict_get_set_same.
    + apply str_eqb_neq in E.
      destruct (dict_get other k); [reflexivity|].
      apply dict_get_set_other. exact E.
Qed.

Lemma all_dicts_set (d : pydict) (k : pystr) (items : pydict) :
  all_dicts d = true -> all_dicts (dict_set d k (VDict items)) = true.
Proof.
  induction d as [|[k' v'] d IH]; cbn [dict_set]; intros H.
  - reflexivity.
  - unfold all_dicts in *. cbn [forallb snd] in H.
    apply andb_true_iff in H as [H1 H2].
    destruct (str_eqb k' k); cbn [forallb snd].
    + exact H2.
    + rewrite H1. apply IH. exact H2.
Qed.

Lemma all_dicts_update (other d : pydict) :
  all_dicts d = true -> all_dicts other = true ->
  all_dicts (dict_update d other) = true.
Proof.
  revert d; induction other as [|[k0 v0] other IH]; intros d Hd Ho.
  - exact Hd.
  - unfold all_dicts in Ho. cbn [forallb snd] in Ho.
    apply andb_true_iff in Ho as [H1 H2].
    change (dict_update d ((k0, v0) :: other)) with (dict_update (dict_set d k0 v0) other).
    apply IH; [| exact H2].
    destruct v0; try discriminate. apply all_dicts_set. exact Hd.
Qed.

Lemma backfill_glossary_dict (items : pydict) :
  backfill_glossary (VDict items) = Returned (with_glossary (VDict items)).
Proof.
  cbn [backfill_glossary with_glossary].
  destruct (dict_has items (py "glossary")); reflexivity.
Qed.

Lemma backfill_all_dicts (ps : pydict) :
  all_dicts ps = true ->
  backfill_all ps = (map (fun kv => (fst kv, with_glossary (snd kv))) ps, None).
Proof.
  induction ps as [|[name project_data] ps IH]; intros H.
  - reflexivity.
  - unfold all_dicts in H. cbn [forallb snd] in H.
    apply andb_true_iff in H as [H1 H2].
    destruct project_data as [ | | | | | items]; try discriminate.
    cbn [backfill_all]. rewrite backfill_glossary_dict, (IH H2).
    reflexivity.
Qed.

Lemma dict_get_map_values (f : value -> value) (ps : pydict) (k : pystr) :
  dict_get (map (fun kv => (fst kv, f (snd kv))) ps) k = option_map f (dict_get ps k).
Proof.
  induction ps as [|[k' v'] ps IH]; cbn [map dict_get fst snd].
  - reflexivity.
  - destruct (str_eqb k' k); [reflexivity | exact IH].
Qed.

Lemma with_glossary_has_glossary (items : pydict) :
  exists items', with_glossary (VDict items) = VDict items' /\
                 dict_has items' (py "glossary") = true /\
                 (dict_has items (py "glossary") = true -> items' = items) /\
                 (dict_has items (py "glossary") = false ->
                  dict_get items' (py "glossary") = Some (VDict [])).
Proof.
  cbn [with_glossary].
  destruct (dict_has items (py "glossary")) eqn:E.
  - exists items. repeat split; try assumption; try reflexivity. discriminate.
  - exists (dict_set items (py "glossary") (VDict [])).
    split; [reflexivity|]. split; [apply dict_has_set|].
    split; [discriminate|]. intros _. apply dict_get_set_same.
Qed.

(* ================================================================= *)
(** * The import handler *)

(** C8. A malformed upload leaves the error notice and the session as
    it was.  An upload that decodes to a mapping of projects is merged
    into the stored mapping: a name of the upload then holds the
    uploaded project, every other name holds the project it held,
    each with an empty glossary back-filled where it had none; so a
    stored project that had a glossary is unchanged, and every project
    has a glossary afterwards. *)
Theorem import_projects_merges (s : Session) :
  import_projects JSONDecodeError s = (InvalidJSON, s) /\
  forall imported_data : pydict,
    distinct_keys imported_data = true ->
    all_dicts imported_data = true ->
    all_dicts (projects s) = true ->
    fst (import_projects (Loaded imported_data) s) = ImportDone /\
    (forall name,
       dict_get (projects (snd (import_projects (Loaded imported_data) s))) name =
         match dict_get imported_data name with
         | Some project_data => Some (with_glossary project_data)
         | None => option_map with_glossary (dict_get (projects s) name)
         end) /\
    (forall name items,
       dict_get imported_data name = None ->
       dict_get (projects s) name = Some (VDict items) ->
       dict_has items (py "glossary") = true ->
       dict_get (projects (snd (import_projects (Loaded imported_data) s))) name
         = Some (VDict items)) /\
    (forall name project_data,
       dict_get (projects (snd (import_projects (Loaded imported_data) s))) name
         = Some project_data ->
       exists items, project_data = VDict items /\
                     dict_has items (py "glossary") = true).
Proof.
  split; [reflexivity|].
  intros imported_data Hkeys Himp Hold.
  assert (Hall : all_dicts (dict_update (projects s) imported_data) = true)
    by (apply all_dicts_update; assumption).
  assert (Hrun : import_projects (Loaded imported_data) s =
                 (ImportDone,
                  set_projects
                    (map (fun kv => (fst kv, with_glossary (snd kv)))
                         (dict_update (projects s) imported_data))
                    (set_projects (dict_update (projects s) imported_data) s))).
  { unfold import_projects. cbn [projects set_projects].
    rewrite (backfill_all_dicts _ Hall). reflexivity. }
  rewrite Hrun. cbn [fst snd projects set_projects].
  assert (Hget : forall name,
             dict_get (map (fun kv => (fst kv, with_glossary (snd kv)))
                           (dict_update (projects s) imported_data)) name =
             match dict_get imported_data name with
             | Some project_data => Some (with_glossary project_data)
             | None => option_map with_glossary (dict_get (projects s) name)
             end).
  { intros name. rewrite dict_get_map_values, (dict_get_update _ _ _ Hkeys).
    destruct (dict_get imported_data name); reflexivity. }
  split; [reflexivity|]. split; [exact Hget|]. split.
  - intros name items Hnew Hstored Hgl.
    rewrite Hget, Hnew, Hstored. cbn [option_map with_glossary].
    rewrite Hgl. reflexivity.
  - intros name project_data Hres.
    rewrite dict_get_map_values in Hres.
    destruct (dict_get (dict_update (projects s) imported_data) name) as [v|] eqn:Ev;
      [|discriminate].
    cbn [option_map] in Hres. injection Hres as <-.
    assert (Hv : exists items, v = VDict items).
    { clear Hget Hrun. revert Hall Ev.
      generalize (dict_update (projects s) imported_data) as ps.
      induction ps as [|[k0 v0] ps IH]; cbn [dict_get]; [discriminate|].
      unfold all_dicts. cbn [forallb snd]. intros Ha.
      apply andb_true_iff in Ha as [H1 H2].
      destruct (str_eqb k0 name).
      - intros [= <-]. destruct v0; try discriminate. eexists; reflexivity.
      - apply IH. exact H2. }
    destruct Hv as [items ->].
    destruct (with_glossary_has_glossary items) as (items' & E & Hhas & _).
    exists items'. split; assumption.
Qed.

(** C8, witness: the sample upload into the session of alice. *)
Lemma import_projects_merges_witness :
  fst (import_projects (Loaded sample_upload) keyless_session) = ImportDone /\
  dict_get (projects (snd (import_projects (Loaded sample_upload) keyless_session)))
           (py "新作")
    = Some (VDict [(py "synopsis", VStr (py "海の物語。")); (py "glossary", VDict [])]).
Proof.
  destruct (import_projects_merges keyless_session) as [_ H].
  destruct (H sample_upload) as (H1 & H2 & _);
    [vm_compute; reflexivity | vm_compute; reflexivity | vm_compute; reflexivity |].
  split; [exact H1|]. rewrite H2. vm_compute. reflexivity.
Defined.

(* ================================================================= *)
(** * generate_ai_content *)

Lemma lookup_app (g1 g2 : scope) (name : pystr) :
  lookup (g1 ++ g2) name =
    match lookup g1 name with
    | Some b => Some b
    | None => lookup g2 name
    end.
Proof.
  induction g1 as [|[n b] g1 IH]; cbn [app lookup].
  - reflexivity.
  - destruct (str_eqb n name); [reflexivity | exact IH].
Qed.

(** No statement at the top level of the script binds [project]. *)
Lemma project_not_in_script_scope (projects_at_start : pydict) (current_date : pystr) :
  lookup (script_scope projects_at_start current_date) (py "project") = None.
Proof.
  unfold script_scope. rewrite !lookup_app.
  replace (lookup (opaque_names names_bound_before_views) (py "project"))
    with (@None binding) by (vm_compute; reflexivity).
  replace (lookup (opaque_names view_names) (py "project"))
    with (@None binding) by (vm_compute; reflexivity).
  unfold loop_variables.
  destruct (rev projects_at_start) as [|[project_name project_data] rest];
    cbn [lookup]; eval_str_eqb; reflexivity.
Qed.

Section PromptBuilderFacts.

Variable str_of : value -> pystr.
Variable isalnum : Z -> bool.
Variable sdk : pystr -> value -> pystr -> pystr -> sdk_result.

(** C1.  In the scope of the script, [generate_ai_content] builds no
    prompt: for every content kind, project snapshot and parameter bag
    the evaluation of the theme field raises [NameError] for the name
    [project], before any request is made, and the session is left as
    it was. *)
Theorem generate_ai_content_raises_name_error
    (projects_at_start : pydict) (current_date now content_type : pystr)
    (project_data : pydict) (additional_params : option pydict) (s : Session) :
  build_prompt str_of (script_scope projects_at_start current_date)
               content_type project_data additional_params
    = Raised (NameError (py "project")) /\
  generate_ai_content str_of isalnum sdk (script_scope projects_at_start current_date)
                      now content_type project_data additional_params s
    = (Raised (NameError (py "project")), s).
Proof.
  assert (H : build_prompt str_of (script_scope projects_at_start current_date)
                content_type project_data additional_params
              = Raised (NameError (py "project"))).
  { unfold build_prompt, base_info, global_dict.
    rewrite project_not_in_script_scope. reflexivity. }
  split; [exact H|].
  unfold generate_ai_content. rewrite H. reflexivity.
Qed.

(** Where the name [project] is bound to a dictionary, the theme, the
    synopsis and the world setting of the prompt are those of that
    dictionary, whatever the argument [project_data] holds. *)
Lemma base_info_reads_global_project (g : scope) (project project_data : pydict) :
  lookup g (py "project") = Some (Object (VDict project)) ->
  base_info str_of g project_data =
    (world_setting <- slice_to 500 (get_default project (py "world_setting") (py "未設定")) ;;
     Returned (lines
       [py "";
        py "作品基本情報:";
        py "- ジャンル: " ++ format str_of (get_default project_data (py "genre") (py "未設定"));
        py "- ターゲット読者: "
          ++ format str_of (get_default project_data (py "target_audience") (py "未設定"));
        py "- テーマ: " ++ format str_of (get_default project (py "theme") (py "未設定"));
        py "- あらすじ: " ++ format str_of (get_default project (py "synopsis") (py "未設定"));
        py "- 世界観: " ++ format str_of world_setting;
        py ""])).
Proof.
  intros H. unfold base_info, global_dict. rewrite H. reflexivity.
Qed.

End PromptBuilderFacts.

(* ================================================================= *)
(** * The full-story handler *)

Lemma build_prompt_in_script_scope (str_of : value -> pystr)
    (projects_at_start : pydict) (current_date content_type : pystr)
    (project_data : pydict) (additional_params : option pydict) :
  build_prompt str_of (script_scope projects_at_start current_date)
               content_type project_data additional_params
    = Raised (NameError (py "project")).
Proof.
  unfold build_prompt, base_info, global_dict.
  rewrite project_not_in_script_scope. reflexivity.
Qed.

Section HandlerFacts.

Variable str_of : value -> pystr.
Variable isalnum : Z -> bool.
Variable sdk : pystr -> value -> pystr -> pystr -> sdk_result.
Variable lower : pystr -> pystr.

Lemma generate_ai_content_keeps_projects (g : scope) (now content_type : pystr)
    (project_data : pydict) (additional_params : option pydict) (s : Session) :
  projects (snd (generate_ai_content str_of isalnum sdk g now content_type
                                     project_data additional_params s))
    = projects s.
Proof.
  unfold generate_ai_content.
  destruct (build_prompt str_of g content_type project_data additional_params)
    as [prompt | e]; [|reflexivity].
  pose proof (call_generative_api_frame isalnum sdk now prompt s) as [H _].
  destruct (call_generative_api isalnum sdk now prompt s) as [api_response s'].
  exact H.
Qed.

Lemma chapters_after_store (project : pydict)
    (full_story_content total_length chapter_count full_writing_style : pystr) :
  dict_get (store_full_story project full_story_content total_length
                             chapter_count full_writing_style) (py "chapters")
    = Some (VDict [(py "全体生成結果", VStr full_story_content)]).
Proof.
  unfold store_full_story.
  rewrite !dict_get_set_other by (apply str_eqb_neq; vm_compute; reflexivity).
  apply dict_get_set_same.
Qed.


End HandlerFacts.


(* ================================================================= *)
(** * Further properties of the gateway and the handlers *)

(** X1. The quality score lies between 10 and 100. *)
Theorem analyze_synopsis_quality_range (synopsis : pystr) :
  10 <= analyze_synopsis_quality synopsis <= 100.
Proof.
  unfold analyze_synopsis_quality.
  assert (H1 : 10 <= length_band synopsis 0).
  { unfold length_band.
    destruct ((200 <=? len synopsis) && (len synopsis <=? 400));
      [|destruct ((150 <=? len synopsis) && (len synopsis <=? 500))]; lia. }
  assert (H2 : forall score, score <= engaging_loop synopsis score).
  { intros score. unfold engaging_loop. rewrite connector_fold. lia. }
  assert (H3 : forall score, score <= punctuation_bonus synopsis score).
  { intros score. unfold punctuation_bonus.
    destruct (contains (py "?") synopsis || contains (py "！") synopsis); lia. }
  assert (H4 : forall score, score <= genre_bonus synopsis score).
  { intros score. unfold genre_bonus.
    destruct (existsb (fun keyword => contains keyword synopsis) genre_keywords); lia. }
  assert (H5 : forall score, score <= sentence_bonus synopsis score).
  { intros score. unfold sentence_bonus.
    match goal with |- context [if ?b then _ else _] => destruct b end; lia. }
  pose proof (H2 (length_band synopsis 0)).
  pose proof (H3 (engaging_loop synopsis (length_band synopsis 0))).
  pose proof (H4 (punctuation_bonus synopsis
                    (engaging_loop synopsis (length_band synopsis 0)))).
  pose proof (H5 (genre_bonus synopsis
                    (punctuation_bonus synopsis
                       (engaging_loop synopsis (length_band synopsis 0))))).
  lia.
Qed.

Section GatewayFurther.

Variable isalnum : Z -> bool.
Variable sdk : pystr -> value -> pystr -> pystr -> sdk_result.

(** X2. With the credentials held the way the settings sidebar stores
    them, in one dictionary per user under the user name, the gateway
    finds no credential for the provider (unless the user is named like
    the provider key): it refuses the call whatever key the user has
    typed in. *)
Theorem keys_under_user_name_are_not_found (now prompt : pystr) (s : Session)
    (p : Provider) (user : pystr) (keys : pydict) :
  user_api_keys s = [(user, VDict keys)] ->
  user <> credential_key p ->
  selected_model_provider s = provider_name p ->
  call_generative_api isalnum sdk now prompt s = (missing_credential p, s).
Proof.
  intros Hkeys Huser Hsel.
  apply refused_without_key; [exact Hsel|].
  rewrite Hkeys. unfold get. cbn [dict_get].
  apply str_eqb_neq in Huser. rewrite Huser. reflexivity.
Qed.

(** X3. When the SDK raises, the gateway returns the text
    "API呼び出し中にエラーが発生しました: " followed by the message, with
    zero tokens; the ledger is unchanged; and the text does not start
    with エラー, the prefix by which the handlers tell a failure. *)
Theorem provider_failure_text (now prompt : pystr) (s : Session) (p : Provider)
    (message : pystr) :
  selected_model_provider s = provider_name p ->
  truthy (get (user_api_keys s) (credential_key p)) = true ->
  sdk (provider_name p) (get (user_api_keys s) (credential_key p))
      (get_model_name (provider_name p)) prompt = SdkException message ->
  fst (call_generative_api isalnum sdk now prompt s)
    = {| text := py "API呼び出し中にエラーが発生しました: " ++ message;
         reply_prompt_tokens := 0; reply_response_tokens := 0 |} /\
  startswith (text (fst (call_generative_api isalnum sdk now prompt s))) (py "エラー")
    = false /\
  api_usage (snd (call_generative_api isalnum sdk now prompt s)) = api_usage s /\
  sdk_requests (snd (call_generative_api isalnum sdk now prompt s))
    = sdk_requests s ++ [(provider_name p, prompt)].
Proof.
  intros Hsel Hkey Hsdk. unfold call_generative_api. rewrite Hsel.
  destruct p; cbn [provider_name credential_key] in *;
    eval_str_eqb; rewrite Hkey; cbn [negb]; rewrite Hsdk;
    unfold call_failed; cbn [fst snd text api_usage sdk_requests
                             set_current_call_token_info note_sdk_request];
    (split; [reflexivity | split; [vm_compute; reflexivity | split; reflexivity]]).
Qed.

(** X4. On success the ledger gains one record: with the token counts
    the SDK reports for OpenAI and Claude, with the estimates of
    [count_tokens] for Gemini. *)
Theorem success_is_logged (now prompt : pystr) (s : Session) (p : Provider)
    (response_text : pystr) (usage_prompt_tokens usage_response_tokens : Z) :
  selected_model_provider s = provider_name p ->
  truthy (get (user_api_keys s) (credential_key p)) = true ->
  sdk (provider_name p) (get (user_api_keys s) (credential_key p))
      (get_model_name (provider_name p)) prompt
    = SdkResponse response_text usage_prompt_tokens usage_response_tokens ->
  text (fst (call_generative_api isalnum sdk now prompt s)) = response_text /\
  api_usage (snd (call_generative_api isalnum sdk now prompt s)) =
    match p with
    | Gemini =>
        log_api_usage now prompt response_text (get_model_name (provider_name p))
                      (count_tokens isalnum prompt) (count_tokens isalnum response_text)
                      (api_usage s)
    | _ =>
        log_api_usage now prompt response_text (get_model_name (provider_name p))
                      usage_prompt_tokens usage_response_tokens (api_usage s)
    end.
Proof.
  intros Hsel Hkey Hsdk. unfold call_generative_api. rewrite Hsel.
  destruct p; cbn [provider_name credential_key] in *;
    eval_str_eqb; rewrite Hkey; cbn [negb]; rewrite Hsdk;
    unfold call_succeeded; cbn [fst snd text api_usage
                                set_current_call_token_info set_api_usage
                                note_sdk_request];
    (split; reflexivity).
Qed.

End GatewayFurther.

(** X2, witness: alice has typed a Gemini key, the key check of the
    handlers passes, and the gateway refuses the call. *)
Lemma keys_under_user_name_are_not_found_witness :
  is_api_key_set ascii_lower alice_with_key = Returned true /\
  text (fst (call_generative_api ascii_isalnum story_sdk (py "2025-01-02T09:00:00")
                                 (py "あらすじを書いて") alice_with_key))
    = py "エラー: Gemini APIキーが設定されていません。".
Proof.
  split; [vm_compute; reflexivity|].
  rewrite (keys_under_user_name_are_not_found ascii_isalnum story_sdk
             (py "2025-01-02T09:00:00") (py "あらすじを書いて") alice_with_key Gemini
             (py "alice")
             [(py "gemini", VStr (py "AIza-test"));
              (py "openai", VStr (py ""));
              (py "claude", VStr (py ""))]).
  - vm_compute. reflexivity.
  - reflexivity.
  - vm_compute. discriminate.
  - reflexivity.
Defined.

(** X3, witness: a failing SDK behind OpenAI. *)
Lemma provider_failure_text_witness :
  text (fst (call_generative_api ascii_isalnum failing_sdk (py "2025-01-02T09:00:00")
               (py "あらすじを書いて")
               (keyed_session (py "OpenAI") [(py "openai", VStr (py "sk-test"))])))
    = py "API呼び出し中にエラーが発生しました: 401 Unauthorized".
Proof.
  destruct (provider_failure_text ascii_isalnum failing_sdk (py "2025-01-02T09:00:00")
              (py "あらすじを書いて")
              (keyed_session (py "OpenAI") [(py "openai", VStr (py "sk-test"))])
              OpenAI (py "401 Unauthorized")) as (H & _);
    [reflexivity | vm_compute; reflexivity | reflexivity |].
  rewrite H. vm_compute. reflexivity.
Defined.

(** X4, witness: a call through Claude that succeeds. *)
Lemma success_is_logged_witness :
  total_requests
    (api_usage
       (snd (call_generative_api ascii_isalnum story_sdk (py "2025-01-02T09:00:00")
               (py "あらすじを書いて")
               (keyed_session (py "Claude") [(py "claude", VStr (py "sk-ant-test"))]))))
    = 10.
Proof.
  destruct (success_is_logged ascii_isalnum story_sdk (py "2025-01-02T09:00:00")
              (py "あらすじを書いて")
              (keyed_session (py "Claude") [(py "claude", VStr (py "sk-ant-test"))])
              Claude (py "第一章 旅立ち。【第1章 終了】") 120 450) as (_ & H);
    [reflexivity | vm_compute; reflexivity | reflexivity |].
  rewrite H. vm_compute. reflexivity.
Defined.

Lemma backfill_glossary_raises_type_error (project_data : value) (e : exn) :
  backfill_glossary project_data = Raised e -> e = TypeError.
Proof.
  destruct project_data as [ | b | n | t | xs | items]; cbn [backfill_glossary];
    try (intros [= <-]; reflexivity).
  - destruct (negb (contains (py "glossary") t)); [intros [= <-]; reflexivity|discriminate].
  - destruct (negb (existsb (is_str (py "glossary")) xs));
      [intros [= <-]; reflexivity|discriminate].
  - destruct (negb (dict_has items (py "glossary"))); discriminate.
Qed.

(** The glossary loop stops at the first project it cannot handle and
    leaves that project and the ones after it as they are. *)
Lemma backfill_all_stops (ps : pydict) (name : pystr) (v : value) :
  dict_get ps name = Some v ->
  backfill_glossary v = Raised TypeError ->
  snd (backfill_all ps) = Some TypeError /\
  dict_get (fst (backfill_all ps)) name = Some v.
Proof.
  induction ps as [|[k0 v0] ps IH]; cbn [dict_get]; [discriminate|].
  intros Hget Hraise. cbn [backfill_all].
  destruct (backfill_glossary v0) as [v0' | e] eqn:E0.
  - destruct (str_eqb k0 name) eqn:Ek.
    + injection Hget as ->. congruence.
    + destruct (IH Hget Hraise) as [H1 H2].
      destruct (backfill_all ps) as [rest' e']. cbn [fst snd] in *.
      cbn [dict_get]. rewrite Ek. split; assumption.
  - cbn [fst snd dict_get].
    rewrite (backfill_glossary_raises_type_error _ _ E0).
    split; [reflexivity | exact Hget].
Qed.

(** X5. An upload that maps a project name to a value the glossary
    check cannot handle (a number, a boolean, null, or a string or list
    without "glossary" in it) is reported as an import error only after
    the upload has been merged: the stored mapping then holds the
    uploaded value under that name. *)
Theorem import_of_a_non_mapping_is_partial (s : Session) (imported_data : pydict)
    (name : pystr) (v : value) :
  distinct_keys imported_data = true ->
  dict_get imported_data name = Some v ->
  backfill_glossary v = Raised TypeError ->
  fst (import_projects (Loaded imported_data) s) = ImportFailed TypeError /\
  dict_get (projects (snd (import_projects (Loaded imported_data) s))) name = Some v.
Proof.
  intros Hd Hget Hraise. unfold import_projects. cbn [projects set_projects].
  assert (Hmerged : dict_get (dict_update (projects s) imported_data) name = Some v).
  { rewrite (dict_get_update _ _ _ Hd), Hget. reflexivity. }
  destruct (backfill_all_stops _ _ _ Hmerged Hraise) as [H1 H2].
  destruct (backfill_all (dict_update (projects s) imported_data)) as [ps e].
  cbn [fst snd] in *. subst e. cbn [fst snd projects set_projects].
  split; [reflexivity | exact H2].
Qed.

(** X5, witness: the upload {"断片": 5} into the session of alice. *)
Lemma import_of_a_non_mapping_is_partial_witness :
  dict_get (projects keyless_session) (py "断片") = None /\
  fst (import_projects (Loaded [(py "断片", VInt 5)]) keyless_session)
    = ImportFailed TypeError /\
  dict_get (projects (snd (import_projects (Loaded [(py "断片", VInt 5)])
                                           keyless_session)))
           (py "断片")
    = Some (VInt 5).
Proof.
  split; [vm_compute; reflexivity|].
  apply (import_of_a_non_mapping_is_partial keyless_session
           [(py "断片", VInt 5)] (py "断片") (VInt 5));
    vm_compute; reflexivity.
Defined.

(* ================================================================= *)
(** * The gateway: side effects and the modification request *)

Section GatewayEffects.

Variable isalnum : Z -> bool.
Variable sdk : pystr -> value -> pystr -> pystr -> sdk_result.

Lemma log_api_usage_requests (now prompt response model_name : pystr)
    (prompt_tokens response_tokens : Z) (u : ApiUsage) :
  total_requests (log_api_usage now prompt response model_name
                                prompt_tokens response_tokens u)
    = total_requests u + 1 /\
  daily_requests (log_api_usage now prompt response model_name
                                prompt_tokens response_tokens u)
    = daily_requests u + 1.
Proof. split; reflexivity. Qed.

(** X6. A call of the gateway either reaches no SDK and leaves the
    ledger and the last-call summary as they were, or hands exactly one
    request (the selected provider with the prompt) to an SDK and then
    leaves the ledger alone or counts exactly one more request.  It
    never touches the projects, the active project, the credentials,
    the provider selection or the user. *)
Theorem gateway_side_effects (now prompt : pystr) (s : Session) :
  (projects (snd (call_generative_api isalnum sdk now prompt s)) = projects s /\
   current_project (snd (call_generative_api isalnum sdk now prompt s))
     = current_project s /\
   user_api_keys (snd (call_generative_api isalnum sdk now prompt s))
     = user_api_keys s /\
   current_user (snd (call_generative_api isalnum sdk now prompt s)) = current_user s /\
   selected_model_provider (snd (call_generative_api isalnum sdk now prompt s))
     = selected_model_provider s) /\
  ((sdk_requests (snd (call_generative_api isalnum sdk now prompt s)) = sdk_requests s /\
    api_usage (snd (call_generative_api isalnum sdk now prompt s)) = api_usage s /\
    current_call_token_info (snd (call_generative_api isalnum sdk now prompt s))
      = current_call_token_info s) \/
   (sdk_requests (snd (call_generative_api isalnum sdk now prompt s))
      = sdk_requests s ++ [(selected_model_provider s, prompt)] /\
    (api_usage (snd (call_generative_api isalnum sdk now prompt s)) = api_usage s \/
     (total_requests (api_usage (snd (call_generative_api isalnum sdk now prompt s)))
        = total_requests (api_usage s) + 1 /\
      daily_requests (api_usage (snd (call_generative_api isalnum sdk now prompt s)))
        = daily_requests (api_usage s) + 1)))).
Proof.
  unfold call_generative_api, refused, call_succeeded, call_failed.
  repeat match goal with
  | |- context [if ?b then _ else _] => destruct b
  | |- context [match sdk ?a ?b ?c ?d with _ => _ end] => destruct (sdk a b c d)
  end;
    cbn [snd projects current_project user_api_keys selected_model_provider
         current_user sdk_requests api_usage current_call_token_info
         set_api_usage set_current_call_token_info note_sdk_request];
    (split; [repeat (split; [reflexivity|]); reflexivity|]);
    first [ left; (split; [|split]); reflexivity
          | right; split; [reflexivity|];
            first [ left; reflexivity | right; apply log_api_usage_requests ] ].
Qed.

(** With a provider selected that is none of Gemini, OpenAI and
    Claude, the gateway returns the error text for an unknown model and
    leaves the session as it was. *)
Lemma unknown_provider_is_refused (now prompt : pystr) (s : Session) :
  selected_model_provider s <> py "Gemini" ->
  selected_model_provider s <> py "OpenAI" ->
  selected_model_provider s <> py "Claude" ->
  call_generative_api isalnum sdk now prompt s =
    ({| text := py "エラー: 不明なAIモデルが選択されています。";
        reply_prompt_tokens := 0; reply_response_tokens := 0 |}, s).
Proof.
  intros H1 H2 H3.
  apply str_eqb_neq in H1. apply str_eqb_neq in H2. apply str_eqb_neq in H3.
  unfold call_generative_api. rewrite H1, H2, H3. reflexivity.
Qed.

Lemma not_own_extension {A : Type} (l : list A) (x : A) : l ++ [x] <> l.
Proof.
  intros H. apply (f_equal (@List.length A)) in H.
  rewrite length_app in H. cbn [List.length] in H. lia.
Qed.

(** X7. Whenever the gateway returns without having handed a request to
    an SDK (a missing credential, or a provider that is none of the
    three), the text it returns starts with エラー, the prefix by which
    every handler recognises a failure, and the token counts are
    zero. *)
Theorem call_without_request_returns_error_text (now prompt : pystr) (s : Session) :
  sdk_requests (snd (call_generative_api isalnum sdk now prompt s)) = sdk_requests s ->
  startswith (text (fst (call_generative_api isalnum sdk now prompt s))) (py "エラー")
    = true /\
  reply_prompt_tokens (fst (call_generative_api isalnum sdk now prompt s)) = 0 /\
  reply_response_tokens (fst (call_generative_api isalnum sdk now prompt s)) = 0.
Proof.
  unfold call_generative_api, refused, call_succeeded, call_failed.
  repeat match goal with
  | |- context [if ?b then _ else _] => destruct b
  | |- context [match sdk ?a ?b ?c ?d with _ => _ end] => destruct (sdk a b c d)
  end;
    cbn [fst snd text reply_prompt_tokens reply_response_tokens sdk_requests
         set_api_usage set_current_call_token_info note_sdk_request];
    intros H;
    first [ exfalso; exact (not_own_extension _ _ H)
          | split; [vm_compute; reflexivity | split; reflexivity] ].
Qed.

End GatewayEffects.

(** X7, witness: the refused call of alice. *)
Lemma call_without_request_returns_error_text_witness :
  startswith
    (text (fst (call_generative_api ascii_isalnum story_sdk (py "2025-01-02T09:00:00")
                  (py "あらすじを書いて") keyless_session)))
    (py "エラー") = true.
Proof.
  refine (proj1 (call_without_request_returns_error_text ascii_isalnum story_sdk
                   (py "2025-01-02T09:00:00") (py "あらすじを書いて") keyless_session _)).
  vm_compute. reflexivity.
Defined.

Lemma startswith_app (w t : pystr) : startswith (w ++ t) w = true.
Proof.
  induction w as [|c w IH]; [destruct t; reflexivity|].
  cbn [app startswith]. rewrite Z.eqb_refl. exact IH.
Qed.

Lemma startswith_app_l (a w t : pystr) :
  startswith a w = true -> startswith (a ++ t) w = true.
Proof.
  revert a; induction w as [|c w IH]; intros a H;
    [destruct (a ++ t); reflexivity|].
  destruct a as [|x a]; [discriminate|].
  cbn [app startswith] in *.
  apply andb_true_iff in H as [H1 H2]. rewrite H1. apply IH. exact H2.
Qed.

Lemma contains_app_r (w a t : pystr) :
  contains w t = true -> contains w (a ++ t) = true.
Proof.
  intros H. induction a as [|x a IH]; [exact H|].
  cbn [app contains]. rewrite IH. apply orb_true_r.
Qed.

Lemma contains_app_l (w a t : pystr) :
  contains w a = true -> contains w (a ++ t) = true.
Proof.
  induction a as [|x a IH]; cbn [contains]; intros H.
  - rewrite orb_false_r in H. destruct w; [|discriminate].
    destruct t; reflexivity.
  - apply orb_true_iff in H as [H | H].
    + pose proof (startswith_app_l (x :: a) w t H) as Hs.
      cbn [app] in Hs. cbn [app contains]. rewrite Hs. reflexivity.
    + cbn [app contains]. rewrite (IH H). apply orb_true_r.
Qed.

Lemma contains_self_app (w t : pystr) : contains w (w ++ t) = true.
Proof.
  destruct w as [|c w]; [destruct t; reflexivity|].
  cbn [app contains].
  pose proof (startswith_app (c :: w) t) as H. cbn [app] in H. rewrite H.
  reflexivity.
Qed.

Lemma contains_join (w sep : pystr) (parts : list pystr) (part : pystr) :
  In part parts -> contains w part = true -> contains w (join sep parts) = true.
Proof.
  intros Hin Hc. induction parts as [|p rest IH]; [contradiction|].
  destruct Hin as [-> | Hin].
  - destruct rest as [|q rest]; [exact Hc|].
    cbn [join]. apply contains_app_l. exact Hc.
  - destruct rest as [|q rest]; [contradiction|].
    change (join sep (p :: q :: rest)) with (p ++ sep ++ join sep (q :: rest)).
    apply contains_app_r, contains_app_r. apply IH. exact Hin.
Qed.

(** X8. The modification prompt carries the whole content, the whole
    instruction and the content label, none of them cut or altered,
    whatever their length. *)
Theorem modification_prompt_embeds_its_arguments
    (content modification_request content_type : pystr) :
  contains content (modification_prompt content modification_request content_type)
    = true /\
  contains modification_request
           (modification_prompt content modification_request content_type) = true /\
  contains content_type
           (modification_prompt content modification_request content_type) = true.
Proof.
  unfold modification_prompt, lines.
  split; [|split].
  - apply (contains_join _ _ _ content); [cbn [In]; tauto|].
    rewrite <- (app_nil_r content) at 2. apply contains_self_app.
  - apply (contains_join _ _ _ modification_request); [cbn [In]; tauto|].
    rewrite <- (app_nil_r modification_request) at 2. apply contains_self_app.
  - apply (contains_join _ _ _
             (py "以下の" ++ content_type
              ++ py "を、ユーザーの指示に従って修正してください。"));
      [cbn [In]; tauto|].
    apply contains_app_r, contains_self_app.
Qed.

(* ================================================================= *)
(** * The project sidebar *)

Lemma str_eqb_sym (a b : pystr) : str_eqb a b = str_eqb b a.
Proof.
  destruct (str_eqb a b) eqn:E.
  - apply str_eqb_eq in E. subst. symmetry. apply str_eqb_refl.
  - apply str_eqb_neq in E. symmetry. apply str_eqb_neq. congruence.
Qed.

Lemma dict_has_get_some (d : pydict) (k : pystr) :
  dict_has d k = true -> exists v, dict_get d k = Some v.
Proof.
  induction d as [|[k' v'] d IH]; cbn [dict_has dict_get]; [discriminate|].
  destruct (str_eqb k' k); [intros _; eexists; reflexivity | exact IH].
Qed.

Lemma dict_get_some_has (d : pydict) (k : pystr) (v : value) :
  dict_get d k = Some v -> dict_has d k = true.
Proof.
  induction d as [|[k' v'] d IH]; cbn [dict_has dict_get]; [discriminate|].
  destruct (str_eqb k' k); [reflexivity | exact IH].
Qed.

Lemma dict_set_fresh (d : pydict) (k : pystr) (v : value) :
  dict_has d k = false -> dict_set d k v = d ++ [(k, v)].
Proof.
  induction d as [|[k' v'] d IH]; cbn [dict_has dict_set app]; intros H.
  - reflexivity.
  - apply orb_false_iff in H as [H1 H2]. rewrite H1, (IH H2). reflexivity.
Qed.

Lemma dict_set_same_value (d : pydict) (k : pystr) (v : value) :
  dict_get d k = Some v -> dict_set d k v = d.
Proof.
  induction d as [|[k' v'] d IH]; cbn [dict_get dict_set]; [discriminate|].
  destruct (str_eqb k' k).
  - intros [= ->]. reflexivity.
  - intros H. rewrite (IH H). reflexivity.
Qed.

Lemma dict_del_set_fresh (d : pydict) (k : pystr) (v : value) :
  dict_has d k = false -> dict_del (dict_set d k v) k = d.
Proof.
  induction d as [|[k' v'] d IH]; cbn [dict_has dict_set dict_del]; intros H.
  - rewrite str_eqb_refl. reflexivity.
  - apply orb_false_iff in H as [H1 H2]. rewrite H1. cbn [dict_del].
    rewrite H1, (IH H2). reflexivity.
Qed.

Lemma dict_get_del_other (d : pydict) (k k' : pystr) :
  k <> k' -> dict_get (dict_del d k) k' = dict_get d k'.
Proof.
  intros Hne. induction d as [|[k0 v0] d IH]; cbn [dict_del dict_get]; [reflexivity|].
  destruct (str_eqb k0 k) eqn:E.
  - apply str_eqb_eq in E. subst k0.
    apply str_eqb_neq in Hne. rewrite Hne. reflexivity.
  - cbn [dict_get]. destruct (str_eqb k0 k'); [reflexivity | exact IH].
Qed.

Lemma dict_get_del_same (d : pydict) (k : pystr) :
  distinct_keys d = true -> dict_get (dict_del d k) k = None.
Proof.
  induction d as [|[k0 v0] d IH]; cbn [distinct_keys dict_del dict_get]; intros H;
    [reflexivity|].
  apply andb_true_iff in H as [Hfresh Hd]. apply negb_true_iff in Hfresh.
  destruct (str_eqb k0 k) eqn:E.
  - apply str_eqb_eq in E. subst k0. apply dict_has_false_get. exact Hfresh.
  - cbn [dict_get]. rewrite E. apply IH. exact Hd.
Qed.


Lemma session_eta (s : Session) :
  set_projects (projects s) s = s /\
  set_current_project (current_project s) s = s /\
  set_user_api_keys (user_api_keys s) s = s /\
  set_api_usage (api_usage s) s = s.
Proof. destruct s. repeat split. Qed.

(** X9. Creating a project under a non-empty name that is not taken
    stores the default project (empty texts, no characters, chapters or
    glossary terms, writing mode manual) under that name at the end of
    the mapping, makes it the active project and leaves every other
    project as it was. *)
Theorem create_project_adds_default_project (now new_project_name : pystr) (s : Session) :
  new_project_name <> [] ->
  dict_has (projects s) new_project_name = false ->
  fst (create_project now new_project_name s) = ProjectCreated /\
  current_project (snd (create_project now new_project_name s))
    = Some new_project_name /\
  projects (snd (create_project now new_project_name s))
    = projects s ++ [(new_project_name, VDict (new_project now))] /\
  dict_get (projects (snd (create_project now new_project_name s))) new_project_name
    = Some (VDict (new_project now)) /\
  (forall other, other <> new_project_name ->
     dict_get (projects (snd (create_project now new_project_name s))) other
       = dict_get (projects s) other).
Proof.
  intros Hname Hfresh. unfold create_project.
  destruct new_project_name as [|c name]; [contradiction|].
  cbn [nonempty]. rewrite Hfresh.
  cbn [negb fst snd current_project projects set_current_project set_projects].
  split; [reflexivity|]. split; [reflexivity|].
  split; [apply dict_set_fresh; exact Hfresh|].
  split; [apply dict_get_set_same|].
  intros other Hother. apply dict_get_set_other. congruence.
Qed.

(** X9, witness: alice creates a second project. *)
Lemma create_project_adds_default_project_witness :
  keys (projects (snd (create_project (py "2025-01-02T09:00:00") (py "新作")
                                      keyless_session)))
    = [py "冒険譚"; py "新作"].
Proof.
  destruct (create_project_adds_default_project (py "2025-01-02T09:00:00") (py "新作")
              keyless_session) as (_ & _ & H & _);
    [vm_compute; discriminate | vm_compute; reflexivity |].
  rewrite H. vm_compute. reflexivity.
Defined.

(** X10. Creating a project under a name that is taken, or under the
    empty name, changes nothing: the stored project of that name is
    not overwritten and the active project stays. *)
Theorem create_project_keeps_existing (now new_project_name : pystr) (s : Session) :
  new_project_name = [] \/ dict_has (projects s) new_project_name = true ->
  snd (create_project now new_project_name s) = s /\
  fst (create_project now new_project_name s) <> ProjectCreated.
Proof.
  intros [-> | Hhas]; unfold create_project.
  - cbn. split; [reflexivity | discriminate].
  - rewrite Hhas. destruct (nonempty new_project_name); cbn;
      (split; [reflexivity | discriminate]).
Qed.

(** X10, witness: the name of the stored project. *)
Lemma create_project_keeps_existing_witness :
  create_project (py "2025-01-02T09:00:00") (py "冒険譚") keyless_session
    = (ProjectExists, keyless_session).
Proof.
  destruct (create_project_keeps_existing (py "2025-01-02T09:00:00") (py "冒険譚")
              keyless_session) as [H _];
    [right; vm_compute; reflexivity|].
  rewrite <- H at 2. vm_compute. reflexivity.
Defined.

(** X11. Deleting the active project removes it from the mapping and
    clears the active project; every other project stays as it was. *)
Theorem delete_removes_active_project (s : Session) (project_name : pystr) :
  distinct_keys (projects s) = true ->
  current_project s = Some project_name ->
  project_name <> [] ->
  dict_has (projects s) project_name = true ->
  fst (delete_current_project s) = Returned ProjectDeleted /\
  current_project (snd (delete_current_project s)) = None /\
  dict_get (projects (snd (delete_current_project s))) project_name = None /\
  (forall other, other <> project_name ->
     dict_get (projects (snd (delete_current_project s))) other
       = dict_get (projects s) other).
Proof.
  intros Hd Hcur Hname Hhas. unfold delete_current_project. rewrite Hcur.
  destruct (projects s) as [|kv ps] eqn:Eps; [discriminate|].
  destruct project_name as [|c name]; [contradiction|].
  rewrite Hhas.
  cbn [fst snd current_project projects set_current_project set_projects].
  split; [reflexivity|]. split; [reflexivity|].
  split; [apply dict_get_del_same; exact Hd|].
  intros other Hother. apply dict_get_del_other. congruence.
Qed.

(** X11, witness: alice deletes her project. *)
Lemma delete_removes_active_project_witness :
  dict_get (projects (snd (delete_current_project keyless_session))) (py "冒険譚")
    = None.
Proof.
  destruct (delete_removes_active_project keyless_session (py "冒険譚"))
    as (_ & _ & H & _);
    [vm_compute; reflexivity | reflexivity | vm_compute; discriminate
     | vm_compute; reflexivity |].
  exact H.
Defined.



(** X13. Creating a project under a fresh non-empty name and deleting
    it again restores the project mapping exactly; only the active
    project is cleared. *)
Theorem create_then_delete_restores_projects (now new_project_name : pystr)
    (s : Session) :
  new_project_name <> [] ->
  dict_has (projects s) new_project_name = false ->
  delete_current_project (snd (create_project now new_project_name s))
    = (Returned ProjectDeleted, set_current_project None s).
Proof.
  intros Hname Hfresh. unfold create_project.
  destruct new_project_name as [|c name]; [contradiction|].
  cbn [nonempty]. rewrite Hfresh. cbn [negb snd].
  unfold delete_current_project.
  cbn [projects current_project set_current_project set_projects].
  rewrite dict_has_set.
  destruct (dict_set (projects s) (c :: name) (VDict (new_project now))) eqn:E.
  - rewrite (dict_set_fresh _ _ _ Hfresh) in E.
    destruct (projects s); discriminate.
  - rewrite <- E, (dict_del_set_fresh _ _ _ Hfresh).
    destruct s; reflexivity.
Qed.

(** X13, witness: a project created and deleted in the session of
    alice. *)
Lemma create_then_delete_restores_projects_witness :
  projects (snd (delete_current_project
                   (snd (create_project (py "2025-01-02T09:00:00") (py "新作")
                                        keyless_session))))
    = projects keyless_session.
Proof.
  rewrite (create_then_delete_restores_projects (py "2025-01-02T09:00:00") (py "新作")
             keyless_session);
    [reflexivity | vm_compute; discriminate | vm_compute; reflexivity].
Defined.

(* ================================================================= *)
(** * The glossary sidebar *)

(** The view on a session with a user, an active project and a
    glossary in it: the prologue changes nothing, and the button
    decides. *)
Lemma add_glossary_term_ready (now new_term_name new_term_description : pystr)
    (s : Session) (user project_name : pystr) (project glossary : pydict) :
  current_user s = Some user -> user <> [] ->
  current_project s = Some project_name -> project_name <> [] ->
  dict_get (projects s) project_name = Some (VDict project) ->
  dict_get project (py "glossary") = Some (VDict glossary) ->
  add_glossary_term now new_term_name new_term_description s =
    if nonempty new_term_name && nonempty new_term_description then
      if dict_has glossary new_term_name then (Returned TermExists, s)
      else
        (Returned TermAdded,
         store_project project_name
           (dict_set project (py "glossary")
              (VDict (dict_set glossary new_term_name
                        (glossary_entry new_term_description now)))) s)
    else (Returned TermInputMissing, s).
Proof.
  intros Hu Hune Hc Hcne Hp Hg. unfold add_glossary_term.
  rewrite Hu, Hc, Hp.
  destruct user as [|uc user]; [contradiction|].
  destruct project_name as [|pc project_name]; [contradiction|].
  cbn [backfill_glossary]. rewrite (dict_get_some_has _ _ _ Hg). cbn [negb].
  assert (Hs : store_project (pc :: project_name) project s = s).
  { unfold store_project. rewrite (dict_set_same_value _ _ _ Hp).
    apply session_eta. }
  rewrite Hs. unfold py_getitem. rewrite Hg.
  destruct (nonempty new_term_name && nonempty new_term_description); [|reflexivity].
  cbn [py_in py_setitem].
  destruct (dict_has glossary new_term_name); reflexivity.
Qed.

(** X14. Adding a glossary term with a non-empty name that is not in
    the glossary and a non-empty description stores the description and
    the time of the call under that name; the other terms of the
    glossary and the other projects stay as they were. *)
Theorem add_glossary_term_stores_entry (now new_term_name new_term_description : pystr)
    (s : Session) (user project_name : pystr) (project glossary : pydict) :
  current_user s = Some user -> user <> [] ->
  current_project s = Some project_name -> project_name <> [] ->
  dict_get (projects s) project_name = Some (VDict project) ->
  dict_get project (py "glossary") = Some (VDict glossary) ->
  new_term_name <> [] -> new_term_description <> [] ->
  dict_has glossary new_term_name = false ->
  fst (add_glossary_term now new_term_name new_term_description s) = Returned TermAdded /\
  (exists glossary',
     glossary_of (snd (add_glossary_term now new_term_name new_term_description s))
                 project_name = Some (VDict glossary') /\
     dict_get glossary' new_term_name
       = Some (glossary_entry new_term_description now) /\
     (forall other, other <> new_term_name ->
        dict_get glossary' other = dict_get glossary other)) /\
  (forall other, other <> project_name ->
     dict_get (projects (snd (add_glossary_term now new_term_name
                                                new_term_description s))) other
       = dict_get (projects s) other).
Proof.
  intros Hu Hune Hc Hcne Hp Hg Hn Hd Hfresh.
  rewrite (add_glossary_term_ready now new_term_name new_term_description s
             user project_name project glossary Hu Hune Hc Hcne Hp Hg).
  destruct new_term_name as [|nc n]; [contradiction|].
  destruct new_term_description as [|dc d]; [contradiction|].
  cbn [nonempty andb]. rewrite Hfresh. cbn [fst snd].
  split; [reflexivity|]. split.
  - eexists. unfold glossary_of, store_project. cbn [projects set_projects].
    rewrite dict_get_set_same, dict_get_set_same.
    split; [reflexivity|]. split; [apply dict_get_set_same|].
    intros other Hother. apply dict_get_set_other. congruence.
  - intros other Hother. unfold store_project. cbn [projects set_projects].
    apply dict_get_set_other. congruence.
Qed.

(** X14, witness: a first term in the project of alice. *)
Lemma add_glossary_term_stores_entry_witness :
  fst (add_glossary_term (py "2025-01-02T09:00:00") (py "アルカナライト")
                         (py "魔力を帯びた鉱石") keyless_session)
    = Returned TermAdded /\
  exists glossary',
    glossary_of (snd (add_glossary_term (py "2025-01-02T09:00:00") (py "アルカナライト")
                                        (py "魔力を帯びた鉱石") keyless_session))
                (py "冒険譚") = Some (VDict glossary') /\
    dict_get glossary' (py "アルカナライト")
      = Some (glossary_entry (py "魔力を帯びた鉱石") (py "2025-01-02T09:00:00")).
Proof.
  destruct (add_glossary_term_stores_entry (py "2025-01-02T09:00:00")
              (py "アルカナライト") (py "魔力を帯びた鉱石") keyless_session
              (py "alice") (py "冒険譚") sample_project [])
    as (H1 & (glossary' & H2 & H3 & _) & _);
    [ reflexivity | vm_compute; discriminate | reflexivity | vm_compute; discriminate
    | vm_compute; reflexivity | vm_compute; reflexivity | vm_compute; discriminate
    | vm_compute; discriminate | reflexivity | ].
  split; [exact H1|]. exists glossary'. split; assumption.
Defined.

(** X15. Adding a glossary term whose name is already in the glossary,
    or with an empty name or description, changes nothing: the stored
    description of the term is not overwritten. *)
Theorem add_glossary_term_keeps_existing (now new_term_name new_term_description : pystr)
    (s : Session) (user project_name : pystr) (project glossary : pydict) :
  current_user s = Some user -> user <> [] ->
  current_project s = Some project_name -> project_name <> [] ->
  dict_get (projects s) project_name = Some (VDict project) ->
  dict_get project (py "glossary") = Some (VDict glossary) ->
  new_term_name = [] \/ new_term_description = [] \/
    dict_has glossary new_term_name = true ->
  snd (add_glossary_term now new_term_name new_term_description s) = s /\
  (fst (add_glossary_term now new_term_name new_term_description s)
     = Returned TermExists \/
   fst (add_glossary_term now new_term_name new_term_description s)
     = Returned TermInputMissing).
Proof.
  intros Hu Hune Hc Hcne Hp Hg Hcase.
  rewrite (add_glossary_term_ready now new_term_name new_term_description s
             user project_name project glossary Hu Hune Hc Hcne Hp Hg).
  destruct Hcase as [-> | [-> | Hhas]].
  - cbn. split; [reflexivity | right; reflexivity].
  - rewrite andb_false_r. cbn. split; [reflexivity | right; reflexivity].
  - rewrite Hhas.
    destruct (nonempty new_term_name && nonempty new_term_description); cbn;
      (split; [reflexivity|]); [left | right]; reflexivity.
Qed.

(** X15, witness: a term with an empty description. *)
Lemma add_glossary_term_keeps_existing_witness :
  snd (add_glossary_term (py "2025-01-02T09:00:00") (py "アルカナライト") (py "")
                         keyless_session)
    = keyless_session.
Proof.
  refine (proj1 (add_glossary_term_keeps_existing (py "2025-01-02T09:00:00")
                   (py "アルカナライト") (py "") keyless_session
                   (py "alice") (py "冒険譚") sample_project [] _ _ _ _ _ _ _));
    [ reflexivity | vm_compute; discriminate | reflexivity | vm_compute; discriminate
    | vm_compute; reflexivity | vm_compute; reflexivity | right; left; reflexivity ].
Defined.

(* ================================================================= *)
(** * The settings sidebar: API keys *)

Lemma get_sync_key_same (user_keys : pydict) (k key_input : pystr) :
  get (sync_key user_keys k key_input) k = VStr key_input.
Proof.
  unfold sync_key.
  destruct (is_str key_input (get user_keys k)) eqn:E; cbn [negb].
  - unfold is_str in E. destruct (get user_keys k); try discriminate.
    apply str_eqb_eq in E. congruence.
  - unfold get. rewrite dict_get_set_same. reflexivity.
Qed.

Lemma get_sync_key_other (user_keys : pydict) (k k' key_input : pystr) :
  k <> k' -> get (sync_key user_keys k key_input) k' = get user_keys k'.
Proof.
  intros Hne. unfold sync_key.
  destruct (negb (is_str key_input (get user_keys k))); [|reflexivity].
  unfold get. rewrite (dict_get_set_other _ _ _ _ Hne). reflexivity.
Qed.

Lemma get_synced_keys (user_keys : pydict) (p : Provider)
    (gemini_key_input openai_key_input claude_key_input : pystr) :
  get (sync_key (sync_key (sync_key user_keys (py "gemini") gemini_key_input)
                          (py "openai") openai_key_input)
                (py "claude") claude_key_input)
      (credential_key p)
    = VStr (key_input p gemini_key_input openai_key_input claude_key_input).
Proof.
  destruct p; cbn [credential_key key_input].
  - rewrite !get_sync_key_other by (apply str_eqb_neq; vm_compute; reflexivity).
    apply get_sync_key_same.
  - rewrite get_sync_key_other by (apply str_eqb_neq; vm_compute; reflexivity).
    apply get_sync_key_same.
  - apply get_sync_key_same.
Qed.

Lemma sync_api_keys_result (current_user : pystr)
    (gemini_key_input openai_key_input claude_key_input : pystr) (s s' : Session) :
  sync_api_keys current_user gemini_key_input openai_key_input claude_key_input s
    = Returned s' ->
  exists user_keys,
    s' = set_user_api_keys
           (dict_set (user_api_keys s) current_user (VDict user_keys)) s /\
    forall p, get user_keys (credential_key p)
              = VStr (key_input p gemini_key_input openai_key_input claude_key_input).
Proof.
  unfold sync_api_keys. intros H.
  destruct (match dict_get (user_api_keys s) current_user with
            | Some v => v
            | None => VDict []
            end) as [ | | | | | stored]; try discriminate.
  injection H as <-. eexists. split; [reflexivity|].
  intros p. apply get_synced_keys.
Qed.

Section KeySettings.

Variable isalnum : Z -> bool.
Variable sdk : pystr -> value -> pystr -> pystr -> sdk_result.
Variable lower : pystr -> pystr.

(** X16. After the settings sidebar has stored the three key fields for
    the logged-in user, the key check of the handlers passes exactly
    when the field of the selected provider is non-empty; the key
    dictionaries of other users are untouched. *)
Theorem key_check_reflects_key_field (user : pystr)
    (gemini_key_input openai_key_input claude_key_input : pystr)
    (s s' : Session) (p : Provider) :
  sync_api_keys user gemini_key_input openai_key_input claude_key_input s
    = Returned s' ->
  current_user s = Some user ->
  selected_model_provider s = provider_name p ->
  lower (provider_name p) = credential_key p ->
  is_api_key_set lower s'
    = Returned (nonempty (key_input p gemini_key_input openai_key_input
                                    claude_key_input)) /\
  (forall other, other <> user ->
     dict_get (user_api_keys s') other = dict_get (user_api_keys s) other).
Proof.
  intros Hsync Hu Hsel Hlow.
  destruct (sync_api_keys_result _ _ _ _ _ _ Hsync) as (user_keys & -> & Hkeys).
  split.
  - unfold is_api_key_set.
    cbn [selected_model_provider current_user user_api_keys set_user_api_keys].
    rewrite Hu, Hsel, Hlow, dict_get_set_same, Hkeys. reflexivity.
  - intros other Hother. cbn [user_api_keys set_user_api_keys].
    apply dict_get_set_other. congruence.
Qed.

(** X17. When the user has typed a key for the selected provider into
    the settings sidebar, and no entry of [user_api_keys] is named like
    the provider key (the entries are named by user), the key check of
    the handlers passes and the gateway still refuses the call for a
    missing credential: the sidebar stores the key under the user name,
    the gateway looks for it at the top level. *)
Theorem typed_key_passes_check_but_call_is_refused (user : pystr)
    (gemini_key_input openai_key_input claude_key_input now prompt : pystr)
    (s s' : Session) (p : Provider) :
  sync_api_keys user gemini_key_input openai_key_input claude_key_input s
    = Returned s' ->
  current_user s = Some user ->
  selected_model_provider s = provider_name p ->
  lower (provider_name p) = credential_key p ->
  key_input p gemini_key_input openai_key_input claude_key_input <> [] ->
  user <> credential_key p ->
  dict_has (user_api_keys s) (credential_key p) = false ->
  is_api_key_set lower s' = Returned true /\
  call_generative_api isalnum sdk now prompt s' = (missing_credential p, s').
Proof.
  intros Hsync Hu Hsel Hlow Htyped Huser Hnone.
  destruct (sync_api_keys_result _ _ _ _ _ _ Hsync) as (user_keys & -> & Hkeys).
  split.
  - unfold is_api_key_set.
    cbn [selected_model_provider current_user user_api_keys set_user_api_keys].
    rewrite Hu, Hsel, Hlow, dict_get_set_same, Hkeys.
    destruct (key_input p gemini_key_input openai_key_input claude_key_input);
      [contradiction | reflexivity].
  - apply refused_without_key; [exact Hsel|].
    cbn [user_api_keys set_user_api_keys]. unfold get.
    rewrite (dict_get_set_other _ _ _ _ Huser), (dict_has_false_get _ _ Hnone).
    reflexivity.
Qed.

End KeySettings.

(** X16, witness: alice types a Gemini key. *)
Lemma key_check_reflects_key_field_witness :
  is_api_key_set ascii_lower alice_with_key = Returned true.
Proof.
  refine (proj1 (key_check_reflects_key_field ascii_lower (py "alice")
                   (py "AIza-test") (py "") (py "") keyless_session alice_with_key
                   Gemini _ _ _ _));
    vm_compute; reflexivity.
Defined.

(** X17, witness: the call alice then makes is refused. *)
Lemma typed_key_passes_check_but_call_is_refused_witness :
  fst (call_generative_api ascii_isalnum story_sdk (py "2025-01-02T09:00:00")
                           (py "あらすじを書いて") alice_with_key)
    = missing_credential Gemini.
Proof.
  destruct (typed_key_passes_check_but_call_is_refused ascii_isalnum story_sdk
              ascii_lower (py "alice") (py "AIza-test") (py "") (py "")
              (py "2025-01-02T09:00:00") (py "あらすじを書いて")
              keyless_session alice_with_key Gemini) as [_ H];
    [ vm_compute; reflexivity | reflexivity | reflexivity | vm_compute; reflexivity
    | vm_compute; discriminate | vm_compute; discriminate | vm_compute; reflexivity | ].
  rewrite H. reflexivity.
Defined.

(* ================================================================= *)
(** * The character tab *)

Lemma active_project_ready (s : Session) (project_name : pystr) (project : pydict) :
  current_project s = Some project_name -> project_name <> [] ->
  dict_get (projects s) project_name = Some (VDict project) ->
  active_project s = Active project_name project.
Proof.
  intros Hc Hne Hp. unfold active_project. rewrite Hc.
  destruct project_name as [|c n]; [contradiction|]. rewrite Hp. reflexivity.
Qed.

Lemma characters_after_store (s : Session) (project_name : pystr)
    (project characters : pydict) :
  characters_of (store_project project_name
                   (dict_set project (py "characters") (VDict characters)) s)
                project_name
    = Some (VDict characters).
Proof.
  unfold characters_of, store_project. cbn [projects set_projects].
  rewrite dict_get_set_same. apply dict_get_set_same.
Qed.

Section CharacterTabFacts.

Variable isalnum : Z -> bool.
Variable sdk : pystr -> value -> pystr -> pystr -> sdk_result.
Variable lower : pystr -> pystr.

(** X18. Adding a character by hand under a non-empty name that is not
    taken stores the chosen role and the fixed placeholder for the
    details under that name, without any provider call; the other
    characters stay as they were. *)
Theorem manual_character_is_stored
    (now new_char_name new_char_role char_details_input : pystr)
    (s : Session) (project_name : pystr) (project characters : pydict) :
  current_project s = Some project_name -> project_name <> [] ->
  dict_get (projects s) project_name = Some (VDict project) ->
  dict_get project (py "characters") = Some (VDict characters) ->
  new_char_name <> [] ->
  dict_has characters new_char_name = false ->
  fst (add_character isalnum sdk lower now new_char_name new_char_role manual_mode
                     char_details_input s) = Returned CharacterAdded /\
  (exists characters',
     characters_of (snd (add_character isalnum sdk lower now new_char_name
                           new_char_role manual_mode char_details_input s))
                   project_name = Some (VDict characters') /\
     dict_get characters' new_char_name
       = Some (VDict [(py "role", VStr new_char_role);
                      (py "details",
                       VStr (py "手動入力用の詳細欄を追加してください。"))]) /\
     (forall other, other <> new_char_name ->
        dict_get characters' other = dict_get characters other)) /\
  sdk_requests (snd (add_character isalnum sdk lower now new_char_name new_char_role
                       manual_mode char_details_input s)) = sdk_requests s.
Proof.
  intros Hc Hne Hp Hchars Hname Hfresh. unfold add_character.
  rewrite (active_project_ready s project_name project Hc Hne Hp).
  destruct new_char_name as [|c n]; [contradiction|].
  rewrite str_eqb_refl. cbn [nonempty andb orb].
  unfold py_getitem. rewrite Hchars. cbn [py_in]. rewrite Hfresh.
  unfold store_character. cbn [py_setitem fst snd].
  split; [reflexivity|]. split; [|reflexivity].
  eexists. rewrite characters_after_store. split; [reflexivity|].
  split; [rewrite dict_get_set_same; vm_compute; reflexivity|].
  intros other Hother. apply dict_get_set_other. congruence.
Qed.

(** X19. In the AI mode, when the key check passes and the gateway
    returns a text the handler accepts (one that does not start with
    エラー), the handler reports success and reruns before the
    character is stored: the generated text is dropped and the
    characters of the project are what they were, although the call
    was made. *)
Theorem generated_character_is_not_stored
    (now new_char_name new_char_role char_details_input : pystr)
    (s : Session) (project_name : pystr) (project characters : pydict) :
  current_project s = Some project_name -> project_name <> [] ->
  dict_get (projects s) project_name = Some (VDict project) ->
  dict_get project (py "characters") = Some (VDict characters) ->
  new_char_name <> [] -> char_details_input <> [] ->
  dict_has characters new_char_name = false ->
  is_api_key_set lower s = Returned true ->
  startswith
    (text (fst (call_generative_api isalnum sdk now
                  (full_char_prompt new_char_name new_char_role char_details_input) s)))
    (py "エラー") = false ->
  add_character isalnum sdk lower now new_char_name new_char_role ai_mode
                char_details_input s
    = (Returned CharacterGenerated,
       snd (call_generative_api isalnum sdk now
              (full_char_prompt new_char_name new_char_role char_details_input) s)) /\
  characters_of (snd (add_character isalnum sdk lower now new_char_name new_char_role
                        ai_mode char_details_input s)) project_name
    = Some (VDict characters).
Proof.
  intros Hc Hne Hp Hchars Hname Hdetails Hfresh Hkey Hok.
  assert (Hrun : add_character isalnum sdk lower now new_char_name new_char_role ai_mode
                   char_details_input s
                 = (Returned CharacterGenerated,
                    snd (call_generative_api isalnum sdk now
                           (full_char_prompt new_char_name new_char_role
                                             char_details_input) s))).
  { unfold add_character.
    rewrite (active_project_ready s project_name project Hc Hne Hp).
    destruct new_char_name as [|c n]; [contradiction|].
    destruct char_details_input as [|d ds]; [contradiction|].
    cbn [nonempty andb]. rewrite orb_true_r.
    unfold py_getitem. rewrite Hchars. cbn [py_in]. rewrite Hfresh.
    replace (str_eqb ai_mode manual_mode) with false by (vm_compute; reflexivity).
    rewrite str_eqb_refl, Hkey.
    destruct (call_generative_api isalnum sdk now
                (full_char_prompt (c :: n) new_char_role (d :: ds)) s)
      as [api_response s1].
    cbn [fst snd] in *. rewrite Hok. reflexivity. }
  split; [exact Hrun|].
  rewrite Hrun. cbn [snd]. unfold characters_of.
  destruct (call_generative_api_frame isalnum sdk now
              (full_char_prompt new_char_name new_char_role char_details_input) s)
    as [-> _].
  rewrite Hp. exact Hchars.
Qed.

(** X20. In the AI mode a character is stored all the same when no
    text is accepted: with the role alone when the key check fails,
    and with the role and the details "AI生成に失敗しました。" when the
    gateway returns a text that starts with エラー. *)
Theorem character_without_generated_text_is_stored
    (now new_char_name new_char_role char_details_input : pystr)
    (s : Session) (project_name : pystr) (project characters : pydict) :
  current_project s = Some project_name -> project_name <> [] ->
  dict_get (projects s) project_name = Some (VDict project) ->
  dict_get project (py "characters") = Some (VDict characters) ->
  new_char_name <> [] -> char_details_input <> [] ->
  dict_has characters new_char_name = false ->
  (is_api_key_set lower s = Returned false ->
   characters_of (snd (add_character isalnum sdk lower now new_char_name new_char_role
                         ai_mode char_details_input s)) project_name
     = Some (VDict (dict_set characters new_char_name
                      (VDict [(py "role", VStr new_char_role)])))) /\
  (is_api_key_set lower s = Returned true ->
   startswith
     (text (fst (call_generative_api isalnum sdk now
                   (full_char_prompt new_char_name new_char_role char_details_input) s)))
     (py "エラー") = true ->
   characters_of (snd (add_character isalnum sdk lower now new_char_name new_char_role
                         ai_mode char_details_input s)) project_name
     = Some (VDict (dict_set characters new_char_name
                      (VDict [(py "role", VStr new_char_role);
                              (py "details", VStr (py "AI生成に失敗しました。"))])))).
Proof.
  intros Hc Hne Hp Hchars Hname Hdetails Hfresh.
  assert (Hhead : add_character isalnum sdk lower now new_char_name new_char_role ai_mode
                    char_details_input s
                  = match is_api_key_set lower s with
                    | Raised e => (Raised e, s)
                    | Returned false =>
                        store_character project_name project (VDict characters)
                          new_char_name [(py "role", VStr new_char_role)] s
                    | Returned true =>
                        let (api_response, s1) :=
                          call_generative_api isalnum sdk now
                            (full_char_prompt new_char_name new_char_role
                                              char_details_input) s in
                        if negb (startswith (text api_response) (py "エラー")) then
                          (Returned CharacterGenerated, s1)
                        else
                          store_character project_name project (VDict characters)
                            new_char_name
                            (dict_set [(py "role", VStr new_char_role)] (py "details")
                               (VStr (py "AI生成に失敗しました。"))) s1
                    end).
  { unfold add_character.
    rewrite (active_project_ready s project_name project Hc Hne Hp).
    destruct new_char_name as [|c n]; [contradiction|].
    destruct char_details_input as [|d ds]; [contradiction|].
    cbn [nonempty andb]. rewrite orb_true_r.
    unfold py_getitem. rewrite Hchars. cbn [py_in]. rewrite Hfresh.
    replace (str_eqb ai_mode manual_mode) with false by (vm_compute; reflexivity).
    rewrite str_eqb_refl. reflexivity. }
  rewrite Hhead. split.
  - intros ->. unfold store_character. cbn [py_setitem snd].
    apply characters_after_store.
  - intros -> Hbad.
    destruct (call_generative_api isalnum sdk now
                (full_char_prompt new_char_name new_char_role char_details_input) s)
      as [api_response s1].
    cbn [fst] in Hbad. rewrite Hbad. cbn [negb].
    unfold store_character. cbn [py_setitem snd].
    rewrite characters_after_store.
    replace (dict_set [(py "role", VStr new_char_role)] (py "details")
               (VStr (py "AI生成に失敗しました。")))
      with [(py "role", VStr new_char_role);
            (py "details", VStr (py "AI生成に失敗しました。"))]
      by (vm_compute; reflexivity).
    reflexivity.
Qed.

End CharacterTabFacts.

(** X18, witness: a rival added by hand to the project of alice. *)
Lemma manual_character_is_stored_witness :
  fst (add_character ascii_isalnum story_sdk ascii_lower (py "2025-01-02T09:00:00")
         (py "レン") (py "ライバル") manual_mode (py "") keyless_session)
    = Returned CharacterAdded.
Proof.
  refine (proj1 (manual_character_is_stored ascii_isalnum story_sdk ascii_lower
                   (py "2025-01-02T09:00:00") (py "レン") (py "ライバル") (py "")
                   keyless_session (py "冒険譚") sample_project [] _ _ _ _ _ _));
    [ reflexivity | vm_compute; discriminate | vm_compute; reflexivity
    | vm_compute; reflexivity | vm_compute; discriminate | reflexivity ].
Defined.

(** X19, witness: a generation that goes through and leaves the
    project without the character. *)
Lemma generated_character_is_not_stored_witness :
  characters_of
    (snd (add_character ascii_isalnum story_sdk ascii_lower (py "2025-01-02T09:00:00")
            (py "レン") (py "ライバル") ai_mode (py "クールで無口")
            generating_session))
    (py "冒険譚")
    = Some (VDict []).
Proof.
  refine (proj2 (generated_character_is_not_stored ascii_isalnum story_sdk ascii_lower
                   (py "2025-01-02T09:00:00") (py "レン") (py "ライバル")
                   (py "クールで無口") generating_session (py "冒険譚") sample_project []
                   _ _ _ _ _ _ _ _ _));
    [ reflexivity | vm_compute; discriminate | vm_compute; reflexivity
    | vm_compute; reflexivity | vm_compute; discriminate | vm_compute; discriminate
    | reflexivity | vm_compute; reflexivity | vm_compute; reflexivity ].
Defined.

(** X20, witness: alice has typed her key, the gateway refuses, and the
    character is stored with the failure text. *)
Lemma character_without_generated_text_is_stored_witness :
  characters_of
    (snd (add_character ascii_isalnum story_sdk ascii_lower (py "2025-01-02T09:00:00")
            (py "レン") (py "ライバル") ai_mode (py "クールで無口") alice_with_key))
    (py "冒険譚")
    = Some (VDict [(py "レン",
                    VDict [(py "role", VStr (py "ライバル"));
                           (py "details", VStr (py "AI生成に失敗しました。"))])]).
Proof.
  refine (proj2 (character_without_generated_text_is_stored ascii_isalnum story_sdk
                   ascii_lower (py "2025-01-02T09:00:00") (py "レン") (py "ライバル")
                   (py "クールで無口") alice_with_key (py "冒険譚") sample_project []
                   _ _ _ _ _ _ _) _ _);
    [ reflexivity | vm_compute; discriminate | vm_compute; reflexivity
    | vm_compute; reflexivity | vm_compute; discriminate | vm_compute; discriminate
    | reflexivity | vm_compute; reflexivity | vm_compute; reflexivity ].
Defined.

(* ================================================================= *)
(** * The writing tab *)

Lemma chapters_after_remember (project : pydict)
    (chapter_name plot_outline target_length writing_style : pystr) :
  dict_get (remember_chapter_form project chapter_name plot_outline target_length
                                  writing_style) (py "chapters")
    = dict_get project (py "chapters") /\
  dict_get (remember_chapter_form project chapter_name plot_outline target_length
                                  writing_style) (py "current_chapter_name")
    = Some (VStr chapter_name) /\
  dict_get (remember_chapter_form project chapter_name plot_outline target_length
                                  writing_style) (py "current_chapter_plot")
    = Some (VStr plot_outline).
Proof.
  unfold remember_chapter_form. split; [|split].
  - rewrite !dict_get_set_other by (apply str_eqb_neq; vm_compute; reflexivity).
    reflexivity.
  - rewrite !dict_get_set_other by (apply str_eqb_neq; vm_compute; reflexivity).
    apply dict_get_set_same.
  - rewrite !dict_get_set_other by (apply str_eqb_neq; vm_compute; reflexivity).
    apply dict_get_set_same.
Qed.

Section WritingTabFacts.

Variable str_of : value -> pystr.
Variable isalnum : Z -> bool.
Variable sdk : pystr -> value -> pystr -> pystr -> sdk_result.
Variable lower : pystr -> pystr.


(** X22. In the scope of the script the chapter handler, run with a
    title and a plot while the key check passes, ends in [NameError]
    for the name [project]: no request is made and no chapter is
    written, but the form fields have already been stored in the
    project. *)
Theorem chapter_handler_fails_in_script_scope
    (projects_at_start : pydict) (current_date : pystr)
    (now chapter_name plot_outline target_length writing_style : pystr)
    (s : Session) (project_name : pystr) (project : pydict) :
  current_project s = Some project_name -> project_name <> [] ->
  dict_get (projects s) project_name = Some (VDict project) ->
  chapter_name <> [] -> plot_outline <> [] ->
  is_api_key_set lower s = Returned true ->
  fst (write_chapter str_of isalnum sdk lower
         (script_scope projects_at_start current_date) now chapter_name plot_outline
         target_length writing_style s) = Raised (NameError (py "project")) /\
  sdk_requests (snd (write_chapter str_of isalnum sdk lower
                       (script_scope projects_at_start current_date) now chapter_name
                       plot_outline target_length writing_style s)) = sdk_requests s /\
  field_of (snd (write_chapter str_of isalnum sdk lower
                   (script_scope projects_at_start current_date) now chapter_name
                   plot_outline target_length writing_style s))
           project_name (py "chapters") = dict_get project (py "chapters") /\
  field_of (snd (write_chapter str_of isalnum sdk lower
                   (script_scope projects_at_start current_date) now chapter_name
                   plot_outline target_length writing_style s))
           project_name (py "current_chapter_name") = Some (VStr chapter_name) /\
  field_of (snd (write_chapter str_of isalnum sdk lower
                   (script_scope projects_at_start current_date) now chapter_name
                   plot_outline target_length writing_style s))
           project_name (py "current_chapter_plot") = Some (VStr plot_outline).
Proof.
  intros Hc Hne Hp Hname Hplot Hkey. unfold write_chapter.
  rewrite (active_project_ready s project_name project Hc Hne Hp).
  destruct chapter_name as [|c cn]; [contradiction|].
  destruct plot_outline as [|q po]; [contradiction|].
  cbn [nonempty negb orb].
  change (is_api_key_set lower (store_project project_name _ s))
    with (is_api_key_set lower s).
  rewrite Hkey. unfold generate_ai_content.
  rewrite build_prompt_in_script_scope. cbn [fst snd].
  destruct (chapters_after_remember project (c :: cn) (q :: po) target_length
                                    writing_style) as (Hr1 & Hr2 & Hr3).
  unfold field_of, store_project. cbn [projects set_projects sdk_requests].
  rewrite !dict_get_set_same.
  split; [reflexivity|]. split; [reflexivity|].
  split; [exact Hr1|]. split; [exact Hr2 | exact Hr3].
Qed.

(** X23. In the scope of the script the full-story handler never
    stores a story: whatever the session and the form, it leaves the
    session as it was and does not report success. *)
Theorem full_story_is_never_stored_in_script_scope
    (projects_at_start : pydict) (current_date : pystr)
    (now total_length chapter_count full_writing_style : pystr) (s : Session) :
  snd (generate_full_story str_of isalnum sdk lower
         (script_scope projects_at_start current_date) now total_length chapter_count
         full_writing_style s) = s /\
  fst (generate_full_story str_of isalnum sdk lower
         (script_scope projects_at_start current_date) now total_length chapter_count
         full_writing_style s) <> Returned StoryDone.
Proof.
  unfold generate_full_story.
  destruct (current_project s) as [[|c name]|]; cbn [fst snd];
    try (split; [reflexivity | discriminate]).
  destruct (dict_get (projects s) (c :: name)) as [[ | | | | | project]|];
    cbn [fst snd]; try (split; [reflexivity | discriminate]).
  destruct (is_api_key_set lower s) as [[|]|e]; cbn [fst snd];
    try (split; [reflexivity | discriminate]).
  unfold generate_ai_content. rewrite build_prompt_in_script_scope.
  cbn [fst snd]. split; [reflexivity | discriminate].
Qed.

End WritingTabFacts.

(** X22, witness: a third chapter for the sample project. *)
Lemma chapter_handler_fails_in_script_scope_witness :
  fst (write_chapter sample_str_of ascii_isalnum story_sdk ascii_lower
         (script_scope (projects generating_session) (py "2025-01-02"))
         (py "2025-01-02T09:00:00") (py "第3章") (py "旅立ちの朝") (py "3000-5000字")
         (py "三人称") generating_session)
    = Raised (NameError (py "project")).
Proof.
  refine (proj1 (chapter_handler_fails_in_script_scope sample_str_of ascii_isalnum
                   story_sdk ascii_lower (projects generating_session) (py "2025-01-02")
                   (py "2025-01-02T09:00:00") (py "第3章") (py "旅立ちの朝")
                   (py "3000-5000字") (py "三人称") generating_session (py "冒険譚")
                   sample_project _ _ _ _ _ _));
    [ reflexivity | vm_compute; discriminate | vm_compute; reflexivity
    | vm_compute; discriminate | vm_compute; discriminate | vm_compute; reflexivity ].
Defined.

(* ================================================================= *)
(** * The planning tab *)

Lemma missing_credential_is_error_text (p : Provider) :
  startswith (text (missing_credential p)) (py "エラー") = true.
Proof. destruct p; vm_compute; reflexivity. Qed.

Section PlanningTabFacts.

Variable isalnum : Z -> bool.
Variable sdk : pystr -> value -> pystr -> pystr -> sdk_result.
Variable lower : pystr -> pystr.

(** The gateway on a provider failure. *)
Lemma call_generative_api_failed (now prompt : pystr) (s : Session) (p : Provider)
    (message : pystr) :
  selected_model_provider s = provider_name p ->
  truthy (get (user_api_keys s) (credential_key p)) = true ->
  sdk (provider_name p) (get (user_api_keys s) (credential_key p))
      (get_model_name (provider_name p)) prompt = SdkException message ->
  call_generative_api isalnum sdk now prompt s
    = call_failed (get_model_name (provider_name p)) message
                  (note_sdk_request (provider_name p) prompt s).
Proof.
  intros Hsel Hkey Hsdk. unfold call_generative_api. rewrite Hsel.
  destruct p; cbn [provider_name credential_key] in *;
    eval_str_eqb; rewrite Hkey; cbn [negb]; rewrite Hsdk; reflexivity.
Qed.

Lemma theme_after_store (s : Session) (project_name : pystr) (project : pydict)
    (theme : value) :
  field_of (store_project project_name (dict_set project (py "theme") theme) s)
           project_name (py "theme") = Some theme.
Proof.
  unfold field_of, store_project. cbn [projects set_projects].
  rewrite dict_get_set_same. apply dict_get_set_same.
Qed.

(** X24. When the key check passes and the gateway refuses the call
    for a missing credential, the plan handler has made no request,
    shows the error text, and stores the fixed theme
    "成長と友情の物語" together with the genre and the target audience
    its two tables give for the chosen preferences. *)
Theorem refused_plan_stores_fallback_theme
    (now genre_preference target_preference tone_preference : pystr)
    (s : Session) (project_name : pystr) (project : pydict) (p : Provider) :
  current_project s = Some project_name -> project_name <> [] ->
  dict_get (projects s) project_name = Some (VDict project) ->
  is_api_key_set lower s = Returned true ->
  selected_model_provider s = provider_name p ->
  truthy (get (user_api_keys s) (credential_key p)) = false ->
  fst (generate_theme isalnum sdk lower now genre_preference target_preference
                      tone_preference s)
    = Returned (ThemeError (text (missing_credential p))) /\
  field_of (snd (generate_theme isalnum sdk lower now genre_preference
                   target_preference tone_preference s)) project_name (py "theme")
    = Some (VStr (py "成長と友情の物語")) /\
  field_of (snd (generate_theme isalnum sdk lower now genre_preference
                   target_preference tone_preference s)) project_name (py "genre")
    = Some (VStr (map_get genre_map genre_preference (py "その他"))) /\
  field_of (snd (generate_theme isalnum sdk lower now genre_preference
                   target_preference tone_preference s))
           project_name (py "target_audience")
    = Some (VStr (map_get target_map target_preference (py "特定ターゲット"))) /\
  sdk_requests (snd (generate_theme isalnum sdk lower now genre_preference
                       target_preference tone_preference s)) = sdk_requests s.
Proof.
  intros Hc Hne Hp Hkey Hsel Hcred. unfold generate_theme.
  rewrite (active_project_ready s project_name project Hc Hne Hp), Hkey.
  rewrite (refused_without_key isalnum sdk now _ _ p) by assumption.
  rewrite missing_credential_is_error_text. cbn [negb fst snd].
  split; [reflexivity|].
  split; [apply theme_after_store|].
  unfold field_of, store_project. cbn [projects set_projects sdk_requests].
  rewrite !dict_get_set_same.
  split; [|split; [|reflexivity]].
  - rewrite !dict_get_set_other by (apply str_eqb_neq; vm_compute; reflexivity).
    apply dict_get_set_same.
  - rewrite dict_get_set_other by (apply str_eqb_neq; vm_compute; reflexivity).
    apply dict_get_set_same.
Qed.

(** X25. When the key check passes, a credential is found and the SDK
    raises, the plan handler reports success and stores the text of
    the failure, "API呼び出し中にエラーが発生しました: " with the message,
    stripped, as the theme of the project. *)
Theorem failed_plan_stores_error_as_theme
    (now genre_preference target_preference tone_preference message : pystr)
    (s : Session) (project_name : pystr) (project : pydict) (p : Provider) :
  current_project s = Some project_name -> project_name <> [] ->
  dict_get (projects s) project_name = Some (VDict project) ->
  is_api_key_set lower s = Returned true ->
  selected_model_provider s = provider_name p ->
  truthy (get (user_api_keys s) (credential_key p)) = true ->
  sdk (provider_name p) (get (user_api_keys s) (credential_key p))
      (get_model_name (provider_name p))
      (theme_prompt (map_get genre_map genre_preference (py "その他"))
                    (map_get target_map target_preference (py "特定ターゲット"))
                    tone_preference)
    = SdkException message ->
  fst (generate_theme isalnum sdk lower now genre_preference target_preference
                      tone_preference s) = Returned ThemeDone /\
  field_of (snd (generate_theme isalnum sdk lower now genre_preference
                   target_preference tone_preference s)) project_name (py "theme")
    = Some (VStr (strip (py "API呼び出し中にエラーが発生しました: " ++ message))).
Proof.
  intros Hc Hne Hp Hkey Hsel Hcred Hsdk. unfold generate_theme.
  rewrite (active_project_ready s project_name project Hc Hne Hp), Hkey.
  rewrite (call_generative_api_failed now _ _ p message) by assumption.
  unfold call_failed. cbn [text].
  replace (startswith (py "API呼び出し中にエラーが発生しました: " ++ message)
                      (py "エラー")) with false by (vm_compute; reflexivity).
  cbn [negb fst snd].
  split; [reflexivity | apply theme_after_store].
Qed.

End PlanningTabFacts.

(** X24, witness: alice has typed her key and asks for a plan. *)
Lemma refused_plan_stores_fallback_theme_witness :
  field_of (snd (generate_theme ascii_isalnum story_sdk ascii_lower
                   (py "2025-01-02T09:00:00") (py "学園") (py "全年齢") (py "明るい")
                   alice_with_key))
           (py "冒険譚") (py "theme")
    = Some (VStr (py "成長と友情の物語")).
Proof.
  destruct (refused_plan_stores_fallback_theme ascii_isalnum story_sdk ascii_lower
              (py "2025-01-02T09:00:00") (py "学園") (py "全年齢") (py "明るい")
              alice_with_key (py "冒険譚") sample_project Gemini)
    as (_ & H & _);
    [ reflexivity | vm_compute; discriminate | vm_compute; reflexivity
    | vm_compute; reflexivity | reflexivity | vm_compute; reflexivity | ].
  exact H.
Defined.

(** X25, witness: a failing SDK behind Gemini. *)
Lemma failed_plan_stores_error_as_theme_witness :
  field_of (snd (generate_theme ascii_isalnum failing_sdk ascii_lower
                   (py "2025-01-02T09:00:00") (py "学園") (py "全年齢") (py "明るい")
                   generating_session))
           (py "冒険譚") (py "theme")
    = Some (VStr (py "API呼び出し中にエラーが発生しました: 401 Unauthorized")).
Proof.
  destruct (failed_plan_stores_error_as_theme ascii_isalnum failing_sdk ascii_lower
              (py "2025-01-02T09:00:00") (py "学園") (py "全年齢") (py "明るい")
              (py "401 Unauthorized") generating_session (py "冒険譚") sample_project
              Gemini)
    as (_ & H);
    [ reflexivity | vm_compute; discriminate | vm_compute; reflexivity
    | vm_compute; reflexivity | reflexivity | vm_compute; reflexivity
    | reflexivity | ].
  rewrite H. vm_compute. reflexivity.
Defined.

(* ================================================================= *)
(** * Registration *)

Lemma save_user_data_not_in_script_scope (projects_at_start : pydict)
    (current_date : pystr) :
  lookup (script_scope projects_at_start current_date) (py "save_user_data") = None.
Proof.
  unfold script_scope. rewrite !lookup_app.
  replace (lookup (opaque_names names_bound_before_views) (py "save_user_data"))
    with (@None binding) by (vm_compute; reflexivity).
  replace (lookup (opaque_names view_names) (py "save_user_data"))
    with (@None binding) by (vm_compute; reflexivity).
  unfold loop_variables.
  destruct (rev projects_at_start) as [|[project_name project_data] rest];
    cbn [lookup]; eval_str_eqb; reflexivity.
Qed.

(** X26. A registration form with a user name and two equal non-empty
    passwords logs the user in, records the name and the password and
    resets the key dictionary of that user name to empty, leaving the
    other users' keys alone; in the scope of the script the run then
    ends in [NameError] for [save_user_data], before the success
    message. *)
Theorem registration_logs_in_then_fails
    (projects_at_start : pydict) (current_date : pystr)
    (new_username new_password : pystr) (a : Account) (s : Session) :
  new_username <> [] -> new_password <> [] ->
  fst (setup_user (script_scope projects_at_start current_date)
                  new_username new_password new_password a s)
    = Raised (NameError (py "save_user_data")) /\
  fst (snd (setup_user (script_scope projects_at_start current_date)
                       new_username new_password new_password a s))
    = {| logged_in := true;
         registered_username := Some new_username;
         registered_password := Some new_password |} /\
  current_user (snd (snd (setup_user (script_scope projects_at_start current_date)
                                     new_username new_password new_password a s)))
    = Some new_username /\
  dict_get (user_api_keys
              (snd (snd (setup_user (script_scope projects_at_start current_date)
                                    new_username new_password new_password a s))))
           new_username = Some (VDict []) /\
  (forall other, other <> new_username ->
     dict_get (user_api_keys
                 (snd (snd (setup_user (script_scope projects_at_start current_date)
                                       new_username new_password new_password a s))))
              other = dict_get (user_api_keys s) other).
Proof.
  intros Hu Hp. unfold setup_user, call_global.
  rewrite save_user_data_not_in_script_scope.
  destruct new_username as [|uc u]; [contradiction|].
  destruct new_password as [|pc p]; [contradiction|].
  cbn [nonempty andb]. rewrite str_eqb_refl.
  cbn [fst snd current_user user_api_keys set_user_api_keys set_current_user].
  split; [reflexivity|]. split; [reflexivity|]. split; [reflexivity|].
  split; [apply dict_get_set_same|].
  intros other Hother. apply dict_get_set_other. congruence.
Qed.

(** X26, witness: alice registers again over her stored keys. *)
Lemma registration_logs_in_then_fails_witness :
  dict_get (user_api_keys
              (snd (snd (setup_user (script_scope [] (py "2025-01-02"))
                           (py "alice") (py "pw") (py "pw")
                           {| logged_in := false; registered_username := None;
                              registered_password := None |}
                           alice_with_key))))
           (py "alice") = Some (VDict []).
Proof.
  destruct (registration_logs_in_then_fails [] (py "2025-01-02") (py "alice") (py "pw")
              {| logged_in := false; registered_username := None;
                 registered_password := None |} alice_with_key)
    as (_ & _ & _ & H & _);
    [vm_compute; discriminate | vm_compute; discriminate |].
  exact H.
Defined.

(** X27. A registration form with an empty field or with two different
    passwords changes neither the login state nor the session, in any
    scope, and is answered with an error message. *)
Theorem invalid_registration_changes_nothing (g : scope)
    (new_username new_password confirm_password : pystr) (a : Account) (s : Session) :
  new_username = [] \/ new_password = [] \/ confirm_password = [] \/
    new_password <> confirm_password ->
  snd (setup_user g new_username new_password confirm_password a s) = (a, s) /\
  (fst (setup_user g new_username new_password confirm_password a s)
     = Returned PasswordMismatch \/
   fst (setup_user g new_username new_password confirm_password a s)
     = Returned SetupInputMissing).
Proof.
  intros H. unfold setup_user.
  destruct (nonempty new_username && nonempty new_password
            && nonempty confirm_password) eqn:E.
  - destruct (str_eqb new_password confirm_password) eqn:Eq.
    + apply str_eqb_eq in Eq.
      apply andb_true_iff in E as [E E3]. apply andb_true_iff in E as [E1 E2].
      destruct H as [-> | [-> | [-> | H]]]; try discriminate. contradiction.
    + split; [reflexivity | left; reflexivity].
  - split; [reflexivity | right; reflexivity].
Qed.

(** X27, witness: two passwords that differ. *)
Lemma invalid_registration_changes_nothing_witness :
  fst (setup_user (script_scope [] (py "2025-01-02")) (py "alice") (py "pw") (py "pv")
         {| logged_in := false; registered_username := None;
            registered_password := None |} keyless_session)
    = Returned PasswordMismatch.
Proof.
  destruct (invalid_registration_changes_nothing (script_scope [] (py "2025-01-02"))
              (py "alice") (py "pw") (py "pv")
              {| logged_in := false; registered_username := None;
                 registered_password := None |} keyless_session) as [_ [H | H]];
    [ right; right; right; vm_compute; discriminate | exact H | ].
  vm_compute in H. discriminate H.
Defined.

(* ================================================================= *)
(** * The ledger over a session *)

Lemma tokens_of_app (cs1 cs2 : list LogCall) :
  tokens_of (cs1 ++ cs2) = tokens_of cs1 + tokens_of cs2.
Proof.
  unfold tokens_of.
  induction cs1 as [|c cs1 IH]; cbn [app fold_right]; [reflexivity|].
  rewrite IH. lia.
Qed.

Lemma tokens_of_nonneg (cs : list LogCall) :
  forallb nonnegative_tokens cs = true -> 0 <= tokens_of cs.
Proof.
  induction cs as [|c cs IH]; cbn [forallb tokens_of fold_right]; [lia|].
  intros H. apply andb_true_iff in H as [Hc Hcs].
  unfold nonnegative_tokens in Hc. apply andb_true_iff in Hc as [H1 H2].
  apply Z.leb_le in H1. apply Z.leb_le in H2.
  fold (tokens_of cs). specialize (IH Hcs). lia.
Qed.

Lemma ledger_ok_log (u : ApiUsage) (cs : list LogCall) (c : LogCall) :
  ledger_ok u cs -> ledger_ok (log_call u c) (cs ++ [c]).
Proof.
  intros (H1 & H2 & H3 & H4 & H5). unfold ledger_ok, log_call.
  rewrite log_api_usage_history, H5, map_app, length_app, tokens_of_app.
  unfold log_api_usage;
    cbn [total_requests daily_requests total_tokens_used daily_tokens_used
         List.length map tokens_of fold_right].
  split; [lia|]. split; [lia|]. split; [lia|].
  split.
  - rewrite forallb_app. intros Hn. apply andb_true_iff in Hn as [Hcs Hc].
    specialize (H4 Hcs). cbn [forallb] in Hc. rewrite andb_true_r in Hc.
    unfold nonnegative_tokens in Hc. apply andb_true_iff in Hc as [Hp Hr].
    apply Z.leb_le in Hp. apply Z.leb_le in Hr. lia.
  - apply last_n_snoc. lia.
Qed.

Lemma ledger_ok_reset (u : ApiUsage) (cs : list LogCall) (current_date : pystr) :
  ledger_ok u cs -> ledger_ok (daily_reset current_date u) cs.
Proof.
  intros (H1 & H2 & H3 & H4 & H5). unfold ledger_ok, daily_reset.
  destruct (negb (str_eqb (last_reset_date u) current_date)).
  - cbn [total_requests daily_requests total_tokens_used daily_tokens_used
         request_history].
    split; [exact H1|]. split; [lia|]. split; [exact H3|].
    split; [|exact H5].
    intros Hn. specialize (H4 Hn). pose proof (tokens_of_nonneg cs Hn). lia.
  - repeat split; try assumption; try lia; apply H4; assumption.
Qed.

Lemma run_ops_ok (ops : list ledger_op) (u : ApiUsage) (cs : list LogCall) :
  ledger_ok u cs -> ledger_ok (run_ops ops u) (cs ++ logged ops).
Proof.
  revert u cs; induction ops as [|op ops IH]; intros u cs H.
  - cbn [run_ops fold_left logged flat_map]. rewrite app_nil_r. exact H.
  - change (run_ops (op :: ops) u) with (run_ops ops (apply_op u op)).
    destruct op as [c | current_date].
    + change (logged (LogOp c :: ops)) with ([c] ++ logged ops).
      rewrite app_assoc. apply IH. apply ledger_ok_log. exact H.
    + change (logged (ResetOp current_date :: ops)) with (logged ops).
      apply IH. apply ledger_ok_reset. exact H.
Qed.

(** X28. Over any sequence of logged calls and date resets from a fresh
    ledger: the lifetime request count is the number of logged calls,
    the daily request count lies between 0 and the lifetime count, the
    lifetime token count is the sum of all logged tokens, the history
    is the last 100 logged records in order (resets do not touch it),
    and when no logged count is negative the daily token count lies
    between 0 and the lifetime token count. *)
Theorem ledger_invariants (today : pystr) (ops : list ledger_op) :
  total_requests (run_ops ops (initial_usage today))
    = Z.of_nat (List.length (logged ops)) /\
  0 <= daily_requests (run_ops ops (initial_usage today))
    <= total_requests (run_ops ops (initial_usage today)) /\
  total_tokens_used (run_ops ops (initial_usage today)) = tokens_of (logged ops) /\
  request_history (run_ops ops (initial_usage today))
    = last_n 100 (map record_of (logged ops)) /\
  (List.length (request_history (run_ops ops (initial_usage today))) <= 100)%nat /\
  (forallb nonnegative_tokens (logged ops) = true ->
   0 <= daily_tokens_used (run_ops ops (initial_usage today))
     <= total_tokens_used (run_ops ops (initial_usage today))).
Proof.
  assert (H0 : ledger_ok (initial_usage today) []).
  { unfold ledger_ok. cbn. repeat split; try lia; reflexivity. }
  destruct (run_ops_ok ops (initial_usage today) [] H0) as (H1 & H2 & H3 & H4 & H5).
  cbn [app] in *.
  split; [exact H1|]. split; [exact H2|]. split; [exact H3|].
  split; [exact H5|]. split; [|exact H4].
  rewrite H5, last_n_length. lia.
Qed.

(** X28, witness: a call, a reset on the next day, and a second call. *)
Lemma ledger_invariants_witness :
  daily_requests
    (run_ops [LogOp {| call_now := py "2025-01-01T10:00:00"; call_prompt := py "a";
                       call_response := py "b"; call_model := py "gpt-4o-mini";
                       call_prompt_tokens := 300; call_response_tokens := 400 |};
              ResetOp (py "2025-01-02");
              LogOp {| call_now := py "2025-01-02T09:00:00"; call_prompt := py "c";
                       call_response := py "d"; call_model := py "gpt-4o-mini";
                       call_prompt_tokens := 10; call_response_tokens := 20 |}]
             (initial_usage (py "2025-01-01"))) = 1 /\
  0 <= daily_tokens_used
         (run_ops [LogOp {| call_now := py "2025-01-01T10:00:00"; call_prompt := py "a";
                            call_response := py "b"; call_model := py "gpt-4o-mini";
                            call_prompt_tokens := 300; call_response_tokens := 400 |};
                   ResetOp (py "2025-01-02");
                   LogOp {| call_now := py "2025-01-02T09:00:00"; call_prompt := py "c";
                            call_response := py "d"; call_model := py "gpt-4o-mini";
                            call_prompt_tokens := 10; call_response_tokens := 20 |}]
                  (initial_usage (py "2025-01-01")))
    <= total_tokens_used
         (run_ops [LogOp {| call_now := py "2025-01-01T10:00:00"; call_prompt := py "a";
                            call_response := py "b"; call_model := py "gpt-4o-mini";
                            call_prompt_tokens := 300; call_response_tokens := 400 |};
                   ResetOp (py "2025-01-02");
                   LogOp {| call_now := py "2025-01-02T09:00:00"; call_prompt := py "c";
                            call_response := py "d"; call_model := py "gpt-4o-mini";
                            call_prompt_tokens := 10; call_response_tokens := 20 |}]
                  (initial_usage (py "2025-01-01"))).
Proof.
  split; [vm_compute; reflexivity|].
  apply (ledger_invariants (py "2025-01-01")). vm_compute. reflexivity.
Defined.

(* ================================================================= *)
(** * Export, import and the script prologue *)


Lemma dict_has_app (a b : pydict) (k : pystr) :
  dict_has (a ++ b) k = dict_has a k || dict_has b k.
Proof.
  induction a as [|[k0 v0] a IH]; cbn [app dict_has]; [reflexivity|].
  rewrite IH. apply orb_assoc.
Qed.

Lemma distinct_keys_app_fresh (d other : pydict) (k : pystr) (v : value) :
  distinct_keys (d ++ (k, v) :: other) = true -> dict_has d k = false.
Proof.
  induction d as [|[k0 v0] d IH]; cbn [app distinct_keys dict_has]; [reflexivity|].
  intros H. apply andb_true_iff in H as [Hfresh Hd]. apply negb_true_iff in Hfresh.
  rewrite dict_has_app in Hfresh. apply orb_false_iff in Hfresh as [_ Hb].
  cbn [dict_has] in Hb. apply orb_false_iff in Hb as [Hk _].
  rewrite (str_eqb_sym k0 k), Hk. apply IH. exact Hd.
Qed.

Lemma dict_update_fresh (other d : pydict) :
  distinct_keys (d ++ other) = true -> dict_update d other = d ++ other.
Proof.
  revert d; induction other as [|[k v] other IH]; intros d H.
  - rewrite app_nil_r. reflexivity.
  - change (dict_update d ((k, v) :: other)) with (dict_update (dict_set d k v) other).
    rewrite (dict_set_fresh d k v (distinct_keys_app_fresh d other k v H)).
    rewrite IH; rewrite <- app_assoc; [reflexivity | exact H].
Qed.

Lemma in_dict_has (d : pydict) (k : pystr) (v : value) :
  In (k, v) d -> dict_has d k = true.
Proof.
  induction d as [|[k0 v0] d IH]; cbn [In dict_has]; [contradiction|].
  intros [[= -> ->] | H]; [rewrite str_eqb_refl; reflexivity|].
  rewrite (IH H). apply orb_true_r.
Qed.

Lemma in_distinct_get (d : pydict) (k : pystr) (v : value) :
  distinct_keys d = true -> In (k, v) d -> dict_get d k = Some v.
Proof.
  induction d as [|[k0 v0] d IH]; cbn [In distinct_keys dict_get]; [contradiction|].
  intros Hd [[= -> ->] | Hin]; [rewrite str_eqb_refl; reflexivity|].
  apply andb_true_iff in Hd as [Hfresh Hd]. apply negb_true_iff in Hfresh.
  destruct (str_eqb k0 k) eqn:E.
  - apply str_eqb_eq in E. subst k0.
    rewrite (in_dict_has d k v Hin) in Hfresh. discriminate.
  - apply IH; assumption.
Qed.

Lemma dict_update_known (other d : pydict) :
  (forall k v, In (k, v) other -> dict_get d k = Some v) ->
  dict_update d other = d.
Proof.
  induction other as [|[k v] other IH]; intros H; [reflexivity|].
  change (dict_update d ((k, v) :: other)) with (dict_update (dict_set d k v) other).
  rewrite (dict_set_same_value d k v (H k v (or_introl eq_refl))).
  apply IH. intros k' v' Hin. apply H. right. exact Hin.
Qed.

Lemma backfill_all_has_glossary (ps : pydict) :
  has_glossary ps = true -> backfill_all ps = (ps, None).
Proof.
  induction ps as [|[name project_data] ps IH]; cbn [has_glossary]; [reflexivity|].
  destruct project_data as [ | | | | | project]; try discriminate.
  intros H. apply andb_true_iff in H as [Hg Hrest].
  cbn [backfill_all backfill_glossary]. rewrite Hg. cbn [negb].
  rewrite (IH Hrest). reflexivity.
Qed.

Lemma has_glossary_after_backfill (ps : pydict) :
  all_dicts ps = true ->
  has_glossary (map (fun kv => (fst kv, with_glossary (snd kv))) ps) = true.
Proof.
  induction ps as [|[name project_data] ps IH]; [reflexivity|].
  unfold all_dicts. cbn [forallb snd]. intros H.
  apply andb_true_iff in H as [H1 H2].
  destruct project_data as [ | | | | | project]; try discriminate.
  cbn [map fst snd].
  destruct (with_glossary_has_glossary project) as (project' & E & Hhas & _).
  rewrite E. cbn [has_glossary]. rewrite Hhas. apply IH. exact H2.
Qed.

(** X29. Importing the exported project mapping into an empty store
    reproduces the mapping, in the same order, and importing it into
    the store it was exported from changes nothing, provided every
    project carries a glossary (as every project does after the script
    prologue). *)
Theorem export_then_import_round_trip (s : Session) (exported : pydict) :
  distinct_keys exported = true ->
  has_glossary exported = true ->
  import_projects (Loaded exported) (set_projects [] s)
    = (ImportDone, set_projects exported s) /\
  (projects s = exported -> import_projects (Loaded exported) s = (ImportDone, s)).
Proof.
  intros Hd Hg. split.
  - unfold import_projects. cbn [projects set_projects].
    rewrite (dict_update_fresh exported [] Hd). cbn [app].
    rewrite (backfill_all_has_glossary _ Hg). reflexivity.
  - intros Hs. unfold import_projects. rewrite Hs.
    rewrite (dict_update_known exported exported)
      by (intros k v Hin; apply in_distinct_get; assumption).
    cbn [projects set_projects].
    rewrite (backfill_all_has_glossary _ Hg). subst exported.
    destruct s; reflexivity.
Qed.

(** X29, witness: the store of alice, exported and imported again. *)
Lemma export_then_import_round_trip_witness :
  import_projects (Loaded (projects keyless_session)) keyless_session
    = (ImportDone, keyless_session).
Proof.
  refine (proj2 (export_then_import_round_trip keyless_session
                   (projects keyless_session) _ _) eq_refl);
    vm_compute; reflexivity.
Defined.

Lemma daily_reset_twice (current_date : pystr) (u : ApiUsage) :
  daily_reset current_date (daily_reset current_date u) = daily_reset current_date u /\
  last_reset_date (daily_reset current_date u) = current_date.
Proof.
  unfold daily_reset at 2 3 4.
  destruct (str_eqb (last_reset_date u) current_date) eqn:E; cbn [negb].
  - split; [unfold daily_reset; rewrite E; reflexivity|].
    apply str_eqb_eq. exact E.
  - split; [|reflexivity].
    unfold daily_reset. cbn [last_reset_date]. rewrite str_eqb_refl. reflexivity.
Qed.

(** X30. On a store whose projects are all dictionaries the script
    prologue succeeds; after it every project has a glossary and the
    ledger carries the current date, and running the prologue again on
    the same day changes nothing. *)
Theorem script_prologue_is_idempotent (current_date : pystr) (s : Session) :
  all_dicts (projects s) = true ->
  fst (script_prologue current_date s) = Returned tt /\
  has_glossary (projects (snd (script_prologue current_date s))) = true /\
  last_reset_date (api_usage (snd (script_prologue current_date s))) = current_date /\
  script_prologue current_date (snd (script_prologue current_date s))
    = (Returned tt, snd (script_prologue current_date s)).
Proof.
  intros Hall.
  assert (Hrun : script_prologue current_date s =
                 (Returned tt,
                  set_api_usage (daily_reset current_date (api_usage s))
                    (set_projects
                       (map (fun kv => (fst kv, with_glossary (snd kv))) (projects s))
                       s))).
  { unfold script_prologue. rewrite (backfill_all_dicts _ Hall). reflexivity. }
  rewrite Hrun. cbn [fst snd projects api_usage set_api_usage set_projects].
  pose proof (has_glossary_after_backfill _ Hall) as Hg.
  destruct (daily_reset_twice current_date (api_usage s)) as [Htwice Hdate].
  split; [reflexivity|]. split; [exact Hg|]. split; [exact Hdate|].
  unfold script_prologue. cbn [projects api_usage set_api_usage set_projects].
  rewrite (backfill_all_has_glossary _ Hg), Htwice. reflexivity.
Qed.

(** X30, witness: the prologue on the day after, in the session of
    alice. *)
Lemma script_prologue_is_idempotent_witness :
  daily_requests (api_usage (snd (script_prologue (py "2025-01-02") keyless_session)))
    = 0 /\
  script_prologue (py "2025-01-02")
                  (snd (script_prologue (py "2025-01-02") keyless_session))
    = (Returned tt, snd (script_prologue (py "2025-01-02") keyless_session)).
Proof.
  split; [vm_compute; reflexivity|].
  apply (script_prologue_is_idempotent (py "2025-01-02") keyless_session).
  vm_compute. reflexivity.
Defined.
